(** * System metrics dashboard: collector and renderer

    A shallow embedding of [health-checks/system_metrics_report.py]:
    the [SystemMetrics] collector, which fills a snapshot of metric groups
    from files and command outputs, and the [HTMLReportGenerator], which
    turns that snapshot into one HTML document.

    Conventions of the embedding.
    - Python [int] is [Z].  Python [float] is an IEEE 754 binary64 value,
      taken from the Standard Library's executable specification
      ([spec_float], precision 53, [emax] 1024), always in canonical form.
    - Python [str] is [string]; one [ascii] stands for one character.
    - A Python exception is a value of [exn]; only subclasses of
      [Exception] are modelled (an [except Exception] and a bare [except]
      then catch the same things).
    - The host (files and external commands) is a record [World] of what
      each read or command returns or raises. *)

From Stdlib Require Import ZArith String Ascii List DecimalString Bool Lia.
From Stdlib Require Import Floats.SpecFloat.
From stdpp Require Import base option list gmap strings.

Local Open Scope string_scope.
Local Open Scope Z_scope.

(** ** Exceptions and fallible expressions *)

Variant exn_class :=
  | FileNotFoundError | OSError | KeyError | IndexError | ValueError
  | TypeError | ZeroDivisionError | OverflowError
  | CalledProcessError | TimeoutExpired.

(** [exn_msg] is what [str(e)] returns. *)
Record exn := Exn { exn_cls : exn_class; exn_msg : string }.

Definition Result (A : Type) : Type := exn + A.

Definition ok {A} (a : A) : Result A := inr a.
Definition raise {A} (c : exn_class) (msg : string) : Result A := inl (Exn c msg).

Definition rbind {A B} (r : Result A) (k : A -> Result B) : Result B :=
  match r with
  | inl e => inl e
  | inr a => k a
  end.

Declare Scope result_scope.
Delimit Scope result_scope with result.
Notation "'let?' x := r 'in' k" := (rbind r (fun x => k))
  (at level 10, x pattern, r at level 100, k at level 200) : result_scope.
Local Open Scope result_scope.

(** [try: body except: handler], the handler catching every exception. *)
Definition try_except {A} (body : Result A) (handler : exn -> Result A) : Result A :=
  match body with
  | inl e => handler e
  | inr a => inr a
  end.

Definition is_FileNotFoundError (e : exn) : bool :=
  match exn_cls e with FileNotFoundError => true | _ => false end.

(** [for x in xs: ...] over a fallible body that builds a list. *)
Fixpoint rmap {A B} (f : A -> Result B) (xs : list A) : Result (list B) :=
  match xs with
  | [] => ok []
  | x :: xs' =>
      let? y := f x in
      let? ys := rmap f xs' in
      ok (y :: ys)
  end.

(** ** Python strings *)

(** The double quote, written [`] inside the literals of this file and put
    back by [q]; the source holds no backquote. *)
Definition dquote : ascii := ascii_of_nat 34.
Definition backquote : ascii := ascii_of_nat 96.
Definition newline : ascii := ascii_of_nat 10.

Fixpoint q (s : string) : string :=
  match s with
  | EmptyString => EmptyString
  | String c s' => String (if Ascii.eqb c backquote then dquote else c) (q s')
  end.

(** [str.isspace] on one character of the ASCII range. *)
Definition is_space (c : ascii) : bool :=
  let n := nat_of_ascii c in
  (Nat.eqb n 32 || (Nat.leb 9 n && Nat.leb n 13) || (Nat.leb 28 n && Nat.leb n 31))%bool.

Definition is_digit (c : ascii) : bool :=
  let n := nat_of_ascii c in (Nat.leb 48 n && Nat.leb n 57)%bool.

Definition str_of_chars (l : list ascii) : string := string_of_list_ascii l.
Definition chars (s : string) : list ascii := list_ascii_of_string s.

(** [s.lstrip()], [s.rstrip()], [s.strip()]. *)
Fixpoint lstrip (s : string) : string :=
  match s with
  | String c s' => if is_space c then lstrip s' else s
  | EmptyString => EmptyString
  end.

Fixpoint drop_while_rev (p : ascii -> bool) (s : string) : string :=
  match s with
  | EmptyString => EmptyString
  | String c s' =>
      match drop_while_rev p s' with
      | EmptyString => if p c then EmptyString else String c EmptyString
      | t => String c t
      end
  end.

Definition rstrip (s : string) : string := drop_while_rev is_space s.
Definition strip (s : string) : string := rstrip (lstrip s).

(** [s.rstrip(c)] for a one-character argument. *)
Definition rstrip_char (c : ascii) (s : string) : string :=
  drop_while_rev (Ascii.eqb c) s.

(** [s.split()]: the maximal runs of non-blank characters. *)
Fixpoint split_ws_go (s : string) (cur : list ascii) : list string :=
  match s with
  | EmptyString =>
      match cur with [] => [] | _ => [str_of_chars (rev cur)] end
  | String c s' =>
      if is_space c then
        match cur with
        | [] => split_ws_go s' []
        | _ => str_of_chars (rev cur) :: split_ws_go s' []
        end
      else split_ws_go s' (c :: cur)
  end.

Definition split_ws (s : string) : list string := split_ws_go s [].

(** [s.split(None, n)]: at most [n] splits; what is left after the n-th
    field, leading blanks removed, is the last element. *)
Fixpoint split_ws_max_go (n : nat) (s : string) (cur : list ascii) : list string :=
  match s with
  | EmptyString =>
      match cur with [] => [] | _ => [str_of_chars (rev cur)] end
  | String c s' =>
      match cur with
      | [] =>
          if is_space c then split_ws_max_go n s' []
          else match n with
               | O => [s]
               | S _ => split_ws_max_go n s' [c]
               end
      | _ =>
          if is_space c then
            str_of_chars (rev cur) :: split_ws_max_go (pred n) s' []
          else split_ws_max_go n s' (c :: cur)
      end
  end.

Definition split_ws_max (n : nat) (s : string) : list string := split_ws_max_go n s [].

(** [s.split(c)] for a one-character separator: never empty. *)
Fixpoint split_char_go (sep : ascii) (s : string) (cur : list ascii) : list string :=
  match s with
  | EmptyString => [str_of_chars (rev cur)]
  | String c s' =>
      if Ascii.eqb c sep then str_of_chars (rev cur) :: split_char_go sep s' []
      else split_char_go sep s' (c :: cur)
  end.

Definition split_char (sep : ascii) (s : string) : list string := split_char_go sep s [].

(** [s.split(c, 1)]: one or two elements. *)
Fixpoint split_char1_go (sep : ascii) (s : string) (cur : list ascii) : list string :=
  match s with
  | EmptyString => [str_of_chars (rev cur)]
  | String c s' =>
      if Ascii.eqb c sep then [str_of_chars (rev cur); s']
      else split_char1_go sep s' (c :: cur)
  end.

Definition split_char1 (sep : ascii) (s : string) : list string := split_char1_go sep s [].

(** [for line in f]: the lines of a file, each with its newline. *)
Fixpoint file_lines_go (s : string) (cur : list ascii) : list string :=
  match s with
  | EmptyString =>
      match cur with [] => [] | _ => [str_of_chars (rev cur)] end
  | String c s' =>
      if Ascii.eqb c newline then str_of_chars (rev (c :: cur)) :: file_lines_go s' []
      else file_lines_go s' (c :: cur)
  end.

Definition file_lines (s : string) : list string := file_lines_go s [].

(** [s.startswith(p)] and [p in s]. *)
Fixpoint startswith (p s : string) : bool :=
  match p, s with
  | EmptyString, _ => true
  | String a p', String b s' => Ascii.eqb a b && startswith p' s'
  | String _ _, EmptyString => false
  end.

Fixpoint contains (p s : string) : bool :=
  startswith p s ||
  match s with
  | EmptyString => false
  | String _ s' => contains p s'
  end.

(** [sep.join(xs)]. *)
Fixpoint join (sep : string) (xs : list string) : string :=
  match xs with
  | [] => ""
  | [x] => x
  | x :: xs' => x +:+ sep +:+ join sep xs'
  end.

(** [s[:n]] and [len(s)]. *)
Fixpoint str_take (n : nat) (s : string) : string :=
  match n, s with
  | S n', String c s' => String c (str_take n' s')
  | _, _ => EmptyString
  end.

Definition len (s : string) : Z := Z.of_nat (String.length s).

(** [str(n)] for an [int]. *)
Definition str_int (n : Z) : string := NilZero.string_of_int (Z.to_int n).

(** [repr(s)] as [KeyError] prints its key (no quote inside the keys used). *)
Definition repr_key (k : string) : string := "'" +:+ k +:+ "'".

(** [int(s)] for a decimal literal: blanks around, an optional sign, then
    digits.  (Digit grouping with [_] is not modelled.) *)
Fixpoint digits_value (s : string) (acc : Z) : option Z :=
  match s with
  | EmptyString => Some acc
  | String c s' =>
      if is_digit c then digits_value s' (10 * acc + Z.of_nat (nat_of_ascii c - 48))
      else None
  end.

Definition int_error (s : string) : exn :=
  Exn ValueError ("invalid literal for int() with base 10: '" +:+ s +:+ "'").

Definition py_int (s : string) : Result Z :=
  let body := strip s in
  let '(neg, ds) :=
    match body with
    | String "-" r => (true, r)
    | String "+" r => (false, r)
    | _ => (false, body)
    end in
  match ds with
  | EmptyString => inl (int_error s)
  | _ =>
      match digits_value ds 0 with
      | Some v => ok (if neg then - v else v)
      | None => inl (int_error s)
      end
  end.

(** [xs[i]] on a list, raising [IndexError] out of range. *)
Definition index {A} (xs : list A) (i : nat) : Result A :=
  match xs !! i with
  | Some x => ok x
  | None => raise IndexError "list index out of range"
  end.

(** ** Python floats *)

Abbreviation float := spec_float.

(** The binary64 value nearest to [m * 2^e] (ties to even). *)
Definition fnorm (m e : Z) : float := binary_normalize 53 1024 m e false.

(** An integer as an unrounded mantissa, for the correctly rounded
    quotient of two integers. *)
Definition raw_int (n : Z) : float :=
  match n with
  | Z0 => S754_zero false
  | Zpos p => S754_finite false p 0
  | Zneg p => S754_finite true p 0
  end.

(** [float(n)] for an [int]. *)
Definition float_of_int (n : Z) : Result float :=
  match fnorm n 0 with
  | S754_infinity _ => raise OverflowError "int too large to convert to float"
  | x => ok x
  end.

(** [a / b] on two [int]s: the quotient, correctly rounded. *)
Definition int_truediv (a b : Z) : Result float :=
  if b =? 0 then raise ZeroDivisionError "division by zero"
  else
    match SFdiv 53 1024 (raw_int a) (raw_int b) with
    | S754_infinity _ =>
        raise OverflowError "integer division result too large for a float"
    | x => ok x
    end.

Definition is_zero (x : float) : bool :=
  match x with S754_zero _ => true | _ => false end.

(** [x / y] and [x * y] on two [float]s. *)
Definition float_truediv (x y : float) : Result float :=
  if is_zero y then raise ZeroDivisionError "float division by zero"
  else ok (SFdiv 53 1024 x y).

Definition float_mul (x y : float) : float := SFmul 53 1024 x y.

(** The exact value [m * 2^e] as a fraction [(p, d)], [d > 0]. *)
Definition exact_ratio (m : positive) (e : Z) : Z * Z :=
  if 0 <=? e then (Zpos m * 2 ^ e, 1) else (Zpos m, 2 ^ (- e)).

(** [p / d] rounded to the nearest integer, ties to even ([0 <= p], [0 < d]). *)
Definition round_half_even (p d : Z) : Z :=
  let n := p / d in
  match (2 * (p mod d)) ?= d with
  | Lt => n
  | Gt => n + 1
  | Eq => if Z.even n then n else n + 1
  end.

(** The float nearest to the decimal [dgt * 10^s] ([0 <= dgt]). *)
Definition dec_to_float (sign : bool) (dgt s : Z) : float :=
  if dgt =? 0 then S754_zero sign
  else
    let n := if sign then - dgt else dgt in
    if 0 <=? s then binary_normalize 53 1024 (n * 10 ^ s) 0 false
    else SFdiv 53 1024 (raw_int n) (raw_int (10 ^ (- s))).

(** [round(x, n)] for [n] digits after the point: the exact value of [x]
    rounded to [n] decimals, ties to even, then the float nearest to that
    decimal. *)
Definition py_round (x : float) (n : nat) : float :=
  match x with
  | S754_finite s m e =>
      let '(p, d) := exact_ratio m e in
      dec_to_float s (round_half_even (p * 10 ^ Z.of_nat n) d) (- Z.of_nat n)
  | _ => x
  end.

Definition float_eqb (x y : float) : bool := SFeqb x y.

(** Exact comparison of a float with an integer, as Python compares them;
    [None] when the float is a NaN. *)
Definition float_cmp_int (x : float) (n : Z) : option comparison :=
  match x with
  | S754_nan => None
  | S754_infinity s => Some (if s then Lt else Gt)
  | S754_zero _ => Some (0 ?= n)
  | S754_finite s m e =>
      let '(p, d) := exact_ratio m e in
      Some ((if s then - p else p) ?= n * d)
  end.

(** *** [repr] of a float: the shortest decimal that reads back as it *)

Definition pow10_le (k p d : Z) : bool :=
  if 0 <=? k then 10 ^ k * d <=? p else d <=? p * 10 ^ (- k).

Fixpoint ilog10_up (fuel : nat) (p d k : Z) : Z :=
  match fuel with
  | O => k
  | S f => if pow10_le (k + 1) p d then ilog10_up f p d (k + 1) else k
  end.

(** The [k] with [10^k <= p/d < 10^(k+1)], for [p, d > 0]. *)
Definition ilog10 (p d : Z) : Z :=
  ilog10_up 8 p d (((Z.log2 p - Z.log2 d - 1) * 30103) / 100000 - 2).

(** [p/d] cut to [P] significant digits: the digits below, their scale,
    and how the rest compares with one half. *)
Definition cut_digits (p d k P : Z) : Z * Z * comparison :=
  let s := k - P + 1 in
  let '(num, den) := if 0 <=? s then (p, d * 10 ^ s) else (p * 10 ^ (- s), d) in
  (num / den, s, (2 * (num mod den)) ?= den).

Fixpoint shortest_digits (fuel : nat) (x : float) (p d k P : Z) : Z * Z :=
  let '(lo, s, half) := cut_digits p d k P in
  match fuel with
  | O => (match half with Lt => lo | Gt => lo + 1
                     | Eq => if Z.even lo then lo else lo + 1 end, s)
  | S f =>
      let lo_ok := float_eqb (dec_to_float false lo s) x in
      let hi_ok := float_eqb (dec_to_float false (lo + 1) s) x in
      match lo_ok, hi_ok with
      | true, true =>
          (match half with Lt => lo | Gt => lo + 1
                      | Eq => if Z.even lo then lo else lo + 1 end, s)
      | true, false => (lo, s)
      | false, true => (lo + 1, s)
      | false, false => shortest_digits f x p d k (P + 1)
      end
  end.

Fixpoint strip_zeros (fuel : nat) (dgt s : Z) : Z * Z :=
  match fuel with
  | O => (dgt, s)
  | S f => if (dgt mod 10 =? 0) && negb (dgt =? 0)
           then strip_zeros f (dgt / 10) (s + 1) else (dgt, s)
  end.

Definition zeros (n : Z) : string := str_of_chars (repeat "0"%char (Z.to_nat n)).

Definition str_drop (n : nat) (s : string) : string :=
  String.substring n (String.length s - n) s.

(** The digits [ds] with the decimal point after the first [decpt] of
    them, as [repr] lays them out. *)
Definition layout_repr (ds : string) (decpt : Z) : string :=
  if (decpt <=? -4) || (16 <? decpt) then
    let ex := decpt - 1 in
    let mant := str_take 1 ds +:+
                (if 1 <? len ds then "." +:+ str_drop 1 ds else "") in
    let exs := str_int (Z.abs ex) in
    mant +:+ "e" +:+ (if ex <? 0 then "-" else "+") +:+
    (if len exs <? 2 then "0" +:+ exs else exs)
  else if decpt <=? 0 then "0." +:+ zeros (- decpt) +:+ ds
  else if len ds <=? decpt then ds +:+ zeros (decpt - len ds) +:+ ".0"
  else str_take (Z.to_nat decpt) ds +:+ "." +:+ str_drop (Z.to_nat decpt) ds.

(** [repr(x)], which is also [str(x)] and what an f-string prints. *)
Definition float_repr (x : float) : string :=
  match x with
  | S754_nan => "nan"
  | S754_infinity s => if s then "-inf" else "inf"
  | S754_zero s => if s then "-0.0" else "0.0"
  | S754_finite s m e =>
      let '(p, d) := exact_ratio m e in
      let '(dgt, sc) := shortest_digits 17 (S754_finite false m e) p d (ilog10 p d) 1 in
      let '(dgt, sc) := strip_zeros 400 dgt sc in
      let ds := str_int dgt in
      (if s then "-" else "") +:+ layout_repr ds (len ds + sc)
  end.

(** [f"{x:.1f}"]: the exact value rounded to one decimal, ties to even. *)
Definition format_1f (x : float) : string :=
  match x with
  | S754_nan => "nan"
  | S754_infinity s => if s then "-inf" else "inf"
  | S754_zero s => if s then "-0.0" else "0.0"
  | S754_finite s m e =>
      let '(p, d) := exact_ratio m e in
      let t := round_half_even (p * 10) d in
      (if s then "-" else "") +:+ str_int (t / 10) +:+ "." +:+ str_int (t mod 10)
  end.

(** *** Numbers: an [int] or a [float] *)

Variant number :=
  | PyInt (n : Z)
  | PyFloat (x : float).

Definition str_num (a : number) : string :=
  match a with
  | PyInt n => str_int n
  | PyFloat x => float_repr x
  end.

Definition to_float (a : number) : Result float :=
  match a with
  | PyInt n => float_of_int n
  | PyFloat x => ok x
  end.

(** [a ? b] on numbers; [None] when a NaN is involved (every comparison
    is then false). *)
Definition num_compare (a b : number) : option comparison :=
  match a, b with
  | PyInt m, PyInt n => Some (m ?= n)
  | PyFloat x, PyInt n => float_cmp_int x n
  | PyInt m, PyFloat y => CompOpp <$> float_cmp_int y m
  | PyFloat x, PyFloat y => SFcompare x y
  end.

Definition num_gt (a b : number) : bool :=
  match num_compare a b with Some Gt => true | _ => false end.
Definition num_ge (a b : number) : bool :=
  match num_compare a b with Some Gt | Some Eq => true | _ => false end.
Definition num_lt (a b : number) : bool :=
  match num_compare a b with Some Lt => true | _ => false end.
Definition num_eq (a b : number) : bool :=
  match num_compare a b with Some Eq => true | _ => false end.

(** [a / b] on numbers. *)
Definition num_truediv (a b : number) : Result float :=
  match a, b with
  | PyInt m, PyInt n => int_truediv m n
  | _, _ =>
      let? x := to_float a in
      let? y := to_float b in
      float_truediv x y
  end.

(** [f"{a:.1f}"] on a number: an [int] is converted first. *)
Definition num_format_1f (a : number) : Result string :=
  let? x := to_float a in ok (format_1f x).

(** ** The snapshot *)

(** The three load averages, each a [round(x, 2)]. *)
Record load_avg := {
  load_1min : float;
  load_5min : float;
  load_15min : float
}.

(** [os.cpu_count()] is an [int] or [None]. *)
Record system_info := {
  sys_hostname : string;
  sys_fqdn : string;
  sys_os_info : string;
  sys_kernel : string;
  sys_architecture : string;
  sys_uptime : string;
  sys_uptime_seconds : Z;
  sys_load_avg : load_avg;
  sys_cpu_cores : option Z;
  sys_timestamp : string
}.

Record process := {
  proc_user : string;
  proc_pid : string;
  proc_cpu : string;
  proc_mem : string;
  proc_command : string
}.

Record cpu_metrics := {
  cpu_usage_percent : number;
  cpu_model : string;
  cpu_cores : option Z;
  cpu_load_avg : load_avg;
  cpu_top_processes : list process
}.

Record memory_metrics := {
  mem_total_bytes : Z;
  mem_used_bytes : Z;
  mem_available_bytes : Z;
  mem_total_human : string;
  mem_used_human : string;
  mem_available_human : string;
  mem_usage_percent : number;
  mem_swap_total_bytes : Z;
  mem_swap_used_bytes : Z;
  mem_swap_total_human : string;
  mem_swap_used_human : string;
  mem_swap_usage_percent : number;
  mem_top_processes : list process
}.

Record filesystem := {
  fs_filesystem : string;
  fs_size : string;
  fs_used : string;
  fs_available : string;
  fs_usage_percent : Z;
  fs_mountpoint : string;
  fs_status : string
}.

Record inode_entry := {
  ino_total : string;
  ino_used : string;
  ino_available : string;
  ino_usage_percent : Z
}.

Record large_file := {
  lf_size : string;
  lf_date : string;
  lf_path : string
}.

Record disk_metrics := {
  disk_filesystems : list filesystem;
  disk_inodes : gmap string inode_entry;
  disk_large_files : list large_file
}.

Record interface := {
  if_name : string;
  if_status : string;
  if_addresses : list string
}.

Record network_metrics := {
  net_interfaces : list interface;
  net_default_gateway : option string;
  net_dns_status : string;
  net_listening_ports : Z
}.

Record service := {
  svc_name : string;
  svc_status : string;
  svc_enabled : string;
  svc_health : string
}.

Record services_metrics := {
  svc_critical_services : list service;
  svc_failed_count : Z
}.

Record status_health := { sh_status : string; sh_health : string }.
Record count_health := { ch_count : Z; ch_health : string }.

Record security_metrics := {
  sec_selinux : status_health;
  sec_firewall : status_health;
  sec_updates : count_health;
  sec_failed_logins : count_health
}.

(** What [self.metrics] holds under a group's name: the group's record,
    the marker [{'error': msg}] or an empty dictionary. *)
Variant group (A : Type) :=
  | Populated (a : A)
  | ErrorMarker (msg : string)
  | EmptyDict.
Arguments Populated {A} a.
Arguments ErrorMarker {A} msg.
Arguments EmptyDict {A}.

(** [self.metrics]; [None] is a key that is not there. *)
Record Snapshot := {
  system : option (group system_info);
  cpu : option (group cpu_metrics);
  memory : option (group memory_metrics);
  disk : option (group disk_metrics);
  network : option (group network_metrics);
  services : option (group services_metrics);
  security : option (group security_metrics)
}.

Definition empty_snapshot : Snapshot :=
  {| system := None; cpu := None; memory := None; disk := None;
     network := None; services := None; security := None |}.

(** [self.metrics.get(name, {})] as the record behind it, if any. *)
Definition fields {A} (g : option (group A)) : option A :=
  match g with
  | Some (Populated a) => Some a
  | _ => None
  end.

(** [d.get(key, default)] on a group: every key of a populated group is
    there, none is in a marker or an empty dictionary. *)
Definition get_or {A B} (d : option A) (f : A -> B) (default : B) : B :=
  match d with
  | Some a => f a
  | None => default
  end.

(** [self.metrics[name][key]]. *)
Definition getitem {A B} (name key : string) (g : option (group A)) (f : A -> B)
  : Result B :=
  match g with
  | None => raise KeyError (repr_key name)
  | Some (Populated a) => ok (f a)
  | Some _ => raise KeyError (repr_key key)
  end.

(** ** Methods: state passing over [self.metrics] *)

Definition Cmd (A : Type) : Type := Snapshot -> Snapshot * Result A.

Definition cret {A} (a : A) : Cmd A := fun s => (s, ok a).

Definition cbind {A B} (c : Cmd A) (k : A -> Cmd B) : Cmd B :=
  fun s =>
    let '(s', r) := c s in
    match r with
    | inl e => (s', inl e)
    | inr a => k a s'
    end.

Definition lift {A} (r : Result A) : Cmd A := fun s => (s, r).

(** Reading [self.metrics]. *)
Definition get_metrics : Cmd Snapshot := fun s => (s, ok s).

(** [try: body except Exception as e: handler e]. *)
Definition cmd_try {A} (body : Cmd A) (handler : exn -> Cmd A) : Cmd A :=
  fun s =>
    let '(s', r) := body s in
    match r with
    | inl e => handler e s'
    | inr a => (s', inr a)
    end.

Declare Scope cmd_scope.
Delimit Scope cmd_scope with cmd.
Notation "'do' x <- c ; k" := (cbind c (fun x => k))
  (at level 10, x pattern, c at level 100, k at level 200) : cmd_scope.
Notation "c ;; k" := (cbind c (fun _ => k))
  (at level 100, k at level 200, right associativity) : cmd_scope.

(** [self.metrics[name] = value], one assignment per group. *)
Definition set_system (g : group system_info) : Cmd unit := fun s =>
  ({| system := Some g; cpu := cpu s; memory := memory s; disk := disk s;
      network := network s; services := services s; security := security s |}, ok tt).
Definition set_cpu (g : group cpu_metrics) : Cmd unit := fun s =>
  ({| system := system s; cpu := Some g; memory := memory s; disk := disk s;
      network := network s; services := services s; security := security s |}, ok tt).
Definition set_memory (g : group memory_metrics) : Cmd unit := fun s =>
  ({| system := system s; cpu := cpu s; memory := Some g; disk := disk s;
      network := network s; services := services s; security := security s |}, ok tt).
Definition set_disk (g : group disk_metrics) : Cmd unit := fun s =>
  ({| system := system s; cpu := cpu s; memory := memory s; disk := Some g;
      network := network s; services := services s; security := security s |}, ok tt).
Definition set_network (g : group network_metrics) : Cmd unit := fun s =>
  ({| system := system s; cpu := cpu s; memory := memory s; disk := disk s;
      network := Some g; services := services s; security := security s |}, ok tt).
Definition set_services (g : group services_metrics) : Cmd unit := fun s =>
  ({| system := system s; cpu := cpu s; memory := memory s; disk := disk s;
      network := network s; services := Some g; security := security s |}, ok tt).
Definition set_security (g : group security_metrics) : Cmd unit := fun s =>
  ({| system := system s; cpu := cpu s; memory := memory s; disk := disk s;
      network := network s; services := services s; security := Some g |}, ok tt).

(** ** The host *)

(** What the collector reads: [read_file p] is [open(p).read()],
    [check_output c] is [subprocess.check_output(c, shell=True, text=True)]
    and [check_output_argv] the same on an argument list; each returns the
    text or raises. *)
Record World := {
  gethostname : string;
  getfqdn : string;
  timestamp : string;
  read_file : string -> Result string;
  platform_platform : string;
  platform_release : string;
  platform_machine : string;
  getloadavg : Result (float * float * float);
  cpu_count : option Z;
  check_output : string -> Result string;
  check_output_argv : list string -> Result string;
  path_exists : string -> bool
}.

(** ** The collector: [SystemMetrics] *)

Local Open Scope cmd_scope.

(** [float(s)] for a decimal literal: blanks around, an optional sign,
    digits with an optional fraction.  (Exponents, [inf] and [nan] are not
    modelled; the files read here hold none.) *)
Fixpoint split_fraction (s : string) (int_part : list ascii) : string * string :=
  match s with
  | EmptyString => (str_of_chars (rev int_part), EmptyString)
  | String c s' =>
      if Ascii.eqb c "." then (str_of_chars (rev int_part), s')
      else split_fraction s' (c :: int_part)
  end.

Definition float_error (s : string) : exn :=
  Exn ValueError ("could not convert string to float: '" +:+ s +:+ "'").

Definition py_float (s : string) : Result float :=
  let body := strip s in
  let '(neg, ds) :=
    match body with
    | String "-" r => (true, r)
    | String "+" r => (false, r)
    | _ => (false, body)
    end in
  let '(ip, fp) := split_fraction ds [] in
  match ip +:+ fp with
  | EmptyString => inl (float_error s)
  | all =>
      match digits_value all 0 with
      | Some v => ok (dec_to_float neg v (- len fp))
      | None => inl (float_error s)
      end
  end.

(** The exact value of a finite float as a signed fraction. *)
Definition float_exact (x : float) : option (Z * Z) :=
  match x with
  | S754_zero _ => Some (0, 1)
  | S754_finite s m e =>
      let '(p, d) := exact_ratio m e in Some (if s then - p else p, d)
  | _ => None
  end.

(** [int(x // n)] and [int((x % n) // k)] on a float, computed on its exact
    value (as the float operations do for an uptime below 2^53 seconds). *)
Definition int_floordiv (x : float) (n : Z) : Result Z :=
  match float_exact x with
  | Some (p, d) => ok (p / (d * n))
  | None => raise ValueError "cannot convert float NaN to integer"
  end.

Definition int_mod_floordiv (x : float) (n k : Z) : Result Z :=
  match float_exact x with
  | Some (p, d) => ok ((p mod (d * n)) / (d * k))
  | None => raise ValueError "cannot convert float NaN to integer"
  end.

(** [int(x)]: towards zero. *)
Definition int_of_float (x : float) : Result Z :=
  match x with
  | S754_nan => raise ValueError "cannot convert float NaN to integer"
  | S754_infinity _ => raise OverflowError "cannot convert float infinity to integer"
  | _ => match float_exact x with
         | Some (p, d) => ok (Z.quot p d)
         | None => ok 0
         end
  end.

(** [collect_system_info]: only a missing release file is handled; every
    other exception leaves the method. *)
Definition system_info_body (w : World) : Result system_info :=
  let? os_info :=
    match read_file w "/etc/redhat-release" with
    | inr text => ok (strip text)
    | inl e => if is_FileNotFoundError e then ok (platform_platform w) else inl e
    end in
  let? text := read_file w "/proc/uptime" in
  let? first := index (split_ws text) 0 in
  let? uptime_seconds := py_float first in
  let? uptime_days := int_floordiv uptime_seconds 86400 in
  let? uptime_hours := int_mod_floordiv uptime_seconds 86400 3600 in
  let uptime_str := str_int uptime_days +:+ "d " +:+ str_int uptime_hours +:+ "h" in
  let? load := getloadavg w in
  let cpu_cores := cpu_count w in
  let? seconds := int_of_float uptime_seconds in
  ok {| sys_hostname := gethostname w;
        sys_fqdn := getfqdn w;
        sys_os_info := os_info;
        sys_kernel := platform_release w;
        sys_architecture := platform_machine w;
        sys_uptime := uptime_str;
        sys_uptime_seconds := seconds;
        sys_load_avg :=
          {| load_1min := py_round (load.1.1) 2;
             load_5min := py_round (load.1.2) 2;
             load_15min := py_round (load.2) 2 |};
        sys_cpu_cores := cpu_cores;
        sys_timestamp := timestamp w |}.

Definition collect_system_info (w : World) : Cmd unit :=
  do info <- lift (system_info_body w);
  set_system (Populated info).

(** One line of [ps aux] as a process, when it has its eleven fields; the
    command is cut to fifty characters. *)
Definition parse_process (line : string) : option process :=
  match split_ws_max 10 line with
  | user :: pid :: pcpu :: pmem :: _ :: _ :: _ :: _ :: _ :: _ :: command :: _ =>
      Some {| proc_user := user;
              proc_pid := pid;
              proc_cpu := pcpu;
              proc_mem := pmem;
              proc_command :=
                str_take 50 command +:+ (if 50 <? len command then "..." else "") |}
  | _ => None
  end.

Definition parse_processes (output : string) : list process :=
  omap parse_process (split_char newline (strip output)).

(** [f.readline()]. *)
Definition readline (text : string) : string :=
  match file_lines text with
  | line :: _ => line
  | [] => ""
  end.

(** [sum(xs)]. *)
Definition sum (xs : list Z) : Z := fold_left Z.add xs 0.

(** [round(((total - idle) / total) * 100, 1)], the shape of every usage
    percent. *)
Definition usage_percent (used total : Z) : Result float :=
  let? ratio := int_truediv used total in
  ok (py_round (float_mul ratio (fnorm 100 0)) 1).

(** The model name of [/proc/cpuinfo]: the first line that starts with
    [model name]; any exception on the way leaves ["Unknown"]. *)
Fixpoint find_model_name (lines : list string) : Result string :=
  match lines with
  | [] => ok "Unknown"
  | line :: rest =>
      if startswith "model name" line then
        let? value := index (split_char1 ":" line) 1 in
        ok (strip value)
      else find_model_name rest
  end.

Definition read_cpu_model (w : World) : string :=
  match (let? text := read_file w "/proc/cpuinfo" in
         find_model_name (file_lines text)) with
  | inr model => model
  | inl _ => "Unknown"
  end.

Definition cpu_body (w : World) (metrics : Snapshot) : Result cpu_metrics :=
  let? text := read_file w "/proc/stat" in
  let cpu_line := split_ws (strip (readline text)) in
  let? cpu_times := rmap py_int (drop 1 cpu_line) in
  let total_time := sum cpu_times in
  let? idle_time := index cpu_times 3 in
  let? cpu_usage := usage_percent (total_time - idle_time) total_time in
  let? top_cpu_output := check_output w "ps aux --sort=-%cpu --no-headers | head -5" in
  let top_cpu_processes := parse_processes top_cpu_output in
  let cpu_model := read_cpu_model w in
  let? cores := getitem "system" "cpu_cores" (system metrics) sys_cpu_cores in
  let? load := getitem "system" "load_avg" (system metrics) sys_load_avg in
  ok {| cpu_usage_percent := PyFloat cpu_usage;
        cpu_model := cpu_model;
        cpu_cores := cores;
        cpu_load_avg := load;
        cpu_top_processes := top_cpu_processes |}.

(** The guard every group but [system] is collected under:
    [try: self.metrics[g] = body  except Exception as e:
     self.metrics[g] = {'error': str(e)}]. *)
Definition guarded {A} (set : group A -> Cmd unit) (body : Snapshot -> Result A)
  : Cmd unit :=
  cmd_try
    (do metrics <- get_metrics;
     do value <- lift (body metrics);
     set (Populated value))
    (fun e => set (ErrorMarker (exn_msg e))).

Definition collect_cpu_metrics (w : World) : Cmd unit :=
  guarded set_cpu (cpu_body w).

(** [bytes_to_human]: divide by 1024.0 while the value is at least 1024,
    through the units B, KB, MB, GB, TB, and PB for what is left. *)
Fixpoint bytes_to_human_loop (units : list string) (bytes_val : number) : Result string :=
  match units with
  | [] =>
      let? text := num_format_1f bytes_val in ok (text +:+ " PB")
  | u :: rest =>
      if num_lt bytes_val (PyFloat (fnorm 1024 0)) then
        let? text := num_format_1f bytes_val in ok (text +:+ " " +:+ u)
      else
        let? next := num_truediv bytes_val (PyFloat (fnorm 1024 0)) in
        bytes_to_human_loop rest (PyFloat next)
  end.

Definition bytes_to_human (bytes_val : Z) : Result string :=
  bytes_to_human_loop ["B"; "KB"; "MB"; "GB"; "TB"] (PyInt bytes_val).

(** The loop over [/proc/meminfo]: [key, value = line.split(':', 1)] and
    [mem_info[key] = int(value.split()[0]) * 1024]. *)
Fixpoint parse_meminfo (lines : list string) (mem_info : gmap string Z)
  : Result (gmap string Z) :=
  match lines with
  | [] => ok mem_info
  | line :: rest =>
      match split_char1 ":" line with
      | [key; value] =>
          let? first := index (split_ws value) 0 in
          let? kb := py_int first in
          parse_meminfo rest (<[key := kb * 1024]> mem_info)
      | _ => raise ValueError "not enough values to unpack (expected 2, got 1)"
      end
  end.

(** [d[key]] on a dictionary. *)
Definition dict_getitem (d : gmap string Z) (key : string) : Result Z :=
  match d !! key with
  | Some v => ok v
  | None => raise KeyError (repr_key key)
  end.

(** [round((swap_used / swap_total) * 100, 1) if swap_total > 0 else 0]. *)
Definition swap_usage_percent (swap_used swap_total : Z) : Result number :=
  if 0 <? swap_total then
    let? p := usage_percent swap_used swap_total in ok (PyFloat p)
  else ok (PyInt 0).

(** The memory lines of [collect_memory_metrics]: total, available, used
    and the usage percent. *)
Definition memory_usage (mem_info : gmap string Z) : Result (Z * Z * Z * float) :=
  let? total_mem := dict_getitem mem_info "MemTotal" in
  (* the default handed to [get] is evaluated before the call *)
  let? mem_free := dict_getitem mem_info "MemFree" in
  let available_mem := default mem_free (mem_info !! "MemAvailable") in
  let used_mem := total_mem - available_mem in
  let? mem_usage_percent := usage_percent used_mem total_mem in
  ok (total_mem, available_mem, used_mem, mem_usage_percent).

(** The swap lines: total, used and the usage percent. *)
Definition swap_usage (mem_info : gmap string Z) : Result (Z * Z * number) :=
  let swap_total := default 0 (mem_info !! "SwapTotal") in
  let swap_free := default 0 (mem_info !! "SwapFree") in
  let swap_used := swap_total - swap_free in
  let? swap_percent := swap_usage_percent swap_used swap_total in
  ok (swap_total, swap_used, swap_percent).

Definition memory_body (w : World) (metrics : Snapshot) : Result memory_metrics :=
  let? text := read_file w "/proc/meminfo" in
  let? mem_info := parse_meminfo (file_lines text) ∅ in
  let? (total_mem, available_mem, used_mem, mem_usage_percent) := memory_usage mem_info in
  let? (swap_total, swap_used, swap_percent) := swap_usage mem_info in
  let? top_mem_output := check_output w "ps aux --sort=-%mem --no-headers | head -5" in
  let top_mem_processes := parse_processes top_mem_output in
  let? total_human := bytes_to_human total_mem in
  let? used_human := bytes_to_human used_mem in
  let? available_human := bytes_to_human available_mem in
  let? swap_total_human := bytes_to_human swap_total in
  let? swap_used_human := bytes_to_human swap_used in
  ok {| mem_total_bytes := total_mem;
        mem_used_bytes := used_mem;
        mem_available_bytes := available_mem;
        mem_total_human := total_human;
        mem_used_human := used_human;
        mem_available_human := available_human;
        mem_usage_percent := PyFloat mem_usage_percent;
        mem_swap_total_bytes := swap_total;
        mem_swap_used_bytes := swap_used;
        mem_swap_total_human := swap_total_human;
        mem_swap_used_human := swap_used_human;
        mem_swap_usage_percent := swap_percent;
        mem_top_processes := top_mem_processes |}.

Definition collect_memory_metrics (w : World) : Cmd unit :=
  guarded set_memory (memory_body w).

(** The status of a filesystem from its usage percent, as
    [collect_disk_metrics] derives it. *)
Definition disk_status (usage_percent : Z) : string :=
  if 90 <=? usage_percent then "critical"
  else if 80 <=? usage_percent then "warning"
  else "ok".

(** A loop that appends an entry for the lines that have one. *)
Fixpoint rmap_opt {A B} (f : A -> Result (option B)) (xs : list A) : Result (list B) :=
  match xs with
  | [] => ok []
  | x :: xs' =>
      let? y := f x in
      let? ys := rmap_opt f xs' in
      ok (match y with Some b => b :: ys | None => ys end)
  end.

(** One line of [df -h]. *)
Definition parse_filesystem (line : string) : Result (option filesystem) :=
  match split_ws line with
  | p0 :: p1 :: p2 :: p3 :: p4 :: p5 :: _ =>
      let? usage_percent := py_int (rstrip_char "%" p4) in
      let status := disk_status usage_percent in
      ok (Some {| fs_filesystem := p0;
                  fs_size := p1;
                  fs_used := p2;
                  fs_available := p3;
                  fs_usage_percent := usage_percent;
                  fs_mountpoint := p5;
                  fs_status := status |})
  | _ => ok None
  end.

(** One line of [df -i]: the mountpoint and its entry. *)
Definition parse_inode (line : string) : Result (option (string * inode_entry)) :=
  match split_ws line with
  | _ :: p1 :: p2 :: p3 :: p4 :: p5 :: _ =>
      let? inode_usage := py_int (rstrip_char "%" p4) in
      ok (Some (p5, {| ino_total := p1;
                       ino_used := p2;
                       ino_available := p3;
                       ino_usage_percent := inode_usage |}))
  | _ => ok None
  end.

(** One line of the [find ... ls -lh] listing. *)
Definition parse_large_file (line : string) : option large_file :=
  match split_ws line with
  | _ :: _ :: _ :: _ :: p4 :: p5 :: p6 :: p7 :: p8 :: _ =>
      Some {| lf_size := p4;
              lf_date := p5 +:+ " " +:+ p6 +:+ " " +:+ p7;
              lf_path := p8 |}
  | _ => None
  end.

(** The lines of a command output: [output.strip().split('\n')]. *)
Definition output_lines (output : string) : list string :=
  split_char newline (strip output).

Definition find_large_files (w : World) : list large_file :=
  match check_output w
          "find /var/log -type f -size +100M -exec ls -lh {} \; 2>/dev/null | head -5" with
  | inr output => omap parse_large_file (output_lines output)
  | inl _ => []
  end.

Definition disk_body (w : World) (metrics : Snapshot) : Result disk_metrics :=
  let? df_output := check_output w "df -h | grep -vE '^Filesystem|tmpfs|cdrom|udev'" in
  let? filesystems := rmap_opt parse_filesystem (output_lines df_output) in
  let? df_inode_output :=
    check_output w "df -i | grep -vE '^Filesystem|tmpfs|cdrom|udev'" in
  let? inodes := rmap_opt parse_inode (output_lines df_inode_output) in
  let inode_info : gmap string inode_entry :=
    fold_left (fun d kv => <[kv.1 := kv.2]> d) inodes ∅ in
  let large_files := find_large_files w in
  ok {| disk_filesystems := filesystems;
        disk_inodes := inode_info;
        disk_large_files := large_files |}.

Definition collect_disk_metrics (w : World) : Cmd unit :=
  guarded set_disk (disk_body w).

(** The addresses of an [inet] line: what follows each word [inet]. *)
Fixpoint inet_addresses (parts : list string) : list string :=
  match parts with
  | part :: rest =>
      match rest with
      | next :: _ =>
          if String.eqb part "inet" then next :: inet_addresses rest
          else inet_addresses rest
      | [] => []
      end
  | [] => []
  end.

(** [current_interface['addresses'].append(...)]: the current interface is
    the one appended last, the same object as the last of the list. *)
Fixpoint add_addresses (interfaces : list interface) (addrs : list string)
  : list interface :=
  match interfaces with
  | [] => []
  | [i] => [{| if_name := if_name i;
               if_status := if_status i;
               if_addresses := (if_addresses i ++ addrs)%list |}]
  | i :: rest => i :: add_addresses rest addrs
  end.

(** One line of [ip addr show]. *)
Definition interface_step (interfaces : list interface) (line : string)
  : list interface :=
  if negb (startswith " " line) && contains ":" line then
    match split_ws line with
    | _ :: name :: _ =>
        (interfaces ++ [{| if_name := rstrip_char ":" name;
                           if_status := if contains "UP" line then "UP" else "DOWN";
                           if_addresses := [] |}])%list
    | _ => interfaces
    end
  else if contains "inet " line && negb (Nat.eqb (length interfaces) 0) then
    add_addresses interfaces (inet_addresses (split_ws (strip line)))
  else interfaces.

Definition find_default_gateway (w : World) : option string :=
  match (let? route_output := check_output w "ip route | grep default" in
         match route_output with
         | EmptyString => ok None
         | _ => let? gw := index (split_ws route_output) 2 in ok (Some gw)
         end) with
  | inr gw => gw
  | inl _ => None
  end.

Definition network_body (w : World) (metrics : Snapshot) : Result network_metrics :=
  let? ip_output := check_output w "ip addr show" in
  let interfaces := fold_left interface_step (split_char newline ip_output) [] in
  let default_gw := find_default_gateway w in
  let dns_status :=
    match check_output_argv w ["nslookup"; "google.com"] with
    | inr _ => "ok"
    | inl _ => "failed"
    end in
  let? count := check_output w "ss -tuln | grep LISTEN | wc -l" in
  let? listening_ports := py_int (strip count) in
  ok {| net_interfaces := interfaces;
        net_default_gateway := default_gw;
        net_dns_status := dns_status;
        net_listening_ports := listening_ports |}.

Definition collect_network_metrics (w : World) : Cmd unit :=
  guarded set_network (network_body w).

Definition critical_services : list string :=
  ["sshd"; "NetworkManager"; "chronyd"; "rsyslog";
   "firewalld"; "postfix"; "httpd"; "nginx"; "mariadb"; "postgresql"].

(** One monitored service; any exception skips it. *)
Definition service_state (w : World) (name : string) : option service :=
  match (let? _ := check_output w
                     ("systemctl list-unit-files | grep -q '^" +:+ name +:+ ".service'") in
         let? status := check_output w ("systemctl is-active " +:+ name) in
         let status := strip status in
         let? enabled := check_output w ("systemctl is-enabled " +:+ name) in
         let enabled := strip enabled in
         ok {| svc_name := name;
               svc_status := status;
               svc_enabled := enabled;
               svc_health := if String.eqb status "active" then "ok" else "critical" |}) with
  | inr s => Some s
  | inl _ => None
  end.

Definition count_failed_services (w : World) : Z :=
  match check_output w "systemctl list-units --failed --no-legend" with
  | inr failed_output =>
      match strip failed_output with
      | EmptyString => 0
      | text => Z.of_nat (length (split_char newline text))
      end
  | inl _ => 0
  end.

Definition services_body (w : World) (metrics : Snapshot) : Result services_metrics :=
  ok {| svc_critical_services := omap (service_state w) critical_services;
        svc_failed_count := count_failed_services w |}.

Definition collect_service_metrics (w : World) : Cmd unit :=
  guarded set_services (services_body w).

Definition selinux_state (w : World) : status_health :=
  match check_output_argv w ["getenforce"] with
  | inr output =>
      let selinux_status := strip output in
      {| sh_status := selinux_status;
         sh_health := if String.eqb selinux_status "Enforcing" then "ok" else "warning" |}
  | inl _ => {| sh_status := "Not available"; sh_health := "unknown" |}
  end.

Definition firewall_state (w : World) : status_health :=
  let firewall_status :=
    match check_output_argv w ["systemctl"; "is-active"; "firewalld"] with
    | inr _ => "active (firewalld)"
    | inl _ =>
        match check_output_argv w ["systemctl"; "is-active"; "iptables"] with
        | inr _ => "active (iptables)"
        | inl _ => "inactive"
        end
    end in
  {| sh_status := firewall_status;
     sh_health := if contains "active" firewall_status then "ok" else "warning" |}.

Definition updates_state (w : World) : count_health :=
  let updates_count :=
    match (let updates_cmd :=
             if path_exists w "/usr/bin/dnf" then "dnf check-update -q | wc -l"
             else "yum check-update -q | wc -l" in
           let? updates_output := check_output w updates_cmd in
           py_int (strip updates_output)) with
    | inr n => n
    | inl _ => 0
    end in
  {| ch_count := updates_count;
     ch_health := if updates_count =? 0 then "ok" else "warning" |}.

Definition failed_logins_state (w : World) : count_health :=
  let failed_logins :=
    match (let? failed_output :=
             check_output w
               "grep 'Failed password' /var/log/secure | grep '$(date +%b' | wc -l" in
           py_int (strip failed_output)) with
    | inr n => n
    | inl _ => 0
    end in
  {| ch_count := failed_logins;
     ch_health := if failed_logins <? 10 then "ok" else "warning" |}.

Definition security_body (w : World) (metrics : Snapshot) : Result security_metrics :=
  ok {| sec_selinux := selinux_state w;
        sec_firewall := firewall_state w;
        sec_updates := updates_state w;
        sec_failed_logins := failed_logins_state w |}.

Definition collect_security_metrics (w : World) : Cmd unit :=
  guarded set_security (security_body w).

(** [collect_all_metrics]: the seven groups in order. *)
Definition collect_all_metrics (w : World) : Cmd unit :=
  collect_system_info w ;;
  collect_cpu_metrics w ;;
  collect_memory_metrics w ;;
  collect_disk_metrics w ;;
  collect_network_metrics w ;;
  collect_service_metrics w ;;
  collect_security_metrics w.

(** ** The renderer: [HTMLReportGenerator] *)

(** [_get_usage_status(usage, warning=75, critical=90)]. *)
Definition _get_usage_status (usage : number) (warning critical : Z) : string :=
  if num_ge usage (PyInt critical) then "critical"
  else if num_ge usage (PyInt warning) then "warning"
  else "ok".

(** [_get_load_status(load_avg, cpu_cores)]: the division raises on a
    core count that is [None] or zero. *)
Definition _get_load_status (load : float) (cpu_cores : option Z) : Result string :=
  match cpu_cores with
  | None => raise TypeError "unsupported operand type(s) for /: 'float' and 'NoneType'"
  | Some c =>
      let? normalized_load := num_truediv (PyFloat load) (PyInt c) in
      ok (if num_ge (PyFloat normalized_load) (PyFloat (fnorm 2 0)) then "status-critical"
          else if num_ge (PyFloat normalized_load) (PyFloat (fnorm 1 0)) then "status-warning"
          else "status-ok")
  end.

(** [str(x)] for a value that is an [int] or [None]. *)
Definition str_opt_int (x : option Z) : string :=
  match x with
  | Some n => str_int n
  | None => "None"
  end.

(** [name in self.metrics]. *)
Definition has_key {A} (g : option A) : bool :=
  match g with Some _ => true | None => false end.

(** The record of a group that must be there: [self.metrics[name]], then
    the first [[key]] read from it. *)
Definition require_fields {A} (name key : string) (g : option (group A)) : Result A :=
  match g with
  | None => raise KeyError (repr_key name)
  | Some (Populated a) => ok a
  | Some _ => raise KeyError (repr_key key)
  end.

(** One pass of the loop over filesystems in the overall health. *)
Definition disk_health_step (acc : string * list string) (fs : filesystem)
  : string * list string :=
  let '(overall_health, health_issues) := acc in
  if fs_usage_percent fs >? 90 then
    ("critical", (health_issues ++ ["Critical disk space on " +:+ fs_mountpoint fs])%list)
  else acc.

(** "Determine overall health" in [_generate_system_overview]: the health
    and the list of issues. *)
Definition determine_overall_health (metrics : Snapshot) : string * list string :=
  let overall_health := "ok" in
  let health_issues : list string := [] in
  let '(overall_health, health_issues) :=
    if has_key (cpu metrics) &&
       num_gt (get_or (fields (cpu metrics)) cpu_usage_percent (PyInt 0)) (PyInt 80)
    then ("warning", (health_issues ++ ["High CPU usage"])%list)
    else (overall_health, health_issues) in
  let '(overall_health, health_issues) :=
    if has_key (memory metrics) &&
       num_gt (get_or (fields (memory metrics)) mem_usage_percent (PyInt 0)) (PyInt 85)
    then ("warning", (health_issues ++ ["High memory usage"])%list)
    else (overall_health, health_issues) in
  if has_key (disk metrics) then
    fold_left disk_health_step
      (get_or (fields (disk metrics)) disk_filesystems [])
      (overall_health, health_issues)
  else (overall_health, health_issues).

(** The issues line of the overview. *)
Definition issues_line (health_issues : list string) : string :=
  match health_issues with
  | [] => "<br>All systems operating normally"
  | _ => "<br>Issues: " +:+ join ", " health_issues
  end.

Definition system_overview (metrics : Snapshot) : Result string :=
  let? system := require_fields "system" "uptime_seconds" (system metrics) in
  let uptime_days := sys_uptime_seconds system / 86400 in
  let '(overall_health, health_issues) := determine_overall_health metrics in
  let health_class := "status-" +:+ overall_health in
  let health_text :=
    if String.eqb overall_health "ok" then "Excellent"
    else if String.eqb overall_health "warning" then "Needs Attention"
    else "Critical Issues" in
  let? load_status :=
    _get_load_status (load_1min (sys_load_avg system)) (sys_cpu_cores system) in
  ok ((q "
        <div class=`alert alert-") +:+
      (if String.eqb overall_health "ok" then "success"
       else if String.eqb overall_health "warning" then "warning"
       else "danger") +:+
      (q "`>
            <strong>Overall System Health: <span class=`") +:+ health_class +:+
      (q "`>") +:+ health_text +:+
      "</span></strong>
            " +:+ issues_line health_issues +:+
      (q "
        </div>
        
        <div class=`metrics-grid`>
            <div class=`metric-card`>
                <h3>📊 System Information</h3>
                <div style=`line-height: 1.8;`>
                    <strong>OS:</strong> ") +:+ sys_os_info system +:+
      "<br>
                    <strong>Kernel:</strong> " +:+ sys_kernel system +:+
      "<br>
                    <strong>Architecture:</strong> " +:+ sys_architecture system +:+
      "<br>
                    <strong>Uptime:</strong> " +:+ sys_uptime system +:+
      " (" +:+ str_int uptime_days +:+
      " days)<br>
                    <strong>CPU Cores:</strong> " +:+ str_opt_int (sys_cpu_cores system) +:+
      (q "
                </div>
            </div>
            
            <div class=`metric-card`>
                <h3>⚡ Load Average</h3>
                <div class=`metric-value ") +:+ load_status +:+
      (q "`>") +:+ float_repr (load_1min (sys_load_avg system)) +:+
      (q "</div>
                <div class=`metric-label`>1 Minute Average</div>
                <div style=`margin-top: 15px; font-size: 0.9em;`>
                    5min: ") +:+ float_repr (load_5min (sys_load_avg system)) +:+
      " | 15min: " +:+ float_repr (load_15min (sys_load_avg system)) +:+
      "
                </div>
            </div>
        </div>
        ").

(** One row of a process table. *)
Definition process_row (process : process) : string :=
  "
            <tr>
                <td>" +:+ proc_user process +:+
  "</td>
                <td>" +:+ proc_pid process +:+
  "</td>
                <td>" +:+ proc_cpu process +:+
  "</td>
                <td>" +:+ proc_mem process +:+
  (q "</td>
                <td style=`font-family: monospace; font-size: 0.8em;`>") +:+ proc_command process +:+
  "</td>
            </tr>
            ".

(** [_generate_top_processes_table(processes, metric_type)]. *)
Definition _generate_top_processes_table (processes : list process)
    (metric_type : string) : string :=
  match processes with
  | [] => ""
  | _ =>
      let table_html := (q "
        <h4 style=`margin-top: 20px; color: #34495e;`>Top ") +:+ metric_type +:+ (q " Processes</h4>
        <table class=`table`>
            <thead>
                <tr>
                    <th>User</th>
                    <th>PID</th>
                    <th>CPU%</th>
                    <th>MEM%</th>
                    <th>Command</th>
                </tr>
            </thead>
            <tbody>
        ") in
      let table_html :=
        fold_left (fun html process => html +:+ process_row process)
          (firstn 5 processes) table_html in
      table_html +:+ "</tbody></table>"
  end.

Definition performance_metrics (metrics : Snapshot) : string :=
  let cpu := fields (cpu metrics) in
  let memory := fields (memory metrics) in
  let cpu_usage := get_or cpu cpu_usage_percent (PyInt 0) in
  let cpu_status := _get_usage_status cpu_usage 75 90 in
  let memory_usage := get_or memory mem_usage_percent (PyInt 0) in
  let memory_status := _get_usage_status memory_usage 75 90 in
  let swap_usage := get_or memory mem_swap_usage_percent (PyInt 0) in
  let swap_status := _get_usage_status swap_usage 25 50 in
  (q "
        <h2 style=`margin: 30px 0 20px 0; color: #2c3e50;`>🚀 Performance Metrics</h2>
        
        <div class=`metrics-grid`>
            <div class=`metric-card`>
                <h3>💻 CPU Usage</h3>
                <div class=`metric-value status-") +:+ cpu_status +:+
  (q "`>") +:+ str_num cpu_usage +:+
  (q "%</div>
                <div class=`progress-bar`>
                    <div class=`progress-fill progress-") +:+ cpu_status +:+
  (q "` style=`width: ") +:+ str_num cpu_usage +:+
  (q "%`></div>
                </div>
                <div class=`metric-label`>Processor Utilization</div>
                ") +:+ _generate_top_processes_table (get_or cpu cpu_top_processes []) "CPU" +:+
  (q "
            </div>
            
            <div class=`metric-card`>
                <h3>🧠 Memory Usage</h3>
                <div class=`metric-value status-") +:+ memory_status +:+
  (q "`>") +:+ str_num memory_usage +:+
  (q "%</div>
                <div class=`progress-bar`>
                    <div class=`progress-fill progress-") +:+ memory_status +:+
  (q "` style=`width: ") +:+ str_num memory_usage +:+
  (q "%`></div>
                </div>
                <div class=`metric-label`>RAM Utilization</div>
                <div style=`margin-top: 10px; font-size: 0.9em;`>
                    Used: ") +:+ get_or memory mem_used_human "N/A" +:+
  " / Total: " +:+ get_or memory mem_total_human "N/A" +:+
  "
                </div>
                " +:+ _generate_top_processes_table (get_or memory mem_top_processes []) "Memory" +:+
  (q "
            </div>
            
            <div class=`metric-card`>
                <h3>💾 Swap Usage</h3>
                <div class=`metric-value status-") +:+ swap_status +:+
  (q "`>") +:+ str_num swap_usage +:+
  (q "%</div>
                <div class=`progress-bar`>
                    <div class=`progress-fill progress-") +:+ swap_status +:+
  (q "` style=`width: ") +:+ str_num swap_usage +:+
  (q "%`></div>
                </div>
                <div class=`metric-label`>Swap Utilization</div>
                <div style=`margin-top: 10px; font-size: 0.9em;`>
                    Used: ") +:+ get_or memory mem_swap_used_human "N/A" +:+
  " / Total: " +:+ get_or memory mem_swap_total_human "N/A" +:+
  "
                </div>
            </div>
        </div>
        ".

(** One row of the filesystem table. *)
Definition filesystem_row (fs : filesystem) : string :=
  let status_class := "status-" +:+ fs_status fs in
  "
                <tr>
                    <td>" +:+ fs_filesystem fs +:+
  "</td>
                    <td>" +:+ fs_size fs +:+
  "</td>
                    <td>" +:+ fs_used fs +:+
  "</td>
                    <td>" +:+ fs_available fs +:+
  (q "</td>
                    <td>
                        <div class=`progress-bar` style=`width: 100px; height: 15px;`>
                            <div class=`progress-fill progress-") +:+ fs_status fs +:+
  (q "` style=`width: ") +:+ str_int (fs_usage_percent fs) +:+
  (q "%`></div>
                        </div>
                        <span class=`") +:+ status_class +:+
  (q "`>") +:+ str_int (fs_usage_percent fs) +:+
  "%</span>
                    </td>
                    <td>" +:+ fs_mountpoint fs +:+
  (q "</td>
                    <td><span class=`") +:+ status_class +:+
  (q "`>●</span></td>
                </tr>
                ").

Definition large_file_row (file : large_file) : string :=
  "
                <tr>
                    <td>" +:+ lf_size file +:+
  "</td>
                    <td>" +:+ lf_date file +:+
  (q "</td>
                    <td style=`font-family: monospace; font-size: 0.9em;`>") +:+ lf_path file +:+
  "</td>
                </tr>
                ".

Definition disk_analysis (metrics : Snapshot) : string :=
  let disk := fields (disk metrics) in
  let filesystems := get_or disk disk_filesystems [] in
  let disk_html := (q "
        <h2 style=`margin: 30px 0 20px 0; color: #2c3e50;`>💽 Disk Space Analysis</h2>
        
        <div class=`metric-card`>
            <h3>📁 Filesystem Usage</h3>
        ") in
  let disk_html :=
    match filesystems with
    | _ :: _ =>
        let disk_html := disk_html +:+ (q "<table class=`table`>") in
        let disk_html := disk_html +:+ "
            <thead>
                <tr>
                    <th>Filesystem</th>
                    <th>Size</th>
                    <th>Used</th>
                    <th>Available</th>
                    <th>Usage</th>
                    <th>Mountpoint</th>
                    <th>Status</th>
                </tr>
            </thead>
            <tbody>
            " in
        let disk_html :=
          fold_left (fun html fs => html +:+ filesystem_row fs) filesystems disk_html in
        disk_html +:+ "</tbody></table>"
    | [] => disk_html +:+ "<p>No filesystem data available</p>"
    end in
  let large_files := get_or disk disk_large_files [] in
  let disk_html :=
    match large_files with
    | _ :: _ =>
        let disk_html := disk_html +:+ (q "
            <h4 style=`margin-top: 25px; color: #34495e;`>🗂️ Large Files (>100MB in /var/log)</h4>
            <table class=`table`>
                <thead>
                    <tr>
                        <th>Size</th>
                        <th>Date Modified</th>
                        <th>File Path</th>
                    </tr>
                </thead>
                <tbody>
            ") in
        let disk_html :=
          fold_left (fun html file => html +:+ large_file_row file) large_files disk_html in
        disk_html +:+ "</tbody></table>"
    | [] => disk_html
    end in
  disk_html +:+ "</div>".

(** Truth value of a string that may be [None]. *)
Definition truthy (x : option string) : bool :=
  match x with
  | Some (String _ _) => true
  | _ => false
  end.

Definition interface_block (interface : interface) : string :=
  let status_class :=
    if String.eqb (if_status interface) "UP" then "status-ok" else "status-critical" in
  let addresses :=
    match if_addresses interface with
    | [] => "No IP assigned"
    | l => join ", " l
    end in
  (q "
                <div style=`margin-bottom: 15px; padding: 10px; background: #f8f9fa; border-radius: 8px;`>
                    <strong>") +:+ if_name interface +:+
  (q "</strong> 
                    <span class=`") +:+ status_class +:+
  (q "`>(") +:+ if_status interface +:+
  (q ")</span><br>
                    <small style=`color: #7f8c8d;`>") +:+ addresses +:+
  "</small>
                </div>
                ".

Definition network_status (metrics : Snapshot) : string :=
  let network := fields (network metrics) in
  let interfaces := get_or network net_interfaces [] in
  let network_html := (q "
        <h2 style=`margin: 30px 0 20px 0; color: #2c3e50;`>🌐 Network Status</h2>
        
        <div class=`metrics-grid`>
            <div class=`metric-card`>
                <h3>🔗 Network Interfaces</h3>
        ") in
  let network_html :=
    match interfaces with
    | _ :: _ =>
        fold_left (fun html interface => html +:+ interface_block interface)
          interfaces network_html
    | [] => network_html +:+ "<p>No network interface data available</p>"
    end in
  let network_html := network_html +:+ "</div>" in
  let default_gw := get_or network net_default_gateway None in
  let dns_status := get_or network net_dns_status "unknown" in
  let listening_ports := get_or network net_listening_ports 0 in
  network_html +:+
  ((q "
            <div class=`metric-card`>
                <h3>🔌 Connectivity Status</h3>
                <div style=`line-height: 2;`>
                    <strong>Default Gateway:</strong> 
                    <span class=`") +:+ (if truthy default_gw then "status-ok" else "status-warning") +:+
   (q "`>") +:+ (if truthy default_gw then default (""%string) default_gw else "Not configured") +:+
   (q "</span><br>
                    
                    <strong>DNS Resolution:</strong> 
                    <span class=`status-") +:+ dns_status +:+
   (q "`>") +:+ (if String.eqb dns_status "ok" then "Working" else "Failed") +:+
   (q "</span><br>
                    
                    <strong>Listening Services:</strong> 
                    <span class=`status-ok`>") +:+ str_int listening_ports +:+
   " ports</span>
                </div>
            </div>
        </div>
        ").

Definition security_status (metrics : Snapshot) : string :=
  let security := fields (security metrics) in
  let security_html := (q "
        <h2 style=`margin: 30px 0 20px 0; color: #2c3e50;`>🔒 Security Status</h2>
        
        <div class=`metrics-grid`>
        ") in
  let selinux := sec_selinux <$> security in
  let selinux_status := get_or selinux sh_status "Unknown" in
  let selinux_health := get_or selinux sh_health "unknown" in
  let security_html := security_html +:+
    ((q "
            <div class=`metric-card`>
                <h3>🛡️ SELinux Status</h3>
                <div class=`metric-value status-") +:+ selinux_health +:+ (q "`>") +:+ selinux_status +:+ (q "</div>
                <div class=`metric-label`>Mandatory Access Control</div>
            </div>
        ")) in
  let firewall := sec_firewall <$> security in
  let firewall_status := get_or firewall sh_status "Unknown" in
  let firewall_health := get_or firewall sh_health "unknown" in
  let security_html := security_html +:+
    ((q "
            <div class=`metric-card`>
                <h3>🔥 Firewall Status</h3>
                <div class=`metric-value status-") +:+ firewall_health +:+ (q "`>") +:+ firewall_status +:+ (q "</div>
                <div class=`metric-label`>Network Protection</div>
            </div>
        ")) in
  let updates := sec_updates <$> security in
  let updates_count := get_or updates ch_count 0 in
  let updates_health := get_or updates ch_health "unknown" in
  let security_html := security_html +:+
    ((q "
            <div class=`metric-card`>
                <h3>📦 System Updates</h3>
                <div class=`metric-value status-") +:+ updates_health +:+ (q "`>") +:+ str_int updates_count +:+ (q "</div>
                <div class=`metric-label`>Available Updates</div>
            </div>
        ")) in
  let failed_logins := sec_failed_logins <$> security in
  let login_count := get_or failed_logins ch_count 0 in
  let login_health := get_or failed_logins ch_health "unknown" in
  let security_html := security_html +:+
    ((q "
            <div class=`metric-card`>
                <h3>🚫 Failed Logins</h3>
                <div class=`metric-value status-") +:+ login_health +:+ (q "`>") +:+ str_int login_count +:+ (q "</div>
                <div class=`metric-label`>Last 24 Hours</div>
            </div>
        </div>
        ")) in
  security_html.

Definition service_row (service : service) : string :=
  let status_class := "status-" +:+ svc_health service in
  let enabled_class :=
    if String.eqb (svc_enabled service) "enabled" then "status-ok" else "status-warning" in
  "
                <tr>
                    <td><strong>" +:+ svc_name service +:+
  (q "</strong></td>
                    <td><span class=`") +:+ status_class +:+
  (q "`>") +:+ svc_status service +:+
  (q "</span></td>
                    <td><span class=`") +:+ enabled_class +:+
  (q "`>") +:+ svc_enabled service +:+
  (q "</span></td>
                    <td><span class=`") +:+ status_class +:+
  (q "`>●</span></td>
                </tr>
                ").

Definition services_status (metrics : Snapshot) : string :=
  let services := fields (services metrics) in
  let critical_services := get_or services svc_critical_services [] in
  let failed_count := get_or services svc_failed_count 0 in
  let services_html :=
    (q "
        <h2 style=`margin: 30px 0 20px 0; color: #2c3e50;`>⚙️ System Services</h2>
        
        <div class=`alert alert-") +:+ (if failed_count =? 0 then "success" else "warning") +:+
    (q "`>
            <strong>Service Status Summary:</strong> 
            ") +:+ str_int (Z.of_nat (length critical_services)) +:+
    " critical services monitored, " +:+ str_int failed_count +:+
    (q " failed services detected
        </div>
        
        <div class=`metric-card`>
            <h3>🔧 Critical Services Status</h3>
        ") in
  let services_html :=
    match critical_services with
    | _ :: _ =>
        let services_html := services_html +:+ (q "
            <table class=`table`>
                <thead>
                    <tr>
                        <th>Service</th>
                        <th>Status</th>
                        <th>Enabled</th>
                        <th>Health</th>
                    </tr>
                </thead>
                <tbody>
            ") in
        let services_html :=
          fold_left (fun html service => html +:+ service_row service)
            critical_services services_html in
        services_html +:+ "</tbody></table>"
    | [] => services_html +:+ "<p>No service data available</p>"
    end in
  services_html +:+ "</div>".

(** [html_template.format(...)]: the fixed text around the eight fields. *)
Definition html_template (hostname timestamp system_overview performance_metrics
    disk_analysis network_status security_status services_status : string) : string :=
  (q "
<!DOCTYPE html>
<html lang=`en`>
<head>
    <meta charset=`UTF-8`>
    <meta name=`viewport` content=`width=device-width, initial-scale=1.0`>
    <title>System Health Dashboard - ") +:+ hostname +:+
  (q "</title>
    <style>
        * {
            margin: 0;
            padding: 0;
            box-sizing: border-box;
        }
        
        body {
            font-family: 'Segoe UI', Tahoma, Geneva, Verdana, sans-serif;
            background: linear-gradient(135deg, #667eea 0%, #764ba2 100%);
            min-height: 100vh;
            padding: 20px;
        }
        
        .dashboard {
            max-width: 1400px;
            margin: 0 auto;
            background: white;
            border-radius: 20px;
            box-shadow: 0 20px 60px rgba(0,0,0,0.1);
            overflow: hidden;
        }
        
        .header {
            background: linear-gradient(135deg, #2c3e50 0%, #34495e 100%);
            color: white;
            padding: 30px;
            text-align: center;
        }
        
        .header h1 {
            font-size: 2.5em;
            margin-bottom: 10px;
            font-weight: 300;
        }
        
        .header .subtitle {
            font-size: 1.2em;
            opacity: 0.8;
        }
        
        .content {
            padding: 30px;
        }
        
        .metrics-grid {
            display: grid;
            grid-template-columns: repeat(auto-fit, minmax(300px, 1fr));
            gap: 25px;
            margin-bottom: 30px;
        }
        
        .metric-card {
            background: #f8f9fa;
            border-radius: 15px;
            padding: 25px;
            box-shadow: 0 5px 15px rgba(0,0,0,0.05);
            transition: transform 0.3s ease;
        }
        
        .metric-card:hover {
            transform: translateY(-5px);
        }
        
        .metric-card h3 {
            color: #2c3e50;
            margin-bottom: 20px;
            font-size: 1.3em;
            border-bottom: 2px solid #3498db;
            padding-bottom: 10px;
        }
        
        .metric-value {
            font-size: 2.5em;
            font-weight: bold;
            margin-bottom: 10px;
        }
        
        .metric-label {
            color: #7f8c8d;
            font-size: 0.9em;
            text-transform: uppercase;
            letter-spacing: 1px;
        }
        
        .status-ok { color: #27ae60; }
        .status-warning { color: #f39c12; }
        .status-critical { color: #e74c3c; }
        
        .progress-bar {
            width: 100%;
            height: 20px;
            background: #ecf0f1;
            border-radius: 10px;
            overflow: hidden;
            margin: 10px 0;
        }
        
        .progress-fill {
            height: 100%;
            border-radius: 10px;
            transition: width 0.3s ease;
        }
        
        .progress-ok { background: linear-gradient(90deg, #27ae60, #2ecc71); }
        .progress-warning { background: linear-gradient(90deg, #f39c12, #e67e22); }
        .progress-critical { background: linear-gradient(90deg, #e74c3c, #c0392b); }
        
        .table {
            width: 100%;
            border-collapse: collapse;
            margin-top: 15px;
        }
        
        .table th, .table td {
            padding: 12px;
            text-align: left;
            border-bottom: 1px solid #ecf0f1;
        }
        
        .table th {
            background: #3498db;
            color: white;
            font-weight: 600;
        }
        
        .table tr:hover {
            background: #f8f9fa;
        }
        
        .alert {
            padding: 15px;
            border-radius: 10px;
            margin: 15px 0;
        }
        
        .alert-success {
            background: #d4edda;
            border-left: 4px solid #27ae60;
            color: #155724;
        }
        
        .alert-warning {
            background: #fff3cd;
            border-left: 4px solid #f39c12;
            color: #856404;
        }
        
        .alert-danger {
            background: #f8d7da;
            border-left: 4px solid #e74c3c;
            color: #721c24;
        }
        
        .footer {
            background: #2c3e50;
            color: white;
            text-align: center;
            padding: 20px;
            font-size: 0.9em;
        }
        
        @media (max-width: 768px) {
            .metrics-grid {
                grid-template-columns: 1fr;
            }
            
            .header h1 {
                font-size: 2em;
            }
            
            .content {
                padding: 20px;
            }
        }
    </style>
</head>
<body>
    <div class=`dashboard`>
        <div class=`header`>
            <h1>🖥️ System Health Dashboard</h1>
            <div class=`subtitle`>
                ") +:+ hostname +:+
  " | " +:+ timestamp +:+
  (q "
            </div>
        </div>
        
        <div class=`content`>
            ") +:+ system_overview +:+
  "
            " +:+ performance_metrics +:+
  "
            " +:+ disk_analysis +:+
  "
            " +:+ network_status +:+
  "
            " +:+ security_status +:+
  "
            " +:+ services_status +:+
  (q "
        </div>
        
        <div class=`footer`>
            Generated by Enterprise Linux Toolkit | © 2024 Gabriel - Senior Linux Systems Administrator
        </div>
    </div>
</body>
</html>
        ").

(** The methods, each reading [self.metrics]. *)

Definition _generate_system_overview : Cmd string :=
  do metrics <- get_metrics; lift (system_overview metrics).

Definition _generate_performance_metrics : Cmd string :=
  do metrics <- get_metrics; cret (performance_metrics metrics).

Definition _generate_disk_analysis : Cmd string :=
  do metrics <- get_metrics; cret (disk_analysis metrics).

Definition _generate_network_status : Cmd string :=
  do metrics <- get_metrics; cret (network_status metrics).

Definition _generate_security_status : Cmd string :=
  do metrics <- get_metrics; cret (security_status metrics).

Definition _generate_services_status : Cmd string :=
  do metrics <- get_metrics; cret (services_status metrics).

(** [generate_html]: the six sections in order, then the template. *)
Definition generate_html : Cmd string :=
  do system_overview <- _generate_system_overview;
  do performance_metrics <- _generate_performance_metrics;
  do disk_analysis <- _generate_disk_analysis;
  do network_status <- _generate_network_status;
  do security_status <- _generate_security_status;
  do services_status <- _generate_services_status;
  do metrics <- get_metrics;
  do hostname <- lift (getitem "system" "hostname" (system metrics) sys_hostname);
  do timestamp <- lift (getitem "system" "timestamp" (system metrics) sys_timestamp);
  cret (html_template hostname timestamp system_overview performance_metrics
          disk_analysis network_status security_status services_status).

(** The document of a snapshot, the state left aside. *)
Definition render (metrics : Snapshot) : Result string := snd (generate_html metrics).

(** ** The program: [CONFIG], [main] and [send_email_report] *)

(** What a run does to the host besides reading it, in order.  Lines
    printed and logged are not part of the model: writing to the console
    is taken to succeed, here as in the collector. *)
Record message := {
  msg_from : string;
  msg_to : string;
  msg_subject : string;
  msg_html : string
}.

Variant effect :=
  | MadeDirs (path : string)
  | Wrote (path content : string)
  | Sent (sender : string) (recipients : list string) (msg : message).

(** The host of a run: what the collector reads, and what each action of
    [main] returns or raises.  [mkdir_p] is [os.makedirs(name,
    exist_ok=True)] on a name that is not empty, [write_text] the [with
    open(path, 'w')] block, the three [smtp_] fields [smtplib.SMTP(host)],
    [sendmail] and [quit]. *)
Record Host := {
  world : World;
  mkdir_p : string -> Result unit;
  write_text : string -> string -> Result unit;
  smtp_connect : string -> Result unit;
  smtp_sendmail : string -> list string -> message -> Result unit;
  smtp_quit : Result unit
}.

Definition Run (A : Type) : Type := list effect -> list effect * Result A.

Definition run_ret {A} (a : A) : Run A := fun t => (t, ok a).

Definition run_bind {A B} (c : Run A) (k : A -> Run B) : Run B :=
  fun t =>
    let '(t', r) := c t in
    match r with
    | inl e => (t', inl e)
    | inr a => k a t'
    end.

Definition run_lift {A} (r : Result A) : Run A := fun t => (t, r).

(** An action of the host: recorded when it returns. *)
Definition perform (r : Result unit) (e : effect) : Run unit :=
  fun t =>
    match r with
    | inl x => (t, inl x)
    | inr _ => ((t ++ [e])%list, ok tt)
    end.

Definition run_try {A} (body : Run A) (handler : exn -> Run A) : Run A :=
  fun t =>
    let '(t', r) := body t in
    match r with
    | inl e => handler e t'
    | inr a => (t', inr a)
    end.

Declare Scope run_scope.
Delimit Scope run_scope with run.
Notation "'do' x <- c ; k" := (run_bind c (fun x => k))
  (at level 10, x pattern, c at level 100, k at level 200) : run_scope.
Notation "c ;; k" := (run_bind c (fun _ => k))
  (at level 100, k at level 200, right associativity) : run_scope.

Record Config := {
  output_dir : string;
  backup_reports : bool;
  email_enabled : bool;
  email_smtp : string;
  email_from : string;
  email_to : list string;
  retention_days : Z
}.

Definition CONFIG : Config :=
  {| output_dir := "/var/www/html/metrics";
     backup_reports := true;
     email_enabled := false;
     email_smtp := "localhost";
     email_from := "noreply@company.com";
     email_to := ["admin@company.com"];
     retention_days := 30 |}.

(** The command line as [argparse] hands it over. *)
Record Args := {
  args_output : string;
  args_config : option string;
  args_email : bool;
  args_verbose : bool
}.

Definition default_args : Args :=
  {| args_output := "/tmp/system-dashboard.html";
     args_config := None;
     args_email := false;
     args_verbose := false |}.

(** [p[:p.rfind('/') + 1]] when [p] holds a slash. *)
Fixpoint dir_prefix (p : string) : option string :=
  match p with
  | EmptyString => None
  | String c p' =>
      match dir_prefix p' with
      | Some t => Some (String c t)
      | None => if Ascii.eqb c "/" then Some (String c EmptyString) else None
      end
  end.

Fixpoint all_slashes (s : string) : bool :=
  match s with
  | EmptyString => true
  | String c s' => Ascii.eqb c "/" && all_slashes s'
  end.

(** [os.path.dirname] (posixpath). *)
Definition dirname (p : string) : string :=
  let head := default "" (dir_prefix p) in
  if negb (String.eqb head "") && negb (all_slashes head)
  then rstrip_char "/" head
  else head.

(** [os.makedirs(name, exist_ok=True)]: the empty name is refused before
    anything is made. *)
Definition makedirs (h : Host) (name : string) : Result unit :=
  match name with
  | EmptyString => raise FileNotFoundError "[Errno 2] No such file or directory: ''"
  | _ => mkdir_p h name
  end.

Local Open Scope run_scope.

(** [send_email_report]: the whole body is under one [try]; the handler
    logs and returns. *)
Definition send_email_report (h : Host) (html_content : string) (metrics : Snapshot)
  : Run unit :=
  run_try
    (do hostname <- run_lift (getitem "system" "hostname" (system metrics) sys_hostname);
     let msg := {| msg_from := email_from CONFIG;
                   msg_to := join ", " (email_to CONFIG);
                   msg_subject := "System Health Report - " +:+ hostname;
                   msg_html := html_content |} in
     run_lift (smtp_connect h (email_smtp CONFIG)) ;;
     perform (smtp_sendmail h (email_from CONFIG) (email_to CONFIG) msg)
             (Sent (email_from CONFIG) (email_to CONFIG) msg) ;;
     run_lift (smtp_quit h))
    (fun _ => run_ret tt).

(** The [try] block of [main]. *)
Definition main_body (h : Host) (args : Args) : Run unit :=
  let '(metrics, collected) := collect_all_metrics (world h) empty_snapshot in
  run_lift collected ;;
  let '(metrics, rendered) := generate_html metrics in
  do html_content <- run_lift rendered;
  let output_path := args_output args in
  perform (makedirs h (dirname output_path)) (MadeDirs (dirname output_path)) ;;
  perform (write_text h output_path html_content) (Wrote output_path html_content) ;;
  if args_email args && email_enabled CONFIG
  then send_email_report h html_content metrics
  else run_ret tt.

(** [main]: what the run did, and its exit status: 1 from the handler's
    [sys.exit(1)], 0 when the [try] block ends. *)
Definition main (h : Host) (args : Args) : list effect * Z :=
  let '(trace, r) := main_body h args [] in
  (trace, match r with inr _ => 0 | inl _ => 1 end).

Local Close Scope run_scope.

(** ** Reference definitions for the properties below *)

(** [p] occurs in [s], as it stands. *)
Definition is_infix (p s : string) : Prop := exists a b, s = a +:+ p +:+ b.

(** The usage percent as the specification words it:
    [round((T - A) / T * 100, 1)]. *)
Definition spec_usage_percent (T A : Z) : Result float :=
  let? ratio := int_truediv (T - A) T in
  ok (py_round (float_mul ratio (fnorm 100 0)) 1).

(** The fraction [p / d] in decimal with one digit after the point,
    rounded to nearest, ties to even. *)
Definition fixed1 (p d : Z) : string :=
  let t := round_half_even (10 * p) d in
  str_int (t / 10) +:+ "." +:+ str_int (t mod 10).

(** How many times 1024 goes into a byte count, five at most, and the
    unit of that step. *)
Definition unit_index (n : Z) : nat :=
  if n <? 1024 then 0
  else if n <? 1024 ^ 2 then 1
  else if n <? 1024 ^ 3 then 2
  else if n <? 1024 ^ 4 then 3
  else if n <? 1024 ^ 5 then 4
  else 5.

Definition unit_name (k : nat) : string :=
  nth k ["B"; "KB"; "MB"; "GB"; "TB"] "PB".

(** The float 1024.0. *)
Definition f1024 : float := S754_finite false 4503599627370496 (-42).

(** [x] is the normal float of the fraction [N / D], at exponent [e]. *)
Definition represents (x : float) (N D e : Z) : Prop :=
  exists m, x = S754_finite false m e /\ digits2_pos m = 53%positive /\
            e <= 0 /\ 0 < D /\ Zpos m * D = N * 2 ^ (- e).

(** The loop of [bytes_to_human] on exact fractions. *)
Fixpoint exact_loop (units : list string) (N D : Z) : string :=
  match units with
  | [] => fixed1 N D +:+ " PB"
  | u :: rest =>
      if N <? 1024 * D then fixed1 N D +:+ " " +:+ u
      else exact_loop rest N (1024 * D)
  end.

(** A method that reads [self.metrics] and leaves it as it was. *)
Definition read_only {A} (c : Cmd A) : Prop := forall s, (c s).1 = s.

(** An assignment [self.metrics[g] = v] raises nothing. *)
Definition assigns {A} (set : group A -> Cmd unit) : Prop :=
  forall g s, (set g s).2 = ok tt.

(** The document of [metrics] is produced and [p] occurs in it. *)
Definition renders_with (metrics : Snapshot) (p : string) : bool :=
  match render metrics with
  | inr html => contains p html
  | inl _ => false
  end.

(** The three inputs of the overall health. *)
Definition cpu_high (metrics : Snapshot) : bool :=
  has_key (cpu metrics) &&
  num_gt (get_or (fields (cpu metrics)) cpu_usage_percent (PyInt 0)) (PyInt 80).

Definition memory_high (metrics : Snapshot) : bool :=
  has_key (memory metrics) &&
  num_gt (get_or (fields (memory metrics)) mem_usage_percent (PyInt 0)) (PyInt 85).

Definition disk_over_90 (metrics : Snapshot) : bool :=
  existsb (fun fs => fs_usage_percent fs >? 90)
    (get_or (fields (disk metrics)) disk_filesystems []).

(** A method that always returns. *)
Definition returns (c : Cmd unit) : Prop := forall s, (c s).2 = ok tt.

(** What a guarded collector stores for the result of its body. *)
Definition outcome {A} (r : Result A) : group A :=
  match r with
  | inr a => Populated a
  | inl e => ErrorMarker (exn_msg e)
  end.

(** A group that is absent, empty or an error marker. *)
Definition degraded {A} (g : option (group A)) : Prop :=
  g = None \/ g = Some EmptyDict \/ exists msg, g = Some (ErrorMarker msg).

(** ** Sample hosts and snapshots *)

Definition not_found (path : string) : exn :=
  Exn FileNotFoundError ("[Errno 2] No such file or directory: '" +:+ path +:+ "'").

Definition command_failed (cmd : string) : exn :=
  Exn CalledProcessError ("Command '" +:+ cmd +:+ "' returned non-zero exit status 1.").

(** Files of a host with 16 GiB of memory, 4 GiB available, no swap. *)
Definition sample_files (path : string) : Result string :=
  if String.eqb path "/etc/redhat-release" then
    ok "Red Hat Enterprise Linux release 9.3 (Plow)
"
  else if String.eqb path "/proc/uptime" then ok "273600.52 1000000.10
"
  else if String.eqb path "/proc/stat" then
    ok "cpu  1000 0 1000 8000 0 0 0 0 0 0
cpu0 500 0 500 4000 0 0 0 0 0 0
"
  else if String.eqb path "/proc/cpuinfo" then
    ok "processor	: 0
model name	: Example CPU @ 2.40GHz
"
  else if String.eqb path "/proc/meminfo" then
    ok "MemTotal:       16777216 kB
MemFree:         1048576 kB
MemAvailable:    4194304 kB
SwapTotal:             0 kB
SwapFree:              0 kB
"
  else inl (not_found path).

(** The same host with no [/proc/uptime]. *)
Definition files_without_uptime (path : string) : Result string :=
  if String.eqb path "/proc/uptime" then inl (not_found path) else sample_files path.

(** The same host reporting no memory at all. *)
Definition files_zero_memory (path : string) : Result string :=
  if String.eqb path "/proc/meminfo" then
    ok "MemTotal:              0 kB
MemFree:               0 kB
"
  else sample_files path.

(** Commands: three filesystems at 79, 80 and 90 percent, one process
    whose command line holds markup, [sshd] the only monitored unit. *)
Definition sample_commands (cmd : string) : Result string :=
  if String.eqb cmd "ps aux --sort=-%cpu --no-headers | head -5" then
    ok "root         1  0.0  0.1 169000 13000 ?        Ss   Jan01   0:05 /sbin/init
alice     4242  0.0  0.0   7000  3000 pts/0    S+   10:00   0:00 sh -c <script>alert(1)</script>
"
  else if String.eqb cmd "ps aux --sort=-%mem --no-headers | head -5" then
    ok "root         1  0.0  0.1 169000 13000 ?        Ss   Jan01   0:05 /sbin/init
"
  else if String.eqb cmd "df -h | grep -vE '^Filesystem|tmpfs|cdrom|udev'" then
    ok "/dev/sda1        50G   39G   11G  79% /
/dev/sda2        50G   40G   10G  80% /var
/dev/sdb1       100G   90G   10G  90% /data
"
  else if String.eqb cmd "df -i | grep -vE '^Filesystem|tmpfs|cdrom|udev'" then
    ok "/dev/sda1      3276800 120000 3156800    4% /
"
  else if String.eqb cmd "ip addr show" then
    ok "1: lo: <LOOPBACK,UP,LOWER_UP> mtu 65536 qdisc noqueue state UNKNOWN
    inet 127.0.0.1/8 scope host lo
2: eth0: <BROADCAST,MULTICAST,UP,LOWER_UP> mtu 1500 qdisc fq_codel state UP
    inet 192.0.2.10/24 brd 192.0.2.255 scope global eth0
"
  else if String.eqb cmd "ip route | grep default" then
    ok "default via 192.0.2.1 dev eth0 proto static
"
  else if String.eqb cmd "ss -tuln | grep LISTEN | wc -l" then ok "7
"
  else if String.eqb cmd "systemctl list-unit-files | grep -q '^sshd.service'" then ok ""
  else if String.eqb cmd "systemctl is-active sshd" then ok "active
"
  else if String.eqb cmd "systemctl is-enabled sshd" then ok "enabled
"
  else if String.eqb cmd "systemctl list-units --failed --no-legend" then ok ""
  else if String.eqb cmd "dnf check-update -q | wc -l" then ok "0
"
  else inl (command_failed cmd).

Definition sample_argv (argv : list string) : Result string :=
  match argv with
  | ["getenforce"] => ok "Enforcing
"
  | ["systemctl"; "is-active"; "firewalld"] => ok "active
"
  | _ => inl (command_failed (join " " argv))
  end.

Definition host_with (files : string -> Result string) : World :=
  {| gethostname := "web01";
     getfqdn := "web01.example.com";
     timestamp := "2024-05-01 12:00:00";
     read_file := files;
     platform_platform := "Linux-5.14.0-x86_64-with-glibc2.34";
     platform_release := "5.14.0";
     platform_machine := "x86_64";
     getloadavg := ok (fnorm 1 (-2), fnorm 1 (-1), fnorm 3 (-2));
     cpu_count := Some 4;
     check_output := sample_commands;
     check_output_argv := sample_argv;
     path_exists := fun path => String.eqb path "/usr/bin/dnf" |}.

Definition sample_host : World := host_with sample_files.
Definition host_without_uptime : World := host_with files_without_uptime.
Definition host_zero_memory : World := host_with files_zero_memory.

(** A synthetic snapshot: the system group, no CPU and no memory load,
    and one filesystem, mounted on [/data], at [u] percent. *)
Definition sample_system : system_info :=
  {| sys_hostname := "web01";
     sys_fqdn := "web01.example.com";
     sys_os_info := "Red Hat Enterprise Linux release 9.3 (Plow)";
     sys_kernel := "5.14.0";
     sys_architecture := "x86_64";
     sys_uptime := "3d 4h";
     sys_uptime_seconds := 273600;
     sys_load_avg := {| load_1min := fnorm 0 0;
                        load_5min := fnorm 0 0;
                        load_15min := fnorm 0 0 |};
     sys_cpu_cores := Some 4;
     sys_timestamp := "2024-05-01 12:00:00" |}.

Definition idle_cpu : cpu_metrics :=
  {| cpu_usage_percent := PyFloat (fnorm 0 0);
     cpu_model := "Example CPU";
     cpu_cores := Some 4;
     cpu_load_avg := sys_load_avg sample_system;
     cpu_top_processes := [] |}.

Definition idle_memory : memory_metrics :=
  {| mem_total_bytes := 17179869184;
     mem_used_bytes := 0;
     mem_available_bytes := 17179869184;
     mem_total_human := "16.0 GB";
     mem_used_human := "0.0 B";
     mem_available_human := "16.0 GB";
     mem_usage_percent := PyFloat (fnorm 0 0);
     mem_swap_total_bytes := 0;
     mem_swap_used_bytes := 0;
     mem_swap_total_human := "0.0 B";
     mem_swap_used_human := "0.0 B";
     mem_swap_usage_percent := PyInt 0;
     mem_top_processes := [] |}.

Definition data_filesystem (u : Z) : filesystem :=
  {| fs_filesystem := "/dev/sdb1";
     fs_size := "100G";
     fs_used := "90G";
     fs_available := "10G";
     fs_usage_percent := u;
     fs_mountpoint := "/data";
     fs_status := disk_status u |}.

Definition synthetic_snapshot (u : Z) : Snapshot :=
  {| system := Some (Populated sample_system);
     cpu := Some (Populated idle_cpu);
     memory := Some (Populated idle_memory);
     disk := Some (Populated {| disk_filesystems := [data_filesystem u];
                                disk_inodes := ∅;
                                disk_large_files := [] |});
     network := None;
     services := None;
     security := None |}.

(** The system group alone. *)
Definition system_only_snapshot : Snapshot :=
  {| system := Some (Populated sample_system);
     cpu := None; memory := None; disk := None;
     network := None; services := None; security := None |}.

(** What the CPU, memory and SELinux cards show without their group. *)
Definition cpu_default_card : string := (q "<h3>💻 CPU Usage</h3>
                <div class=`metric-value status-ok`>0%</div>").

Definition memory_default_card : string := (q "<h3>🧠 Memory Usage</h3>
                <div class=`metric-value status-ok`>0%</div>").

Definition security_default_card : string := (q "<h3>🛡️ SELinux Status</h3>
                <div class=`metric-value status-unknown`>Unknown</div>").

(** The snapshot of the sample host. *)
Definition sample_snapshot : Snapshot := (collect_all_metrics sample_host empty_snapshot).1.

(** ** More sample hosts *)

Definition host_of (files : string -> Result string) (commands : string -> Result string)
    (argv : list string -> Result string) (cores : option Z) : World :=
  {| gethostname := "web01";
     getfqdn := "web01.example.com";
     timestamp := "2024-05-01 12:00:00";
     read_file := files;
     platform_platform := "Linux-5.14.0-x86_64-with-glibc2.34";
     platform_release := "5.14.0";
     platform_machine := "x86_64";
     getloadavg := ok (fnorm 1 (-2), fnorm 1 (-1), fnorm 3 (-2));
     cpu_count := cores;
     check_output := commands;
     check_output_argv := argv;
     path_exists := fun path => String.eqb path "/usr/bin/dnf" |}.

(** A host on which every command fails. *)
Definition no_commands (cmd : string) : Result string := inl (command_failed cmd).
Definition no_argv (argv : list string) : Result string :=
  inl (command_failed (join " " argv)).

Definition bare_host : World := host_of sample_files no_commands no_argv (Some 4).

(** [/proc/meminfo] of a kernel that reports [MemAvailable] and no
    [MemFree]. *)
Definition files_without_memfree (path : string) : Result string :=
  if String.eqb path "/proc/meminfo" then
    ok "MemTotal:       16777216 kB
MemAvailable:    4194304 kB
"
  else sample_files path.

(** [/proc/meminfo] with an empty line in it. *)
Definition files_blank_line (path : string) : Result string :=
  if String.eqb path "/proc/meminfo" then
    ok "MemTotal:       16777216 kB

MemFree:         1048576 kB
"
  else sample_files path.

(** [/proc/stat] before any tick was counted. *)
Definition files_zero_ticks (path : string) : Result string :=
  if String.eqb path "/proc/stat" then
    ok "cpu  0 0 0 0 0 0 0 0 0 0
"
  else sample_files path.

(** [df -h] with a filesystem whose use column is a dash. *)
Definition commands_dash_usage (cmd : string) : Result string :=
  if String.eqb cmd "df -h | grep -vE '^Filesystem|tmpfs|cdrom|udev'" then
    ok "/dev/sda1        50G   39G   11G  79% /
overlay            0     0     0    - /var/lib/overlay
"
  else sample_commands cmd.

(** A command line of sixty characters. *)
Definition long_ps_line : string :=
  "root 1 0.0 0.1 1 1 ? Ss Jan01 0:05 /usr/bin/python3 /opt/tools/a-very-long-script-name-here.py --x".

(** The system group of a host whose core count is not known. *)
Definition coreless_system : system_info :=
  {| sys_hostname := "web01";
     sys_fqdn := "web01.example.com";
     sys_os_info := "Red Hat Enterprise Linux release 9.3 (Plow)";
     sys_kernel := "5.14.0";
     sys_architecture := "x86_64";
     sys_uptime := "3d 4h";
     sys_uptime_seconds := 273600;
     sys_load_avg := sys_load_avg sample_system;
     sys_cpu_cores := None;
     sys_timestamp := "2024-05-01 12:00:00" |}.

Definition coreless_snapshot : Snapshot :=
  {| system := Some (Populated coreless_system);
     cpu := None; memory := None; disk := None;
     network := None; services := None; security := None |}.

(** A host that can be written to, on which every command fails. *)
Definition bare_run_host : Host :=
  {| world := bare_host;
     mkdir_p := fun _ => ok tt;
     write_text := fun _ _ => ok tt;
     smtp_connect := fun _ => ok tt;
     smtp_sendmail := fun _ _ _ => ok tt;
     smtp_quit := ok tt |}.

(** The default command line with another output path. *)
Definition args_to (path : string) : Args :=
  {| args_output := path;
     args_config := None;
     args_email := true;
     args_verbose := false |}.

(** A host whose release file is there, closed to the user of the run. *)
Definition permission_denied (path : string) : exn :=
  Exn OSError ("[Errno 13] Permission denied: '" +:+ path +:+ "'").

Definition files_closed_release (path : string) : Result string :=
  if String.eqb path "/etc/redhat-release" then inl (permission_denied path)
  else sample_files path.

Definition closed_release_host : Host :=
  {| world := host_with files_closed_release;
     mkdir_p := fun _ => ok tt;
     write_text := fun _ _ => ok tt;
     smtp_connect := fun _ => ok tt;
     smtp_sendmail := fun _ _ _ => ok tt;
     smtp_quit := ok tt |}.

(** * Properties *)

(** ** Strings *)

Lemma append_cons (x : ascii) (a b : string) : String x a +:+ b = String x (a +:+ b).
Proof. reflexivity. Qed.

Lemma append_nil_l (a : string) : "" +:+ a = a.
Proof. reflexivity. Qed.

Lemma append_assoc (a b c : string) : (a +:+ b) +:+ c = a +:+ (b +:+ c).
Proof. induction a as [|x a IH]; [done | by rewrite !append_cons, IH]. Qed.

Lemma append_nil_r (a : string) : a +:+ "" = a.
Proof. induction a as [|x a IH]; [done | by rewrite append_cons, IH]. Qed.

Lemma is_infix_refl (p : string) : is_infix p p.
Proof. exists "", "". by rewrite append_nil_l, append_nil_r. Qed.

Lemma is_infix_app_r (p s t : string) : is_infix p s -> is_infix p (s +:+ t).
Proof.
  intros (a & b & ->). exists a, (b +:+ t).
  by rewrite !append_assoc.
Qed.

Lemma is_infix_app_l (p s t : string) : is_infix p s -> is_infix p (t +:+ s).
Proof.
  intros (a & b & ->). exists (t +:+ a), b.
  by rewrite !append_assoc.
Qed.

Lemma is_infix_trans (p s t : string) : is_infix p s -> is_infix s t -> is_infix p t.
Proof.
  intros (a & b & ->) (c & d & ->). exists (c +:+ a), (b +:+ d).
  by rewrite !append_assoc.
Qed.

Lemma startswith_app (p s : string) : startswith p (p +:+ s) = true.
Proof.
  induction p as [|x p IH]; [done |].
  rewrite append_cons. simpl. by rewrite Ascii.eqb_refl, IH.
Qed.

Lemma contains_app_l (p a s : string) : contains p s = true -> contains p (a +:+ s) = true.
Proof.
  intros H. induction a as [|x a IH]; [done |].
  rewrite append_cons. simpl. rewrite IH. apply orb_true_r.
Qed.

(** The boolean test [p in s] finds every occurrence. *)
Lemma contains_of_infix (p s : string) : is_infix p s -> contains p s = true.
Proof.
  intros (a & b & ->). apply contains_app_l.
  destruct (p +:+ b) eqn:E; simpl; rewrite <- E, startswith_app; done.
Qed.

Lemma startswith_prefix (p s : string) :
  startswith p s = true -> exists b, s = p +:+ b.
Proof.
  revert s. induction p as [|x p IH]; intros s H; simpl in *.
  - by exists s.
  - destruct s as [|y s]; [done |].
    apply andb_true_iff in H as [Hxy Hp].
    apply Ascii.eqb_eq in Hxy as ->.
    destruct (IH _ Hp) as [b ->]. by exists b.
Qed.

Lemma infix_of_contains (p s : string) : contains p s = true -> is_infix p s.
Proof.
  induction s as [|y s IH]; simpl; intros H.
  - rewrite orb_false_r in H. destruct (startswith_prefix _ _ H) as [b ->].
    exists "", b. done.
  - apply orb_true_iff in H as [H | H].
    + destruct (startswith_prefix _ _ H) as [b ->]. exists "", b. done.
    + destruct (IH H) as (a & b & ->). by exists (String y a), b.
Qed.

(** Closes [is_infix p (x1 +:+ ... +:+ xn)] when [p] is one of the [xi]. *)
Ltac infix_here :=
  solve [ apply is_infix_refl
        | apply is_infix_app_r; apply is_infix_refl
        | apply is_infix_app_l; infix_here
        | apply is_infix_app_r; infix_here ].


(** ** The guard of the collector (claim C2) *)

Lemma set_cpu_assigns : assigns set_cpu. Proof. by intros g s. Qed.
Lemma set_memory_assigns : assigns set_memory. Proof. by intros g s. Qed.
Lemma set_disk_assigns : assigns set_disk. Proof. by intros g s. Qed.
Lemma set_network_assigns : assigns set_network. Proof. by intros g s. Qed.
Lemma set_services_assigns : assigns set_services. Proof. by intros g s. Qed.
Lemma set_security_assigns : assigns set_security. Proof. by intros g s. Qed.

(** A guarded collector stores the group when its body returns and the
    error marker when it raises; the exception goes no further. *)
Lemma guarded_outcome {A} (set : group A -> Cmd unit) (body : Snapshot -> Result A)
    (s : Snapshot) :
  assigns set -> guarded set body s = set (outcome (body s)) s.
Proof.
  intros Hset. unfold guarded, cmd_try, cbind, get_metrics, lift. simpl.
  destruct (body s) as [e|a]; simpl; [done |].
  specialize (Hset (Populated a) s).
  destruct (set (Populated a) s) as [s' r]. simpl in Hset. by subst r.
Qed.

Lemma guarded_returns {A} (set : group A -> Cmd unit) (body : Snapshot -> Result A) :
  assigns set -> returns (guarded set body).
Proof. intros Hset s. rewrite guarded_outcome by done. apply Hset. Qed.

Lemma cbind_returns (c k : Cmd unit) :
  returns c -> returns k -> returns (cbind c (fun _ => k)).
Proof.
  intros Hc Hk s. unfold cbind. specialize (Hc s).
  destruct (c s) as [s' r]. simpl in Hc. subst r. apply Hk.
Qed.

Lemma guarded_collectors_return (w : World) :
  returns (collect_cpu_metrics w) /\
  returns (collect_memory_metrics w) /\
  returns (collect_disk_metrics w) /\
  returns (collect_network_metrics w) /\
  returns (collect_service_metrics w) /\
  returns (collect_security_metrics w).
Proof.
  repeat split; apply guarded_returns;
    auto using set_cpu_assigns, set_memory_assigns, set_disk_assigns,
      set_network_assigns, set_services_assigns, set_security_assigns.
Qed.

(** [collect_all_metrics] raises exactly what [collect_system_info]
    raises. *)
Lemma collect_all_metrics_result (w : World) (s : Snapshot) :
  (collect_all_metrics w s).2 =
  match system_info_body w with
  | inl e => inl e
  | inr _ => ok tt
  end.
Proof.
  destruct (guarded_collectors_return w) as (H1 & H2 & H3 & H4 & H5 & H6).
  unfold collect_all_metrics, collect_system_info.
  unfold cbind at 1 2. unfold lift.
  destruct (system_info_body w) as [e|info]; [done |].
  cbn [set_system].
  repeat (apply cbind_returns; [done |]). done.
Qed.

(** C2. Each of the six guarded collectors stores, under its own name
    only, the group or the error marker of what its body raised, and
    returns; [collect_system_info] has no such guard: on a host where
    [/proc/uptime] cannot be read the exception leaves
    [collect_all_metrics] and no group is collected.  In general
    [collect_all_metrics] raises what the system group raises. *)
Theorem collector_guards :
  (forall w s, collect_cpu_metrics w s = set_cpu (outcome (cpu_body w s)) s) /\
  (forall w s, collect_memory_metrics w s = set_memory (outcome (memory_body w s)) s) /\
  (forall w s, collect_disk_metrics w s = set_disk (outcome (disk_body w s)) s) /\
  (forall w s, collect_network_metrics w s = set_network (outcome (network_body w s)) s) /\
  (forall w s, collect_service_metrics w s = set_services (outcome (services_body w s)) s) /\
  (forall w s, collect_security_metrics w s = set_security (outcome (security_body w s)) s) /\
  (forall w s e, system_info_body w = inl e -> (collect_all_metrics w s).2 = inl e) /\
  collect_all_metrics host_without_uptime empty_snapshot
    = (empty_snapshot, inl (not_found "/proc/uptime")).
Proof.
  repeat split; intros;
    try (apply guarded_outcome;
         auto using set_cpu_assigns, set_memory_assigns, set_disk_assigns,
           set_network_assigns, set_services_assigns, set_security_assigns).
  - rewrite collect_all_metrics_result. by rewrite H.
Qed.

(** ** The renderer reads and never writes (claim C9) *)

Lemma read_only_cret {A} (a : A) : read_only (cret a).
Proof. by intros s. Qed.

Lemma read_only_lift {A} (r : Result A) : read_only (lift r).
Proof. by intros s. Qed.

Lemma read_only_get_metrics : read_only get_metrics.
Proof. by intros s. Qed.

Lemma read_only_cbind {A B} (c : Cmd A) (k : A -> Cmd B) :
  read_only c -> (forall a, read_only (k a)) -> read_only (cbind c k).
Proof.
  intros Hc Hk s. unfold cbind. specialize (Hc s).
  destruct (c s) as [s' [e|a]]; simpl in *; [done |].
  subst s'. apply Hk.
Qed.

Create HintDb read_only.
#[local] Hint Resolve read_only_cret read_only_lift read_only_get_metrics : read_only.
#[local] Hint Extern 2 (read_only (cbind _ _)) =>
  apply read_only_cbind; [| intros ?] : read_only.

Lemma read_only_sections :
  read_only _generate_system_overview /\
  read_only _generate_performance_metrics /\
  read_only _generate_disk_analysis /\
  read_only _generate_network_status /\
  read_only _generate_security_status /\
  read_only _generate_services_status.
Proof.
  unfold _generate_system_overview, _generate_performance_metrics,
    _generate_disk_analysis, _generate_network_status,
    _generate_security_status, _generate_services_status.
  repeat split; auto with read_only.
Qed.

Lemma read_only_generate_html : read_only generate_html.
Proof.
  destruct read_only_sections as (H1 & H2 & H3 & H4 & H5 & H6).
  unfold generate_html.
  repeat (apply read_only_cbind; [by auto with read_only | intros ?]).
  apply read_only_cret.
Qed.

(** C9. Rendering leaves the snapshot as it was, and a second rendering
    right after the first returns the same result, the same document
    included. *)
Theorem rendering_is_pure (metrics : Snapshot) :
  let first := generate_html metrics in
  let second := generate_html first.1 in
  first.1 = metrics /\ second.1 = metrics /\ second.2 = first.2.
Proof.
  intros first second.
  assert (H1 : first.1 = metrics) by apply read_only_generate_html.
  subst second. rewrite H1. fold first. rewrite H1. done.
Qed.

(** ** Filesystem status (claim C7) *)

Lemma disk_status_critical (u : Z) : 90 <= u -> disk_status u = "critical".
Proof. intros H. unfold disk_status. by rewrite (proj2 (Z.leb_le 90 u) H). Qed.

Lemma disk_status_warning (u : Z) : 80 <= u < 90 -> disk_status u = "warning".
Proof.
  intros [H1 H2]. unfold disk_status.
  rewrite (proj2 (Z.leb_gt 90 u) H2). by rewrite (proj2 (Z.leb_le 80 u) H1).
Qed.

Lemma disk_status_ok (u : Z) : u < 80 -> disk_status u = "ok".
Proof.
  intros H. unfold disk_status.
  rewrite (proj2 (Z.leb_gt 90 u)) by lia. by rewrite (proj2 (Z.leb_gt 80 u) H).
Qed.

Lemma parse_filesystem_status (line : string) (fs : filesystem) :
  parse_filesystem line = ok (Some fs) ->
  fs_status fs = disk_status (fs_usage_percent fs).
Proof.
  unfold parse_filesystem.
  destruct (split_ws line) as [|p0 [|p1 [|p2 [|p3 [|p4 [|p5 rest]]]]]]; try discriminate.
  destruct (py_int (rstrip_char "%" p4)) as [e|u]; simpl; [discriminate |].
  intros [= <-]. done.
Qed.

Lemma rmap_opt_elem {A B} (f : A -> Result (option B)) (xs : list A) (ys : list B) (y : B) :
  rmap_opt f xs = ok ys -> y ∈ ys -> exists x, x ∈ xs /\ f x = ok (Some y).
Proof.
  revert ys. induction xs as [|x xs IH]; simpl; intros ys H Hy.
  - injection H as <-. by apply elem_of_nil in Hy.
  - destruct (f x) as [e|o] eqn:Hf; simpl in H; [discriminate |].
    destruct (rmap_opt f xs) as [e|zs]; simpl in H; [discriminate |].
    injection H as <-.
    destruct o as [b|].
    + apply elem_of_cons in Hy as [-> | Hy].
      * exists x. split; [left | done].
      * destruct (IH zs eq_refl Hy) as (x' & Hx' & Hfx'). exists x'. split; [by right | done].
    + destruct (IH zs eq_refl Hy) as (x' & Hx' & Hfx'). exists x'. split; [by right | done].
Qed.

Lemma disk_body_status (w : World) (metrics : Snapshot) (d : disk_metrics) (fs : filesystem) :
  disk_body w metrics = ok d -> fs ∈ disk_filesystems d ->
  fs_status fs = disk_status (fs_usage_percent fs).
Proof.
  unfold disk_body. intros H Hfs.
  destruct (check_output w _) as [e|df]; simpl in H; [discriminate |].
  destruct (rmap_opt parse_filesystem _) as [e|fss] eqn:Hfss; simpl in H; [discriminate |].
  destruct (check_output w _) as [e|dfi]; simpl in H; [discriminate |].
  destruct (rmap_opt parse_inode _) as [e|inodes]; simpl in H; [discriminate |].
  injection H as <-. simpl in Hfs.
  destruct (rmap_opt_elem _ _ _ _ Hfss Hfs) as (line & _ & Hline).
  by apply parse_filesystem_status in Hline.
Qed.

(** C7. Every filesystem the collector records carries the status of its
    usage percent [u]: critical from 90 up, warning from 80 to 89, ok below
    80; so 79 is ok, 80 is warning and 90 is critical. *)
Theorem filesystem_status_thresholds (w : World) (s : Snapshot) (d : disk_metrics)
    (fs : filesystem) :
  disk (collect_disk_metrics w s).1 = Some (Populated d) ->
  fs ∈ disk_filesystems d ->
  let u := fs_usage_percent fs in
  (90 <= u -> fs_status fs = "critical") /\
  (80 <= u < 90 -> fs_status fs = "warning") /\
  (u < 80 -> fs_status fs = "ok") /\
  disk_status 79 = "ok" /\ disk_status 80 = "warning" /\ disk_status 90 = "critical".
Proof.
  intros Hd Hfs u.
  assert (Hst : fs_status fs = disk_status u).
  { unfold collect_disk_metrics in Hd.
    destruct (disk_body w s) as [e|d'] eqn:Hbody.
    - rewrite guarded_outcome, Hbody in Hd by apply set_disk_assigns. discriminate.
    - rewrite guarded_outcome, Hbody in Hd by apply set_disk_assigns. simpl in Hd.
      injection Hd as ->. by eapply disk_body_status. }
  rewrite Hst.
  repeat split; auto using disk_status_critical, disk_status_warning, disk_status_ok.
Qed.

Lemma filesystem_status_thresholds_witness :
  exists d,
    disk (collect_disk_metrics sample_host empty_snapshot).1 = Some (Populated d) /\
    data_filesystem 90 ∈ disk_filesystems d /\
    fs_status (data_filesystem 90) = "critical".
Proof.
  destruct (disk (collect_disk_metrics sample_host empty_snapshot).1)
    as [[d| |]|] eqn:Hd; try (vm_compute in Hd; discriminate).
  assert (Hfs : data_filesystem 90 ∈ disk_filesystems d).
  { vm_compute in Hd. injection Hd as <-.
    apply elem_of_cons. right. apply elem_of_cons. right.
    apply elem_of_cons. left. reflexivity. }
  exists d. split; [reflexivity | split; [exact Hfs |]].
  destruct (filesystem_status_thresholds sample_host empty_snapshot d
              (data_filesystem 90) Hd Hfs) as (Hcritical & _).
  apply Hcritical. simpl. lia.
Defined.

(** ** Swap usage (claim C5) *)

Lemma usage_percent_error_class (used total : Z) (e : exn) :
  total <> 0 -> usage_percent used total = inl e -> exn_cls e = OverflowError.
Proof.
  intros Hne. unfold usage_percent, int_truediv.
  rewrite (proj2 (Z.eqb_neq total 0) Hne).
  destruct (SFdiv 53 1024 (raw_int used) (raw_int total)); simpl; try discriminate.
  by intros [= <-].
Qed.

(** C5. With a swap total of zero the swap usage percent is the integer 0
    whatever the free value is, and nothing is raised; the computation
    never raises a division by zero, and returns anything but that 0 only
    for a positive total. *)
Theorem swap_percent_without_swap (mem_info : gmap string Z) (swap_free : Z) :
  default 0 (mem_info !! "SwapTotal") = 0 ->
  default 0 (mem_info !! "SwapFree") = swap_free ->
  swap_usage mem_info = ok (0, 0 - swap_free, PyInt 0) /\
  (forall used total e,
     swap_usage_percent used total = inl e -> exn_cls e <> ZeroDivisionError) /\
  (forall used total,
     swap_usage_percent used total <> ok (PyInt 0) -> 0 < total).
Proof.
  intros Htotal Hfree. split; [| split].
  - unfold swap_usage. rewrite Htotal, Hfree. reflexivity.
  - intros used total e. unfold swap_usage_percent.
    destruct (0 <? total) eqn:Hpos; [| discriminate].
    apply Z.ltb_lt in Hpos.
    destruct (usage_percent used total) as [e'|p] eqn:Hp; simpl; [| discriminate].
    intros [= <-]. rewrite (usage_percent_error_class used total e'); [done | lia | done].
  - intros used total. unfold swap_usage_percent.
    destruct (0 <? total) eqn:Hpos; [by apply Z.ltb_lt in Hpos | done].
Qed.

Lemma swap_percent_without_swap_witness :
  swap_usage (<["SwapTotal" := 0]> (<["SwapFree" := 524288]> ∅))
  = ok (0, 0 - 524288, PyInt 0).
Proof.
  apply (swap_percent_without_swap
           (<["SwapTotal" := 0]> (<["SwapFree" := 524288]> ∅)) 524288);
    reflexivity.
Defined.

(** ** Overall health (claims C1 and C10) *)

Lemma disk_health_fold (fss : list filesystem) (h : string) (issues : list string) :
  (fold_left disk_health_step fss (h, issues)).1 =
  if existsb (fun fs => fs_usage_percent fs >? 90) fss then "critical" else h.
Proof.
  revert h issues. induction fss as [|fs fss IH]; intros h issues; [done |].
  cbn [fold_left existsb]. unfold disk_health_step at 2.
  destruct (fs_usage_percent fs >? 90); cbn [orb].
  - rewrite IH. by destruct (existsb _ fss).
  - apply IH.
Qed.

(** The health the overview displays: critical when some filesystem is
    above 90 percent; otherwise warning when the CPU is above 80 or the
    memory above 85; otherwise ok. *)
Lemma overall_health_rules (metrics : Snapshot) :
  (determine_overall_health metrics).1 =
  if disk_over_90 metrics then "critical"
  else if cpu_high metrics || memory_high metrics then "warning"
  else "ok".
Proof.
  unfold determine_overall_health, disk_over_90, cpu_high, memory_high.
  destruct (has_key (cpu metrics) && _) eqn:Hc;
  destruct (has_key (memory metrics) && _) eqn:Hm;
  (destruct (disk metrics) as [g|] eqn:Hd; simpl;
   [rewrite disk_health_fold; by destruct (existsb _ _) | done]).
Qed.

(** Every filesystem above 90 percent is named in the issues. *)
Lemma disk_issues_kept (fss : list filesystem) (h issue : string) (issues : list string) :
  issue ∈ issues -> issue ∈ (fold_left disk_health_step fss (h, issues)).2.
Proof.
  revert h issues. induction fss as [|fs fss IH]; intros h issues Hin; [done |].
  cbn [fold_left]. unfold disk_health_step at 2.
  destruct (fs_usage_percent fs >? 90); apply IH; [| done].
  apply elem_of_app. by left.
Qed.

Lemma disk_issues_listed (fss : list filesystem) (h : string) (issues : list string)
    (fs : filesystem) :
  fs ∈ fss -> 90 < fs_usage_percent fs ->
  ("Critical disk space on " +:+ fs_mountpoint fs)
    ∈ (fold_left disk_health_step fss (h, issues)).2.
Proof.
  revert h issues. induction fss as [|x fss IH]; intros h issues Hfs Hu.
  - by apply elem_of_nil in Hfs.
  - cbn [fold_left]. apply elem_of_cons in Hfs as [<- | Hfs].
    + unfold disk_health_step at 2.
      rewrite (proj2 (Z.gtb_lt _ _) Hu).
      apply disk_issues_kept, elem_of_app. right. apply elem_of_cons. by left.
    + destruct (disk_health_step (h, issues) x) as [h' issues']. by apply IH.
Qed.

Lemma critical_filesystem_listed (metrics : Snapshot) (d : disk_metrics) (fs : filesystem) :
  disk metrics = Some (Populated d) ->
  fs ∈ disk_filesystems d -> 90 < fs_usage_percent fs ->
  (determine_overall_health metrics).1 = "critical" /\
  ("Critical disk space on " +:+ fs_mountpoint fs) ∈ (determine_overall_health metrics).2.
Proof.
  intros Hd Hfs Hu. split.
  - rewrite overall_health_rules. unfold disk_over_90. rewrite Hd. cbn [fields get_or].
    assert (H : existsb (fun fs => fs_usage_percent fs >? 90) (disk_filesystems d) = true).
    { apply existsb_exists. exists fs. split; [by apply list_elem_of_In |].
      by apply Z.gtb_lt. }
    by rewrite H.
  - unfold determine_overall_health. rewrite Hd. cbn [has_key fields get_or].
    destruct (has_key (cpu metrics) && _); destruct (has_key (memory metrics) && _);
      by apply disk_issues_listed.
Qed.

(** C1. A filesystem at 95 percent, with no CPU and no memory load, makes
    the overall health critical and puts its mountpoint in the issues of
    the page.  At exactly 90 percent the filesystem's own status is
    critical, but the overall health stays ok and the page reports no
    issue. *)
Theorem overall_health_at_95_and_90 :
  determine_overall_health (synthetic_snapshot 95)
    = ("critical", ["Critical disk space on /data"]) /\
  renders_with (synthetic_snapshot 95)
    (q "<span class=`status-critical`>Critical Issues</span>") = true /\
  renders_with (synthetic_snapshot 95) "<br>Issues: Critical disk space on /data" = true /\
  fs_status (data_filesystem 90) = "critical" /\
  determine_overall_health (synthetic_snapshot 90) = ("ok", []) /\
  renders_with (synthetic_snapshot 90) (q "<span class=`status-ok`>Excellent</span>") = true /\
  renders_with (synthetic_snapshot 90) "<br>All systems operating normally" = true.
Proof. repeat split; vm_compute; reflexivity. Qed.

(** C10. There is a snapshot with one filesystem at exactly 90 percent and
    the CPU and the memory under their thresholds where the status of the
    filesystem, as the collector derives it, is critical while the overall
    health is not: the filesystem table shows a critical row under a banner
    that reports no issue. *)
Theorem filesystem_and_banner_disagree_at_90 :
  exists (metrics : Snapshot) (d : disk_metrics) (fs : filesystem),
    disk metrics = Some (Populated d) /\
    disk_filesystems d = [fs] /\
    parse_filesystem "/dev/sdb1       100G   90G   10G  90% /data" = ok (Some fs) /\
    fs_usage_percent fs = 90 /\
    cpu_high metrics = false /\
    memory_high metrics = false /\
    fs_status fs = "critical" /\
    (determine_overall_health metrics).1 = "ok" /\
    (determine_overall_health metrics).1 <> "critical" /\
    renders_with metrics (q "<td><span class=`status-critical`>●</span></td>") = true /\
    renders_with metrics (q "<span class=`status-ok`>Excellent</span>") = true.
Proof.
  exists (synthetic_snapshot 90).
  eexists. exists (data_filesystem 90).
  split; [reflexivity |].
  repeat split; try (vm_compute; reflexivity).
  vm_compute. discriminate.
Qed.

(** ** What the document is made of *)

(** The document, without the state: the overview may raise, then the
    template is filled. *)
Lemma render_unfold (metrics : Snapshot) :
  render metrics =
  let? overview := system_overview metrics in
  let? hostname := getitem "system" "hostname" (system metrics) sys_hostname in
  let? timestamp := getitem "system" "timestamp" (system metrics) sys_timestamp in
  ok (html_template hostname timestamp overview (performance_metrics metrics)
        (disk_analysis metrics) (network_status metrics)
        (security_status metrics) (services_status metrics)).
Proof.
  unfold render, generate_html, _generate_system_overview,
    _generate_performance_metrics, _generate_disk_analysis,
    _generate_network_status, _generate_security_status,
    _generate_services_status, cbind, get_metrics, lift, cret; simpl.
  destruct (system_overview metrics) as [e|overview]; simpl; [done |].
  destruct (getitem "system" "hostname" _ _) as [e|hostname]; simpl; [done |].
  by destruct (getitem "system" "timestamp" _ _) as [e|ts].
Qed.

(** Every field handed to the template is in the result as it stands. *)
Lemma template_fields (hostname ts s0 s1 s2 s3 s4 s5 : string) :
  let html := html_template hostname ts s0 s1 s2 s3 s4 s5 in
  is_infix s0 html /\ is_infix s1 html /\ is_infix s2 html /\
  is_infix s3 html /\ is_infix s4 html /\ is_infix s5 html.
Proof. unfold html_template. repeat split; infix_here. Qed.

(** Every section is in the document as it stands. *)
Lemma render_sections (metrics : Snapshot) (html : string) :
  render metrics = ok html ->
  is_infix (performance_metrics metrics) html /\
  is_infix (disk_analysis metrics) html /\
  is_infix (network_status metrics) html /\
  is_infix (security_status metrics) html /\
  is_infix (services_status metrics) html.
Proof.
  rewrite render_unfold.
  destruct (system_overview metrics) as [e|overview]; simpl; [done |].
  destruct (getitem "system" "hostname" _ _) as [e|hostname]; simpl; [done |].
  destruct (getitem "system" "timestamp" _ _) as [e|ts]; simpl; [done |].
  intros [= <-].
  destruct (template_fields hostname ts overview (performance_metrics metrics)
              (disk_analysis metrics) (network_status metrics)
              (security_status metrics) (services_status metrics))
    as (_ & H1 & H2 & H3 & H4 & H5).
  done.
Qed.

(** A loop that appends one row per element keeps what it started from
    and holds the row of each element. *)
Lemma fold_rows_start {A} (row : A -> string) (l : list A) (init : string) :
  exists rest, fold_left (fun html x => html +:+ row x) l init = init +:+ rest.
Proof.
  revert init. induction l as [|x l IH]; intros init; simpl.
  - exists "". by rewrite append_nil_r.
  - destruct (IH (init +:+ row x)) as [rest ->].
    exists (row x +:+ rest). by rewrite append_assoc.
Qed.

Lemma fold_rows_infix {A} (row : A -> string) (l : list A) (init : string) (x : A) :
  x ∈ l -> is_infix (row x) (fold_left (fun html y => html +:+ row y) l init).
Proof.
  revert init. induction l as [|y l IH]; intros init Hx.
  - by apply elem_of_nil in Hx.
  - simpl. apply elem_of_cons in Hx as [-> | Hx]; [| by apply IH].
    destruct (fold_rows_start row l (init +:+ row y)) as [rest ->].
    apply is_infix_app_r, is_infix_app_l, is_infix_refl.
Qed.

(** ** No escaping (claim C8) *)

Lemma process_row_command (p : process) : is_infix (proc_command p) (process_row p).
Proof. unfold process_row. remember (proc_command p) as c. infix_here. Qed.

Lemma table_has_command (processes : list process) (metric_type : string) (p : process) :
  p ∈ firstn 5 processes ->
  is_infix (proc_command p) (_generate_top_processes_table processes metric_type).
Proof.
  intros Hp. unfold _generate_top_processes_table.
  destruct processes as [|p0 ps]; [by apply elem_of_nil in Hp |].
  apply is_infix_app_r.
  eapply is_infix_trans; [apply process_row_command |].
  by apply (fold_rows_infix process_row).
Qed.

Lemma performance_has_cpu_table (metrics : Snapshot) :
  is_infix
    (_generate_top_processes_table
       (get_or (fields (cpu metrics)) cpu_top_processes []) "CPU")
    (performance_metrics metrics).
Proof.
  unfold performance_metrics.
  remember (_generate_top_processes_table
              (get_or (fields (cpu metrics)) cpu_top_processes []) "CPU") as table.
  clear Heqtable. infix_here.
Qed.

(** C8. The command of each of the first five CPU processes of a snapshot
    stands in the rendered document exactly as collected, whatever
    characters it holds, markup included: nothing is escaped. *)
Theorem command_rendered_verbatim (metrics : Snapshot) (c : cpu_metrics)
    (p : process) (html : string) :
  cpu metrics = Some (Populated c) ->
  p ∈ firstn 5 (cpu_top_processes c) ->
  render metrics = ok html ->
  is_infix (proc_command p) html.
Proof.
  intros Hc Hp Hr.
  destruct (render_sections _ _ Hr) as (Hperf & _).
  eapply is_infix_trans; [| exact Hperf].
  eapply is_infix_trans; [| apply performance_has_cpu_table].
  apply table_has_command. by rewrite Hc.
Qed.

Lemma command_rendered_verbatim_witness :
  exists html,
    render sample_snapshot = ok html /\
    is_infix "sh -c <script>alert(1)</script>" html.
Proof.
  eexists. split; [vm_compute; reflexivity |].
  eapply (command_rendered_verbatim sample_snapshot _
            {| proc_user := "alice"; proc_pid := "4242"; proc_cpu := "0.0";
               proc_mem := "0.0";
               proc_command := "sh -c <script>alert(1)</script>" |}).
  - vm_compute; reflexivity.
  - vm_compute. apply elem_of_cons. right. apply elem_of_cons. by left.
  - vm_compute; reflexivity.
Defined.

(** ** Binary64 arithmetic *)

(** A few values of the float model, as Python prints them. *)
Example repr_tenth : float_repr (dec_to_float false 1 (-1)) = "0.1".
Proof. vm_compute. reflexivity. Qed.

Example repr_sum :
  float_repr (SFadd 53 1024 (dec_to_float false 1 (-1)) (dec_to_float false 2 (-1)))
  = "0.30000000000000004".
Proof. vm_compute. reflexivity. Qed.

Example repr_large : float_repr (fnorm (10 ^ 16) 0) = "1e+16".
Proof. vm_compute. reflexivity. Qed.

Example round_half_down : float_repr (py_round (dec_to_float false 2675 (-3)) 2) = "2.67".
Proof. vm_compute. reflexivity. Qed.

Example round_tie_even : float_repr (py_round (dec_to_float false 25 (-2)) 1) = "0.2".
Proof. vm_compute. reflexivity. Qed.

Example truediv_third :
  (let? x := int_truediv 1 3 in ok (float_repr x)) = ok "0.3333333333333333".
Proof. vm_compute. reflexivity. Qed.

Example usage_percent_three_quarters :
  (let? p := usage_percent 12884901888 17179869184 in ok (float_repr p)) = ok "75.0".
Proof. vm_compute. reflexivity. Qed.

Example format_1f_rounds : format_1f (dec_to_float false 1023999 (-3)) = "1024.0".
Proof. vm_compute. reflexivity. Qed.

Lemma digits2_size (p : positive) : digits2_pos p = Pos.size p.
Proof. induction p as [p IH|p IH|]; simpl; by rewrite ?IH. Qed.

Lemma Zdigits2_log2 (x : Z) : 0 < x -> Zdigits2 x = Z.log2 x + 1.
Proof.
  destruct x as [|p|p]; try lia. intros _. simpl. rewrite digits2_size.
  destruct p; simpl; lia.
Qed.

Lemma Zdigits2_bounds (x : Z) :
  0 < x -> 2 ^ (Zdigits2 x - 1) <= x < 2 ^ Zdigits2 x.
Proof.
  intros Hx. rewrite Zdigits2_log2 by done.
  replace (Z.log2 x + 1 - 1) with (Z.log2 x) by lia.
  replace (Z.log2 x + 1) with (Z.succ (Z.log2 x)) by lia.
  by apply Z.log2_spec.
Qed.

Lemma Zdigits2_unique (x d : Z) :
  2 ^ (d - 1) <= x < 2 ^ d -> 0 < x -> Zdigits2 x = d.
Proof.
  intros H Hx. rewrite Zdigits2_log2 by done.
  assert (0 <= d - 1).
  { destruct (Z.le_gt_cases 0 (d - 1)); [done |].
    assert (d <= 0) by lia. destruct H as [_ H].
    assert (2 ^ d <= 1); [| lia].
    destruct (Z.eq_dec d 0) as [->|]; [done |].
    rewrite Z.pow_neg_r by lia. lia. }
  rewrite (Z.log2_unique x (d - 1)); [lia | done |].
  replace (Z.succ (d - 1)) with d by lia. done.
Qed.

Lemma iter_xO (m d : positive) : Zpos (Pos.iter xO m d) = Zpos m * 2 ^ Zpos d.
Proof.
  induction d as [|d IH] using Pos.peano_ind.
  - simpl. lia.
  - rewrite Pos.iter_succ, Pos2Z.inj_xO, IH, Pos2Z.inj_succ, Z.pow_succ_r by lia. lia.
Qed.

(** A mantissa of 53 bits at an exponent in range is its own rounding. *)
Lemma round_canonical (s : bool) (m : positive) (e : Z) :
  digits2_pos m = 53%positive -> -1074 <= e <= 971 ->
  binary_round_aux 53 1024 s (Zpos m) e loc_Exact = S754_finite s m e.
Proof.
  intros Hd He. unfold binary_round_aux, shr_fexp. cbn [Zdigits2 shr_record_of_loc].
  rewrite Hd.
  replace (fexp 53 1024 (53 + e) - e) with 0 by (unfold fexp, emin; lia).
  cbn [shr shr_m loc_of_shr_record round_nearest_even Zdigits2 shr_record_of_loc].
  rewrite Hd.
  replace (fexp 53 1024 (53 + e) - e) with 0 by (unfold fexp, emin; lia).
  cbn [shr shr_m].
  by rewrite (proj2 (Z.leb_le e (1024 - 53))) by lia.
Qed.

(** The same for a mantissa of 54 bits that is even. *)
Lemma round_even (s : bool) (m : positive) (e : Z) :
  digits2_pos m = 53%positive -> -1074 <= e + 1 <= 971 ->
  binary_round_aux 53 1024 s (Zpos m~0) e loc_Exact = S754_finite s m (e + 1).
Proof.
  intros Hd He. unfold binary_round_aux, shr_fexp.
  cbn [Zdigits2 shr_record_of_loc].
  change (digits2_pos m~0) with (Pos.succ (digits2_pos m)).
  rewrite Hd.
  replace (fexp 53 1024 (Z.pos (Pos.succ 53) + e) - e) with 1 by (unfold fexp, emin; lia).
  cbn [shr SpecFloat.iter_pos shr_1 shr_m loc_of_shr_record round_nearest_even Zdigits2 shr_record_of_loc orb].
  rewrite Hd.
  replace (fexp 53 1024 (53 + (e + 1)) - (e + 1)) with 0 by (unfold fexp, emin; lia).
  cbn [shr shr_m].
  by rewrite (proj2 (Z.leb_le (e + 1) (1024 - 53))) by lia.
Qed.


Lemma fnorm_1024 : fnorm 1024 0 = f1024.
Proof. vm_compute. reflexivity. Qed.

Lemma div_eucl_exact (a b q : Z) : 0 < b -> a = b * q -> Z.div_eucl a b = (q, 0).
Proof.
  intros Hb ->.
  assert (H : Z.div_eucl (b * q) b = ((b * q) / b, (b * q) mod b)).
  { unfold Z.div, Z.modulo. by destruct (Z.div_eucl (b * q) b). }
  rewrite H, (Z.mul_comm b q), Z.div_mul, Z.mod_mul by lia. done.
Qed.

(** Dividing a normal float by 1024.0 lowers its exponent by ten. *)
Lemma div_1024 (m : positive) (e : Z) :
  digits2_pos m = 53%positive -> -1063 <= e <= 981 ->
  SFdiv 53 1024 (S754_finite false m e) f1024 = S754_finite false m (e - 10).
Proof.
  intros Hd He. unfold f1024, SFdiv, SFdiv_core_binary.
  cbn [Zdigits2 xorb]. rewrite Hd.
  change (Z.pos (digits2_pos 4503599627370496)) with 53.
  replace (Z.min (fexp 53 1024 (53 + e - (53 + -42))) (e - -42)) with (e - 11)
    by (unfold fexp, emin; lia).
  replace (e - -42 - (e - 11)) with 53 by lia.
  rewrite Z.shiftl_mul_pow2 by lia.
  rewrite (div_eucl_exact _ _ (Z.pos m~0)) by lia.
  change (new_location 4503599627370496 0) with loc_Exact.
  rewrite round_even by (done || lia).
  f_equal. lia.
Qed.

(** A positive integer below 2^53 converts to a float exactly. *)
Lemma fnorm_small (n : Z) :
  0 < n < 2 ^ 53 ->
  exists m e, fnorm n 0 = S754_finite false m e /\
              digits2_pos m = 53%positive /\ -52 <= e <= 0 /\
              Zpos m = n * 2 ^ (- e).
Proof.
  intros [Hpos Hlt]. destruct n as [|p|p]; try lia.
  pose proof (Zdigits2_bounds (Zpos p) Hpos) as Hb. cbn [Zdigits2] in Hb.
  set (d := Zpos (digits2_pos p)) in *.
  assert (Hd : 1 <= d <= 53).
  { split; [unfold d; lia |].
    destruct (Z.le_gt_cases d 53); [done |].
    assert (2 ^ 53 <= 2 ^ (d - 1)) by (apply Z.pow_le_mono_r; lia). lia. }
  unfold fnorm, binary_normalize, binary_round, shl_align. fold d.
  replace (fexp 53 1024 (d + 0) - 0) with (d - 53) by (unfold fexp, emin; lia).
  replace (fexp 53 1024 (d + 0)) with (d - 53) by (unfold fexp, emin; lia).
  destruct (d - 53) as [|k|k] eqn:Hk; try lia.
  - assert (Hdig : digits2_pos p = 53%positive) by (unfold d in *; lia).
    exists p, 0. rewrite round_canonical by (done || lia).
    repeat split; try done; lia.
  - assert (Hm : Zpos (Pos.iter xO p k) = Zpos p * 2 ^ Zpos k) by apply iter_xO.
    assert (Hdk : Zpos k = 53 - d) by lia.
    assert (Hdig : digits2_pos (Pos.iter xO p k) = 53%positive).
    { assert (Zdigits2 (Zpos (Pos.iter xO p k)) = 53); [| simpl in *; lia].
      apply Zdigits2_unique; [| lia]. rewrite Hm, Hdk.
      replace (2 ^ (53 - 1)) with (2 ^ (d - 1) * 2 ^ (53 - d))
        by (rewrite <- Z.pow_add_r by lia; f_equal; lia).
      replace (2 ^ 53) with (2 ^ d * 2 ^ (53 - d))
        by (rewrite <- Z.pow_add_r by lia; f_equal; lia).
      assert (0 < 2 ^ (53 - d)) by (apply Z.pow_pos_nonneg; lia).
      nia. }
    exists (Pos.iter xO p k), (Z.neg k).
    rewrite round_canonical by (done || lia).
    repeat split; try lia. rewrite Hm. f_equal.
Qed.

Lemma digits53_bounds (m : positive) :
  digits2_pos m = 53%positive -> 2 ^ 52 <= Zpos m < 2 ^ 53.
Proof.
  intros Hd. pose proof (Zdigits2_bounds (Zpos m) ltac:(lia)) as H.
  cbn [Zdigits2] in H. by rewrite Hd in H.
Qed.

(** A normal float is below 1024.0 exactly when its exponent is below -42. *)
Lemma float_lt_1024 (m : positive) (e : Z) :
  digits2_pos m = 53%positive ->
  num_lt (PyFloat (S754_finite false m e)) (PyFloat f1024) = (e <? -42).
Proof.
  intros Hd. apply digits53_bounds in Hd.
  unfold num_lt, num_compare, SFcompare, f1024.
  destruct (Z.compare_spec e (-42)) as [-> | H | H].
  - change (2 ^ 52) with 4503599627370496 in Hd.
    rewrite Pos.compare_cont_spec. cbn [Pos.switch_Eq].
    rewrite Pos2Z.inj_compare.
    destruct (Z.compare_spec (Z.pos m) 4503599627370496) as [H | H | H]; cbn [Z.ltb Z.compare];
      [reflexivity | exfalso; lia | reflexivity].
  - symmetry. by apply Z.ltb_lt.
  - symmetry. apply Z.ltb_ge. lia.
Qed.

Lemma int_lt_1024 (n : Z) : num_lt (PyInt n) (PyFloat f1024) = (n <? 1024).
Proof.
  unfold num_lt, num_compare, float_cmp_int, f1024.
  change (exact_ratio 4503599627370496 (-42)) with (4503599627370496, 4398046511104).
  cbn [fmap option_fmap option_map].
  destruct (Z.compare_spec 4503599627370496 (n * 4398046511104)) as [H | H | H];
    cbn [CompOpp]; symmetry; (apply Z.ltb_lt || apply Z.ltb_ge); lia.
Qed.

(** [round_half_even] depends on the fraction only. *)
Lemma round_half_even_scale (a b c : Z) :
  0 < b -> 0 < c -> round_half_even (a * c) (b * c) = round_half_even a b.
Proof.
  intros Hb Hc. unfold round_half_even.
  rewrite Z.div_mul_cancel_r, Z.mul_mod_distr_r by lia.
  replace (2 * (a mod b * c)) with (2 * (a mod b) * c) by lia.
  by rewrite <- Zmult_compare_compat_r by lia.
Qed.

Lemma round_half_even_cross (P Q N D : Z) :
  0 < Q -> 0 < D -> P * D = N * Q -> round_half_even P Q = round_half_even N D.
Proof.
  intros HQ HD H.
  rewrite <- (round_half_even_scale P Q D), <- (round_half_even_scale N D Q) by done.
  by rewrite H, (Z.mul_comm Q D).
Qed.


Lemma represents_format (x : float) (N D e : Z) :
  represents x N D e -> format_1f x = fixed1 N D.
Proof.
  intros (m & -> & Hd & He & HD & Hv). unfold format_1f, fixed1, exact_ratio.
  assert (Hp : 0 < 2 ^ (- e)) by (apply Z.pow_pos_nonneg; lia).
  destruct (0 <=? e) eqn:Hle.
  - apply Z.leb_le in Hle. assert (e = 0) as -> by lia.
    rewrite (round_half_even_cross (Z.pos m * 2 ^ 0 * 10) 1 (10 * N) D); [done | lia | done |].
    change (2 ^ 0) with 1. change (2 ^ (- 0)) with 1 in Hv. lia.
  - rewrite (round_half_even_cross (Z.pos m * 10) (2 ^ (- e)) (10 * N) D); [done | done | done |].
    nia.
Qed.

Lemma represents_lt (x : float) (N D e : Z) :
  represents x N D e -> (e <? -42) = (N <? 1024 * D).
Proof.
  intros (m & -> & Hd & He & HD & Hv). apply digits53_bounds in Hd.
  assert (Hp : 0 < 2 ^ (- e)) by (apply Z.pow_pos_nonneg; lia).
  destruct (e <? -42) eqn:Hlt; symmetry.
  - apply Z.ltb_lt in Hlt. apply Z.ltb_lt.
    assert (2 ^ 43 <= 2 ^ (- e)) by (apply Z.pow_le_mono_r; lia).
    change (2 ^ 43) with 8796093022208 in *. change (2 ^ 53) with 9007199254740992 in *. nia.
  - apply Z.ltb_ge in Hlt. apply Z.ltb_ge.
    assert (2 ^ (- e) <= 2 ^ 42) by (apply Z.pow_le_mono_r; lia).
    change (2 ^ 42) with 4398046511104 in *. change (2 ^ 52) with 4503599627370496 in *. nia.
Qed.

Lemma represents_div (x : float) (N D e : Z) :
  represents x N D e -> -1063 <= e ->
  represents (SFdiv 53 1024 x f1024) N (1024 * D) (e - 10).
Proof.
  intros (m & -> & Hd & He & HD & Hv) Hlo. exists m.
  rewrite div_1024 by (done || lia). repeat split; try done; try lia.
  replace (- (e - 10)) with (- e + 10) by lia.
  rewrite Z.pow_add_r by lia. change (2 ^ 10) with 1024. lia.
Qed.


Lemma loop_exact (units : list string) :
  forall x N D e,
    represents x N D e -> -1063 + 10 * Z.of_nat (length units) <= e ->
    bytes_to_human_loop units (PyFloat x) = ok (exact_loop units N D).
Proof.
  induction units as [|u rest IH]; intros x N D e Hx He.
  - cbn [bytes_to_human_loop exact_loop]. unfold num_format_1f, to_float.
    cbn [rbind ok]. by rewrite (represents_format _ _ _ _ Hx).
  - cbn [bytes_to_human_loop exact_loop]. rewrite fnorm_1024.
    pose proof Hx as (m & -> & Hd & _).
    rewrite float_lt_1024 by done. rewrite (represents_lt _ _ _ _ Hx).
    destruct (N <? 1024 * D).
    + unfold num_format_1f, to_float. cbn [rbind ok].
      by rewrite (represents_format _ _ _ _ Hx).
    + unfold num_truediv, to_float, float_truediv. cbn [rbind ok is_zero f1024].
      apply (IH _ N (1024 * D) (e - 10)).
      * apply represents_div; [done |]. cbn [length] in He. lia.
      * cbn [length] in He. lia.
Qed.

Lemma loop_cons (u : string) (rest : list string) (v : number) :
  bytes_to_human_loop (u :: rest) v =
  if num_lt v (PyFloat (fnorm 1024 0)) then
    let? text := num_format_1f v in ok (text +:+ " " +:+ u)
  else
    let? next := num_truediv v (PyFloat (fnorm 1024 0)) in
    bytes_to_human_loop rest (PyFloat next).
Proof. reflexivity. Qed.

Lemma exact_loop_cons (u : string) (rest : list string) (N D : Z) :
  exact_loop (u :: rest) N D =
  if N <? 1024 * D then fixed1 N D +:+ " " +:+ u else exact_loop rest N (1024 * D).
Proof. reflexivity. Qed.

Lemma bytes_to_human_exact (n : Z) :
  0 <= n < 2 ^ 53 ->
  bytes_to_human n = ok (exact_loop ["B"; "KB"; "MB"; "GB"; "TB"] n 1).
Proof.
  intros [Hlo Hhi]. unfold bytes_to_human.
  rewrite loop_cons, exact_loop_cons, fnorm_1024, int_lt_1024.
  change (1024 * 1) with 1024.
  destruct (Z.eq_dec n 0) as [-> | Hn].
  - vm_compute. reflexivity.
  - destruct (fnorm_small n ltac:(lia)) as (m & e & Hf & Hd & He & Hv).
    assert (Hx : represents (S754_finite false m e) n 1 e).
    { exists m. repeat split; try done; lia. }
    destruct (n <? 1024).
    + unfold num_format_1f, to_float, float_of_int. rewrite Hf. cbn [rbind ok].
      by rewrite (represents_format _ _ _ _ Hx).
    + unfold num_truediv, to_float, float_of_int, float_truediv. rewrite Hf.
      cbn [rbind ok is_zero f1024].
      apply (loop_exact _ _ n 1024 (e - 10)).
      * apply (represents_div _ _ 1 _ Hx). lia.
      * cbn [length]. lia.
Qed.

Lemma exact_loop_units (n : Z) :
  exact_loop ["B"; "KB"; "MB"; "GB"; "TB"] n 1 =
  fixed1 n (1024 ^ Z.of_nat (unit_index n)) +:+ " " +:+ unit_name (unit_index n).
Proof.
  unfold unit_index. cbn [exact_loop].
  change (1024 * 1) with 1024.
  change (1024 * 1024) with (1024 ^ 2).
  change (1024 * 1024 ^ 2) with (1024 ^ 3).
  change (1024 * 1024 ^ 3) with (1024 ^ 4).
  change (1024 * 1024 ^ 4) with (1024 ^ 5).
  destruct (n <? 1024); [reflexivity |].
  destruct (n <? 1024 ^ 2); [reflexivity |].
  destruct (n <? 1024 ^ 3); [reflexivity |].
  destruct (n <? 1024 ^ 4); [reflexivity |].
  destruct (n <? 1024 ^ 5); reflexivity.
Qed.


(** *** The quotient of two integers does not overflow *)

Lemma shr_1_bounds (mrs : shr_record) :
  0 <= shr_m mrs -> 0 <= shr_m (shr_1 mrs) <= shr_m mrs.
Proof.
  destruct mrs as [m r s]. destruct m as [|[p|p|]|[p|p|]]; cbn [shr_1 shr_m]; lia.
Qed.

Lemma iter_shr_1_bounds (n : positive) :
  forall mrs, 0 <= shr_m mrs ->
    0 <= shr_m (SpecFloat.iter_pos shr_1 n mrs) <= shr_m mrs.
Proof.
  induction n as [n IH|n IH|]; intros mrs H; cbn [SpecFloat.iter_pos].
  - pose proof (shr_1_bounds mrs H) as H1.
    pose proof (IH _ (proj1 H1)) as H2.
    pose proof (IH _ (proj1 H2)) as H3. lia.
  - pose proof (IH _ H) as H2.
    pose proof (IH _ (proj1 H2)) as H3. lia.
  - by apply shr_1_bounds.
Qed.

Lemma shr_bounds (mrs : shr_record) (e n : Z) :
  0 <= shr_m mrs ->
  0 <= shr_m (shr mrs e n).1 <= shr_m mrs /\
  ((shr mrs e n).2 = e \/ (shr mrs e n).2 = e + n).
Proof.
  intros H. unfold shr. destruct n as [|p|p]; cbn [fst snd]; try (split; [lia | by left]).
  split; [by apply iter_shr_1_bounds | by right].
Qed.

Lemma Zdigits2_le (x K : Z) : 0 <= K -> 0 <= x < 2 ^ K -> Zdigits2 x <= K.
Proof.
  intros HK [H0 H1]. destruct (Z.eq_dec x 0) as [-> | Hx]; [simpl; lia |].
  rewrite Zdigits2_log2 by lia.
  assert (Z.log2 x < K); [| lia]. apply Z.log2_lt_pow2; lia.
Qed.

Lemma round_nearest_even_bounds (m : Z) (l : location) :
  0 <= m -> 0 <= round_nearest_even m l <= m + 1.
Proof.
  intros H. unfold round_nearest_even.
  destruct l as [|[| |]]; try lia. destruct (Z.even m); lia.
Qed.

(** Rounding a mantissa of at most [2^S] at exponent [-S] gives a zero or a
    finite float. *)
Lemma round_defined (s : bool) (mx S : Z) (lx : location) :
  0 <= mx <= 2 ^ S -> 53 <= S <= 1074 ->
  match binary_round_aux 53 1024 s mx (- S) lx with
  | S754_infinity _ | S754_nan => False
  | _ => True
  end.
Proof.
  intros Hm HS. unfold binary_round_aux, shr_fexp.
  assert (Hpow : 2 ^ (S + 1) = 2 * 2 ^ S)
    by (rewrite Z.pow_add_r by lia; change (2 ^ 1) with 2; lia).
  assert (Hpow2 : 2 ^ (S + 2) = 4 * 2 ^ S)
    by (rewrite Z.pow_add_r by lia; change (2 ^ 2) with 4; lia).
  assert (Hpos : 0 < 2 ^ S) by (apply Z.pow_pos_nonneg; lia).
  assert (Hdx : Zdigits2 mx <= S + 1) by (apply Zdigits2_le; lia).
  set (r0 := shr_record_of_loc mx lx).
  assert (Hr0 : shr_m r0 = mx) by (unfold r0; by destruct lx as [|[| |]]).
  pose proof (shr_bounds r0 (- S) (fexp 53 1024 (Zdigits2 mx + - S) - - S)
                ltac:(lia)) as [Hb1 He1].
  destruct (shr r0 (- S) _) as [mrs' e']. cbn [fst snd] in Hb1, He1.
  assert (He' : e' <= -52) by (unfold fexp, emin in He1; lia).
  pose proof (round_nearest_even_bounds (shr_m mrs') (loc_of_shr_record mrs')
                ltac:(lia)) as Hr.
  set (m1 := round_nearest_even (shr_m mrs') (loc_of_shr_record mrs')) in *.
  assert (Hd1 : Zdigits2 m1 <= S + 2) by (apply Zdigits2_le; lia).
  pose proof (shr_bounds (shr_record_of_loc m1 loc_Exact) e'
                (fexp 53 1024 (Zdigits2 m1 + e') - e') ltac:(simpl; lia)) as [Hb2 He2].
  destruct (shr (shr_record_of_loc m1 loc_Exact) e' _) as [mrs'' e''].
  cbn [fst snd shr_record_of_loc shr_m] in Hb2, He2.
  assert (He'' : e'' <= 1024 - 53) by (unfold fexp, emin in He2; lia).
  destruct (shr_m mrs'') as [|p|p]; [done | | lia].
  by rewrite (proj2 (Z.leb_le _ _) He'').
Qed.

Lemma div_eucl_div_mod (a b : Z) : Z.div_eucl a b = (a / b, a mod b).
Proof. unfold Z.div, Z.modulo. by destruct (Z.div_eucl a b). Qed.

(** [a / b] on integers with [0 <= a <= b] and [0 < b] returns, and
    returns [0.0] for [a = 0]. *)
Lemma int_truediv_defined (a b : Z) :
  0 <= a <= b -> 0 < b ->
  exists x, int_truediv a b = ok x /\ (a = 0 -> x = S754_zero false).
Proof.
  intros [Ha Hab] Hb. unfold int_truediv.
  rewrite (proj2 (Z.eqb_neq b 0)) by lia.
  destruct b as [|pb|pb]; try lia.
  destruct a as [|pa|pa]; try lia.
  - exists (S754_zero false). by cbn.
  - cbn [raw_int SFdiv xorb]. unfold SFdiv_core_binary.
    assert (Hd : Zdigits2 (Z.pos pa) <= Zdigits2 (Z.pos pb)).
    { rewrite !Zdigits2_log2 by lia.
      pose proof (Z.log2_le_mono (Z.pos pa) (Z.pos pb) Hab). lia. }
    assert (Hdp : 1 <= Zdigits2 (Z.pos pa)) by (cbn; lia).
    set (S := - fexp 53 1024 (Zdigits2 (Z.pos pa) + 0 - (Zdigits2 (Z.pos pb) + 0))).
    assert (HS : 53 <= S <= 1074) by (unfold S, fexp, emin; lia).
    replace (Z.min (fexp 53 1024 (Zdigits2 (Z.pos pa) + 0 - (Zdigits2 (Z.pos pb) + 0)))
               (0 - 0)) with (- S) by (unfold S; lia).
    replace (0 - 0 - - S) with S by lia.
    destruct S as [|pS|pS] eqn:HSeq; try lia.
    rewrite Z.shiftl_mul_pow2 by lia. rewrite div_eucl_div_mod.
    assert (Hpos : 0 < 2 ^ Z.pos pS) by (apply Z.pow_pos_nonneg; lia).
    assert (Hq : 0 <= Z.pos pa * 2 ^ Z.pos pS / Z.pos pb <= 2 ^ Z.pos pS).
    { split; [apply Z.div_pos; lia |].
      apply Z.div_le_upper_bound; [lia |]. nia. }
    pose proof (round_defined false _ (Z.pos pS)
                  (new_location (Z.pos pb) (Z.pos pa * 2 ^ Z.pos pS mod Z.pos pb))
                  Hq ltac:(lia)) as Hr.
    destruct (binary_round_aux 53 1024 false _ _ _) as [s0|s0| |s0 m0 e0];
      try done; eexists; (split; [reflexivity | lia]).
Qed.

Lemma usage_percent_defined (used total : Z) :
  0 <= used <= total -> 0 < total ->
  exists p, usage_percent used total = ok p /\ (used = 0 -> p = S754_zero false).
Proof.
  intros H1 H2. destruct (int_truediv_defined used total H1 H2) as (x & Hx & Hz).
  unfold usage_percent. rewrite Hx. cbn [rbind ok]. eexists. split; [reflexivity |].
  intros H0. rewrite (Hz H0). vm_compute. reflexivity.
Qed.

(** ** Human-readable sizes (claim C6) *)

(** C6. A byte count below 2^53 is printed as its quotient by 1024^k with
    one decimal, k being the number of times 1024 goes into it (five at
    most), followed by the k-th of the units B, KB, MB, GB, TB, PB; so 1024
    bytes are "1.0 KB", 1048576 bytes "1.0 MB" and 999 bytes "999.0 B". *)
Theorem bytes_to_human_units (n : Z) :
  0 <= n < 2 ^ 53 ->
  bytes_to_human n =
    ok (fixed1 n (1024 ^ Z.of_nat (unit_index n)) +:+ " " +:+ unit_name (unit_index n)) /\
  bytes_to_human 1024 = ok "1.0 KB" /\
  bytes_to_human 1048576 = ok "1.0 MB" /\
  bytes_to_human 999 = ok "999.0 B".
Proof.
  intros Hn. split; [| repeat split; vm_compute; reflexivity].
  rewrite bytes_to_human_exact by done. by rewrite exact_loop_units.
Qed.

Lemma bytes_to_human_units_witness :
  bytes_to_human 1536 = ok "1.5 KB" /\ bytes_to_human (1024 ^ 5 - 1) = ok "1024.0 TB".
Proof.
  split.
  - destruct (bytes_to_human_units 1536 ltac:(lia)) as [H _]. exact H.
  - destruct (bytes_to_human_units (1024 ^ 5 - 1) ltac:(lia)) as [H _]. exact H.
Defined.

(** ** Memory usage (claim C4) *)

(** C4, with a positive total. For a memory total [T > 0] and an available
    amount [A] with [0 <= A <= T] (the kernel's estimate, or the free
    memory without it) the collector computes a usage percent, it is
    [round((T - A) / T * 100, 1)], and it is [0.0] when [T = A]. *)
Theorem memory_usage_percent (mem_info : gmap string Z) (T F A : Z) :
  mem_info !! "MemTotal" = Some T ->
  mem_info !! "MemFree" = Some F ->
  default F (mem_info !! "MemAvailable") = A ->
  0 <= A <= T -> 0 < T ->
  exists p,
    memory_usage mem_info = ok (T, A, T - A, p) /\
    spec_usage_percent T A = ok p /\
    (T = A -> p = S754_zero false).
Proof.
  intros HT HF HA Hrange Hpos.
  destruct (usage_percent_defined (T - A) T ltac:(lia) Hpos) as (p & Hp & Hz).
  exists p. split; [| split].
  - unfold memory_usage, dict_getitem. rewrite HT, HF. cbn [rbind ok].
    rewrite HA, Hp. reflexivity.
  - exact Hp.
  - intros ->. apply Hz. lia.
Qed.

Lemma memory_usage_percent_witness :
  exists p,
    memory_usage (<["MemTotal" := 17179869184]> (<["MemFree" := 1073741824]>
                   (<["MemAvailable" := 4294967296]> ∅)))
      = ok (17179869184, 4294967296, 17179869184 - 4294967296, p) /\
    spec_usage_percent 17179869184 4294967296 = ok p /\
    float_repr p = "75.0".
Proof.
  pose (mem_info := (<["MemTotal" := 17179869184]> (<["MemFree" := 1073741824]>
                       (<["MemAvailable" := 4294967296]> ∅))) : gmap string Z).
  destruct (memory_usage_percent mem_info 17179869184 1073741824 4294967296)
    as (p & H1 & H2 & _);
    [vm_compute; reflexivity | vm_compute; reflexivity | vm_compute; reflexivity
    | lia | lia |].
  exists p. split; [exact H1 | split; [exact H2 |]].
  vm_compute in H2. injection H2 as <-. vm_compute. reflexivity.
Defined.

(** With no memory at all ([T = A = 0]) the division raises: the group is
    replaced by an error marker and holds no usage percent. *)
Lemma memory_usage_zero_total :
  memory_usage (<["MemTotal" := 0]> (<["MemFree" := 0]> ∅))
    = raise ZeroDivisionError "division by zero" /\
  memory (collect_memory_metrics host_zero_memory empty_snapshot).1
    = Some (ErrorMarker "division by zero").
Proof. split; vm_compute; reflexivity. Qed.

(** ** Sections of degraded groups (claim C3) *)

Lemma infix_group2 (p a b r : string) :
  is_infix p (a +:+ b) -> is_infix p (a +:+ (b +:+ r)).
Proof. intros H. rewrite <- append_assoc. by apply is_infix_app_r. Qed.

Lemma infix_group3 (p a b c r : string) :
  is_infix p (a +:+ b +:+ c) -> is_infix p (a +:+ (b +:+ (c +:+ r))).
Proof.
  intros H. replace (a +:+ (b +:+ (c +:+ r))) with ((a +:+ b +:+ c) +:+ r)
    by (by rewrite !append_assoc).
  by apply is_infix_app_r.
Qed.

Lemma infix_group4 (p a b c d r : string) :
  is_infix p (a +:+ b +:+ c +:+ d) ->
  is_infix p (a +:+ (b +:+ (c +:+ (d +:+ r)))).
Proof.
  intros H.
  replace (a +:+ (b +:+ (c +:+ (d +:+ r)))) with ((a +:+ b +:+ c +:+ d) +:+ r)
    by (by rewrite !append_assoc).
  by apply is_infix_app_r.
Qed.

Lemma infix_group5 (p a b c d e r : string) :
  is_infix p (a +:+ b +:+ c +:+ d +:+ e) ->
  is_infix p (a +:+ (b +:+ (c +:+ (d +:+ (e +:+ r))))).
Proof.
  intros H.
  replace (a +:+ (b +:+ (c +:+ (d +:+ (e +:+ r)))))
    with ((a +:+ b +:+ c +:+ d +:+ e) +:+ r) by (by rewrite !append_assoc).
  by apply is_infix_app_r.
Qed.

(** [p] occurs in a closed string: by computation (the test is left as
    it stands when a piece of the string is not known). *)
Ltac closed_infix := apply infix_of_contains; exact eq_refl.

(** Looks for [p] in up to five consecutive closed pieces of
    [x1 +:+ (x2 +:+ ...)], from the left. *)
Ltac infix_scan :=
  first
    [ closed_infix
    | apply is_infix_app_r; closed_infix
    | apply infix_group2; closed_infix
    | apply infix_group3; closed_infix
    | apply infix_group4; closed_infix
    | apply infix_group5; closed_infix
    | apply is_infix_app_l; infix_scan ].

Lemma degraded_fields {A} (g : option (group A)) : degraded g -> fields g = None.
Proof. by intros [-> | [-> | [msg ->]]]. Qed.

Lemma disk_placeholder (metrics : Snapshot) :
  fields (disk metrics) = None ->
  is_infix "<p>No filesystem data available</p>" (disk_analysis metrics).
Proof.
  intros H. unfold disk_analysis. cbv zeta. rewrite H. cbn [get_or]. closed_infix.
Qed.

Lemma network_placeholder (metrics : Snapshot) :
  fields (network metrics) = None ->
  is_infix "<p>No network interface data available</p>" (network_status metrics).
Proof.
  intros H. unfold network_status. cbv zeta. rewrite H. cbn [get_or]. closed_infix.
Qed.

Lemma services_placeholder (metrics : Snapshot) :
  fields (services metrics) = None ->
  is_infix "<p>No service data available</p>" (services_status metrics).
Proof.
  intros H. unfold services_status. cbv zeta. rewrite H. cbn [get_or]. closed_infix.
Qed.

Lemma cpu_defaults (metrics : Snapshot) :
  fields (cpu metrics) = None ->
  is_infix cpu_default_card (performance_metrics metrics).
Proof.
  intros H. unfold performance_metrics. cbv zeta. rewrite H. cbn [get_or].
  infix_scan.
Qed.

Lemma memory_defaults (metrics : Snapshot) :
  fields (memory metrics) = None ->
  is_infix memory_default_card (performance_metrics metrics) /\
  is_infix "Used: N/A / Total: N/A" (performance_metrics metrics).
Proof.
  intros H. unfold performance_metrics. cbv zeta. rewrite H. cbn [get_or].
  split; infix_scan.
Qed.

Lemma security_defaults (metrics : Snapshot) :
  fields (security metrics) = None ->
  security_status metrics = security_status empty_snapshot.
Proof.
  intros H. unfold security_status. cbv zeta. rewrite H. reflexivity.
Qed.

(** The load status is computed for every positive core count. *)
Lemma load_status_defined (load : float) (cores : Z) :
  0 < cores < 2 ^ 53 -> exists st, _get_load_status load (Some cores) = ok st.
Proof.
  intros H. destruct (fnorm_small cores H) as (m & e & Hf & _).
  unfold _get_load_status, num_truediv, to_float, float_of_int. rewrite Hf.
  cbn [rbind ok]. unfold float_truediv. cbn [is_zero rbind ok].
  eexists. reflexivity.
Qed.

Lemma system_overview_defined (metrics : Snapshot) (sys : system_info) (cores : Z) :
  system metrics = Some (Populated sys) ->
  sys_cpu_cores sys = Some cores ->
  0 < cores < 2 ^ 53 ->
  exists overview, system_overview metrics = ok overview.
Proof.
  intros Hsys Hcores Hrange.
  destruct (load_status_defined (load_1min (sys_load_avg sys)) cores Hrange) as [st Hst].
  unfold system_overview, require_fields. rewrite Hsys. cbn [rbind ok].
  destruct (determine_overall_health metrics) as [health issues].
  rewrite Hcores, Hst. cbn [rbind ok]. eexists. reflexivity.
Qed.

(** C3, as the code has it. When the system group is populated, with a
    positive CPU core count, rendering succeeds whatever the other groups
    hold, and every section is in the document.  A disk, network or
    services group that is absent, empty or an error marker gives its
    section its placeholder line.  An absent, empty or error cpu, memory or
    security group gives no placeholder line: the section shows the
    defaults (0%, N/A, Unknown). *)
Theorem degraded_groups_render (metrics : Snapshot) (sys : system_info) (cores : Z) :
  system metrics = Some (Populated sys) ->
  sys_cpu_cores sys = Some cores ->
  0 < cores < 2 ^ 53 ->
  exists html,
    render metrics = ok html /\
    is_infix (performance_metrics metrics) html /\
    is_infix (disk_analysis metrics) html /\
    is_infix (network_status metrics) html /\
    is_infix (security_status metrics) html /\
    is_infix (services_status metrics) html /\
    (degraded (disk metrics) ->
     is_infix "<p>No filesystem data available</p>" (disk_analysis metrics)) /\
    (degraded (network metrics) ->
     is_infix "<p>No network interface data available</p>" (network_status metrics)) /\
    (degraded (services metrics) ->
     is_infix "<p>No service data available</p>" (services_status metrics)) /\
    (degraded (cpu metrics) ->
     is_infix cpu_default_card (performance_metrics metrics)) /\
    (degraded (memory metrics) ->
     is_infix memory_default_card (performance_metrics metrics) /\
     is_infix "Used: N/A / Total: N/A" (performance_metrics metrics)) /\
    (degraded (security metrics) ->
     security_status metrics = security_status empty_snapshot).
Proof.
  intros Hsys Hcores Hrange.
  destruct (system_overview_defined metrics sys cores Hsys Hcores Hrange)
    as [overview Hov].
  assert (Hr : exists html, render metrics = ok html).
  { rewrite render_unfold, Hov. unfold getitem. rewrite Hsys. cbn [rbind ok].
    eexists. reflexivity. }
  destruct Hr as [html Hr]. exists html.
  destruct (render_sections _ _ Hr) as (H1 & H2 & H3 & H4 & H5).
  repeat (split; [assumption |]).
  repeat match goal with |- _ /\ _ => split end;
    intros Hd; apply degraded_fields in Hd;
    auto using disk_placeholder, network_placeholder, services_placeholder,
      cpu_defaults, security_defaults;
    by apply memory_defaults.
Qed.

Lemma degraded_groups_render_witness :
  exists html,
    render system_only_snapshot = ok html /\
    is_infix "<p>No filesystem data available</p>" (disk_analysis system_only_snapshot) /\
    is_infix (disk_analysis system_only_snapshot) html.
Proof.
  destruct (degraded_groups_render system_only_snapshot sample_system 4
              eq_refl eq_refl ltac:(lia))
    as (html & Hr & _ & Hdisk & _ & _ & _ & Hplace & _).
  exists html. split; [exact Hr | split; [| exact Hdisk]].
  apply Hplace. by left.
Defined.

(** With the security group absent the page is rendered, and the security
    section holds no placeholder line, only cards that read Unknown;
    with the system group absent nothing is rendered. *)
Lemma absent_groups_without_placeholder :
  security system_only_snapshot = None /\
  renders_with system_only_snapshot (security_status system_only_snapshot) = true /\
  contains "<p>" (security_status system_only_snapshot) = false /\
  contains "data available" (security_status system_only_snapshot) = false /\
  contains security_default_card (security_status system_only_snapshot) = true /\
  system empty_snapshot = None /\
  render empty_snapshot = raise KeyError "'system'".
Proof. repeat split; vm_compute; reflexivity. Qed.

(** ** The collector on unusual hosts *)

Lemma rbind_ok {A B} (a : A) (k : A -> Result B) : rbind (ok a) k = k a.
Proof. reflexivity. Qed.

(** The firewall health is ok on every host: the word looked for,
    [active], is also in [inactive], the status of a host where neither
    firewall unit answers.  The security group itself is always
    populated. *)
Theorem firewall_health_always_ok (w : World) (s : Snapshot) :
  exists sec,
    security (collect_security_metrics w s).1 = Some (Populated sec) /\
    sh_health (sec_firewall sec) = "ok" /\
    ((forall unit_name, exists e,
        check_output_argv w ["systemctl"; "is-active"; unit_name] = inl e) ->
     sh_status (sec_firewall sec) = "inactive").
Proof.
  unfold collect_security_metrics.
  rewrite guarded_outcome by apply set_security_assigns.
  eexists. split; [reflexivity |]. cbn [sec_firewall]. split.
  - unfold firewall_state.
    destruct (check_output_argv w ["systemctl"; "is-active"; "firewalld"]);
      [destruct (check_output_argv w ["systemctl"; "is-active"; "iptables"]) |];
      reflexivity.
  - intros H. unfold firewall_state.
    destruct (H "firewalld") as [e1 ->]. by destruct (H "iptables") as [e2 ->].
Qed.

Lemma firewall_health_always_ok_witness :
  exists sec,
    security (collect_security_metrics bare_host empty_snapshot).1 = Some (Populated sec) /\
    sh_status (sec_firewall sec) = "inactive" /\
    sh_health (sec_firewall sec) = "ok".
Proof.
  destruct (firewall_health_always_ok bare_host empty_snapshot) as (sec & Hs & Hh & Hi).
  exists sec. split; [exact Hs | split; [| exact Hh]].
  apply Hi. intros unit_name. eexists. reflexivity.
Defined.

(** A probe that fails reads as good news: when the update check cannot
    run, the security group reports no pending update with health ok, and
    when the log of failed logins cannot be searched it reports no failed
    login with health ok. *)
Theorem failed_security_probes_read_as_healthy (w : World) (s : Snapshot) :
  exists sec,
    security (collect_security_metrics w s).1 = Some (Populated sec) /\
    ((forall cmd, cmd ∈ ["dnf check-update -q | wc -l"; "yum check-update -q | wc -l"] ->
        exists e, check_output w cmd = inl e) ->
     sec_updates sec = {| ch_count := 0; ch_health := "ok" |}) /\
    ((exists e, check_output w
        "grep 'Failed password' /var/log/secure | grep '$(date +%b' | wc -l" = inl e) ->
     sec_failed_logins sec = {| ch_count := 0; ch_health := "ok" |}).
Proof.
  unfold collect_security_metrics.
  rewrite guarded_outcome by apply set_security_assigns.
  eexists. split; [reflexivity |]. cbn [sec_updates sec_failed_logins]. split.
  - intros H. unfold updates_state.
    destruct (path_exists w "/usr/bin/dnf").
    + destruct (H "dnf check-update -q | wc -l") as [e ->]; [| done].
      apply elem_of_cons. by left.
    + destruct (H "yum check-update -q | wc -l") as [e ->]; [| done].
      apply elem_of_cons. right. apply elem_of_cons. by left.
  - intros [e He]. unfold failed_logins_state. by rewrite He.
Qed.

Lemma failed_security_probes_read_as_healthy_witness :
  exists sec,
    security (collect_security_metrics bare_host empty_snapshot).1 = Some (Populated sec) /\
    sec_updates sec = {| ch_count := 0; ch_health := "ok" |} /\
    sec_failed_logins sec = {| ch_count := 0; ch_health := "ok" |}.
Proof.
  destruct (failed_security_probes_read_as_healthy bare_host empty_snapshot)
    as (sec & Hs & Hu & Hl).
  exists sec. split; [exact Hs | split].
  - apply Hu. intros cmd _. eexists. reflexivity.
  - apply Hl. eexists. reflexivity.
Defined.

Lemma omap_all_none {A B} (f : A -> option B) (l : list A) :
  (forall x, x ∈ l -> f x = None) -> omap f l = [].
Proof.
  induction l as [|x l IH]; intros H; [done |].
  csimpl. rewrite (H x) by (apply elem_of_cons; by left).
  apply IH. intros y Hy. apply H. apply elem_of_cons. by right.
Qed.

(** On a host that has none of the ten monitored units the services group
    is populated, with an empty list, and the services section shows the
    line for missing data under its summary. *)
Theorem no_monitored_unit_shows_placeholder (w : World) (s : Snapshot) :
  (forall name, name ∈ critical_services ->
     exists e, check_output w
       ("systemctl list-unit-files | grep -q '^" +:+ name +:+ ".service'") = inl e) ->
  exists sv,
    services (collect_service_metrics w s).1 = Some (Populated sv) /\
    svc_critical_services sv = [] /\
    is_infix "<p>No service data available</p>"
      (services_status (collect_service_metrics w s).1).
Proof.
  intros H. unfold collect_service_metrics.
  rewrite guarded_outcome by apply set_services_assigns.
  assert (Hnone : omap (service_state w) critical_services = []).
  { apply omap_all_none. intros name Hname. unfold service_state.
    by destruct (H name Hname) as [e ->]. }
  eexists. split; [reflexivity |]. split; [exact Hnone |].
  unfold services_status. cbv zeta.
  cbn [set_services services_body outcome ok fst services fields get_or
       svc_critical_services svc_failed_count].
  rewrite Hnone. apply is_infix_app_r, is_infix_app_l. closed_infix.
Qed.

Lemma no_monitored_unit_shows_placeholder_witness :
  exists sv,
    services (collect_service_metrics bare_host empty_snapshot).1 = Some (Populated sv) /\
    svc_critical_services sv = [] /\
    is_infix "<p>No service data available</p>"
      (services_status (collect_service_metrics bare_host empty_snapshot).1).
Proof.
  apply (no_monitored_unit_shows_placeholder bare_host empty_snapshot).
  intros name _. eexists. reflexivity.
Defined.

(** The default handed to [mem_info.get('MemAvailable', ...)] is
    [mem_info['MemFree']], read before the call: without a [MemFree] line
    the memory group is the marker of that key error, also when
    [MemAvailable] is there. *)
Theorem missing_memfree_fails_memory_group (w : World) (s : Snapshot) (text : string)
    (mem_info : gmap string Z) (total available : Z) :
  read_file w "/proc/meminfo" = ok text ->
  parse_meminfo (file_lines text) ∅ = ok mem_info ->
  mem_info !! "MemTotal" = Some total ->
  mem_info !! "MemAvailable" = Some available ->
  mem_info !! "MemFree" = None ->
  memory (collect_memory_metrics w s).1 = Some (ErrorMarker "'MemFree'").
Proof.
  intros Hfile Hparse Htotal _ Hfree. unfold collect_memory_metrics.
  rewrite guarded_outcome by apply set_memory_assigns.
  unfold memory_body. rewrite Hfile, rbind_ok, Hparse, rbind_ok.
  unfold memory_usage, dict_getitem. rewrite Htotal, rbind_ok, Hfree. reflexivity.
Qed.

Lemma missing_memfree_fails_memory_group_witness :
  memory (collect_memory_metrics (host_with files_without_memfree) empty_snapshot).1 =
  Some (ErrorMarker "'MemFree'").
Proof.
  pose (mem_info := (<["MemAvailable" := 4294967296]> (<["MemTotal" := 17179869184]> ∅))
                    : gmap string Z).
  apply (missing_memfree_fails_memory_group _ _
           "MemTotal:       16777216 kB
MemAvailable:    4194304 kB
" mem_info 17179869184 4294967296); vm_compute; reflexivity.
Defined.

Lemma split_char1_go_no_separator (sep : ascii) (s : string) (cur : list ascii) :
  contains (String sep "") s = false ->
  exists x, split_char1_go sep s cur = [x].
Proof.
  revert cur. induction s as [|c s IH]; intros cur H; cbn [split_char1_go].
  - by eexists.
  - cbn [contains startswith] in H. apply orb_false_elim in H as [H1 H2].
    rewrite andb_true_r in H1.
    destruct (Ascii.eqb_spec c sep) as [-> | _].
    + by rewrite Ascii.eqb_refl in H1.
    + by apply IH.
Qed.

Lemma parse_meminfo_line_without_colon (lines : list string) (line : string)
    (acc : gmap string Z) :
  line ∈ lines -> contains ":" line = false ->
  exists e, parse_meminfo lines acc = inl e.
Proof.
  revert acc. induction lines as [|l lines IH]; intros acc Hin Hline.
  - by apply elem_of_nil in Hin.
  - cbn [parse_meminfo]. apply elem_of_cons in Hin as [<- | Hin].
    + destruct (split_char1_go_no_separator ":" line [] Hline) as [x Hx].
      unfold split_char1. rewrite Hx. by eexists.
    + destruct (split_char1 ":" l) as [|key [|value [|]]]; try by eexists.
      destruct (index (split_ws value) 0) as [e|first]; [by eexists |].
      rewrite rbind_ok.
      destruct (py_int first) as [e|kb]; [by eexists |].
      rewrite rbind_ok. by apply IH.
Qed.

(** A line of [/proc/meminfo] without a colon, an empty one included,
    cannot be unpacked into key and value: the memory group is an error
    marker whatever the other lines hold. *)
Theorem meminfo_line_without_colon_fails_memory_group (w : World) (s : Snapshot)
    (text line : string) :
  read_file w "/proc/meminfo" = ok text ->
  line ∈ file_lines text ->
  contains ":" line = false ->
  exists msg, memory (collect_memory_metrics w s).1 = Some (ErrorMarker msg).
Proof.
  intros Hfile Hin Hline. unfold collect_memory_metrics.
  rewrite guarded_outcome by apply set_memory_assigns.
  destruct (parse_meminfo_line_without_colon _ _ ∅ Hin Hline) as [e He].
  unfold memory_body. rewrite Hfile, rbind_ok, He. by eexists.
Qed.

Lemma meminfo_line_without_colon_fails_memory_group_witness :
  exists msg,
    memory (collect_memory_metrics (host_with files_blank_line) empty_snapshot).1 =
    Some (ErrorMarker msg).
Proof.
  pose (text := "MemTotal:       16777216 kB

MemFree:         1048576 kB
").
  assert (Hin : String newline "" ∈ file_lines text).
  { set (lines := file_lines text). vm_compute in lines. subst lines.
    apply elem_of_cons. right. apply elem_of_cons. by left. }
  exact (meminfo_line_without_colon_fails_memory_group
           (host_with files_blank_line) empty_snapshot text _ eq_refl Hin eq_refl).
Defined.

Lemma rmap_opt_raises {A B} (f : A -> Result (option B)) (xs : list A) (x : A) (e : exn) :
  x ∈ xs -> f x = inl e -> exists e', rmap_opt f xs = inl e'.
Proof.
  induction xs as [|y xs IH]; intros Hin Hx.
  - by apply elem_of_nil in Hin.
  - cbn [rmap_opt]. apply elem_of_cons in Hin as [<- | Hin].
    + rewrite Hx. by eexists.
    + destruct (f y) as [e1|o]; [by eexists |]. rewrite rbind_ok.
      destruct (IH Hin Hx) as [e' ->]. by eexists.
Qed.

(** One line of [df -h] with six fields whose use column is not a number
    (a dash, as for a filesystem without blocks) makes the whole disk
    group an error marker: the filesystems read before it are lost. *)
Theorem unreadable_use_column_fails_disk_group (w : World) (s : Snapshot)
    (output line p0 p1 p2 p3 p4 p5 : string) (rest : list string) (e : exn) :
  check_output w "df -h | grep -vE '^Filesystem|tmpfs|cdrom|udev'" = ok output ->
  line ∈ output_lines output ->
  split_ws line = p0 :: p1 :: p2 :: p3 :: p4 :: p5 :: rest ->
  py_int (rstrip_char "%" p4) = inl e ->
  exists msg, disk (collect_disk_metrics w s).1 = Some (ErrorMarker msg).
Proof.
  intros Hdf Hin Hsplit Hint. unfold collect_disk_metrics.
  rewrite guarded_outcome by apply set_disk_assigns.
  assert (Hline : parse_filesystem line = inl e).
  { unfold parse_filesystem. by rewrite Hsplit, Hint. }
  destruct (rmap_opt_raises _ _ _ _ Hin Hline) as [e' He'].
  unfold disk_body. rewrite Hdf, rbind_ok, He'. by eexists.
Qed.

Lemma unreadable_use_column_fails_disk_group_witness :
  exists msg,
    disk (collect_disk_metrics
            (host_of sample_files commands_dash_usage sample_argv (Some 4))
            empty_snapshot).1 = Some (ErrorMarker msg).
Proof.
  pose (output := "/dev/sda1        50G   39G   11G  79% /
overlay            0     0     0    - /var/lib/overlay
").
  assert (Hin : "overlay            0     0     0    - /var/lib/overlay"
                ∈ output_lines output).
  { set (lines := output_lines output). vm_compute in lines. subst lines.
    apply elem_of_cons. right. apply elem_of_cons. by left. }
  exact (unreadable_use_column_fails_disk_group
           (host_of sample_files commands_dash_usage sample_argv (Some 4))
           empty_snapshot output _ "overlay" "0" "0" "0" "-" "/var/lib/overlay" []
           (int_error "-") eq_refl Hin eq_refl eq_refl).
Defined.

Lemma parse_meminfo_multiples (lines : list string) (acc mem_info : gmap string Z) :
  map_Forall (fun _ v => (1024 | v)) acc ->
  parse_meminfo lines acc = ok mem_info ->
  map_Forall (fun _ v => (1024 | v)) mem_info.
Proof.
  revert acc. induction lines as [|l lines IH]; intros acc Hacc H.
  - by injection H as <-.
  - cbn [parse_meminfo] in H.
    destruct (split_char1 ":" l) as [|key [|value [|]]]; try discriminate.
    destruct (index (split_ws value) 0) as [e|first]; [discriminate |].
    rewrite rbind_ok in H.
    destruct (py_int first) as [e|kb]; [discriminate |].
    rewrite rbind_ok in H. apply (IH (<[key := kb * 1024]> acc)); [| exact H].
    apply map_Forall_insert_2; [| done]. exists kb. lia.
Qed.

Lemma lookup_multiple (mem_info : gmap string Z) (key : string) (d : Z) :
  map_Forall (fun _ v => (1024 | v)) mem_info ->
  (1024 | d) -> (1024 | default d (mem_info !! key)).
Proof.
  intros H Hd. destruct (mem_info !! key) as [v|] eqn:Hv; [| done].
  exact (H key v Hv).
Qed.

(** Every byte count of a populated memory group is a whole number of
    kibibytes: each comes from the kB figures of [/proc/meminfo] by
    multiplying by 1024 and subtracting. *)
Theorem memory_byte_counts_are_multiples_of_1024 (w : World) (s : Snapshot)
    (m : memory_metrics) :
  memory (collect_memory_metrics w s).1 = Some (Populated m) ->
  (1024 | mem_total_bytes m) /\ (1024 | mem_used_bytes m) /\
  (1024 | mem_available_bytes m) /\
  (1024 | mem_swap_total_bytes m) /\ (1024 | mem_swap_used_bytes m).
Proof.
  unfold collect_memory_metrics.
  rewrite guarded_outcome by apply set_memory_assigns.
  destruct (memory_body w s) as [e|m'] eqn:Hbody; [discriminate |].
  intros [= <-]. unfold memory_body in Hbody.
  destruct (read_file w "/proc/meminfo") as [e|text]; [discriminate |].
  rewrite rbind_ok in Hbody.
  destruct (parse_meminfo (file_lines text) ∅) as [e|mem_info] eqn:Hparse;
    [discriminate |].
  rewrite rbind_ok in Hbody.
  assert (Hall : map_Forall (fun _ v => (1024 | v)) mem_info).
  { apply (parse_meminfo_multiples _ ∅ _ (map_Forall_empty _) Hparse). }
  unfold memory_usage, swap_usage, dict_getitem in Hbody.
  destruct (mem_info !! "MemTotal") as [total|] eqn:Htotal; [| discriminate].
  rewrite rbind_ok in Hbody.
  destruct (mem_info !! "MemFree") as [free|] eqn:Hfree; [| discriminate].
  rewrite rbind_ok in Hbody.
  assert (Ht : (1024 | total)) by exact (Hall _ _ Htotal).
  assert (Hf : (1024 | free)) by exact (Hall _ _ Hfree).
  assert (Ha : (1024 | default free (mem_info !! "MemAvailable")))
    by by apply lookup_multiple.
  assert (Hst : (1024 | default 0 (mem_info !! "SwapTotal")))
    by (apply lookup_multiple; [done | apply Z.divide_0_r]).
  assert (Hsf : (1024 | default 0 (mem_info !! "SwapFree")))
    by (apply lookup_multiple; [done | apply Z.divide_0_r]).
  destruct (usage_percent _ total) as [e|p]; [discriminate |].
  rewrite !rbind_ok in Hbody.
  destruct (swap_usage_percent _ _) as [e|sp]; [discriminate |].
  rewrite !rbind_ok in Hbody.
  destruct (check_output w _) as [e|out]; [discriminate |]. rewrite rbind_ok in Hbody.
  repeat (match type of Hbody with
          | rbind ?r _ = _ => destruct r as [e|?]; [discriminate |];
                              rewrite rbind_ok in Hbody
          end).
  injection Hbody as <-. cbn.
  repeat split; auto using Z.divide_sub_r.
Qed.

Lemma memory_byte_counts_are_multiples_of_1024_witness :
  exists m,
    memory (collect_memory_metrics sample_host empty_snapshot).1 = Some (Populated m) /\
    (1024 | mem_used_bytes m).
Proof.
  destruct (memory (collect_memory_metrics sample_host empty_snapshot).1)
    as [[m| |]|] eqn:Hm; try (vm_compute in Hm; discriminate).
  exists m. split; [reflexivity |].
  by destruct (memory_byte_counts_are_multiples_of_1024 sample_host empty_snapshot m Hm)
    as (_ & Hused & _).
Defined.

Lemma length_append (a b : string) :
  String.length (a +:+ b) = (String.length a + String.length b)%nat.
Proof.
  induction a as [|c a IH]; [done |].
  rewrite append_cons. cbn [String.length]. by rewrite IH.
Qed.

Lemma length_str_take (n : nat) (s : string) : (String.length (str_take n s) <= n)%nat.
Proof.
  revert s. induction n as [|n IH]; intros [|c s]; cbn [str_take String.length]; try lia.
  specialize (IH s). lia.
Qed.

Lemma str_take_all (n : nat) (s : string) :
  (String.length s <= n)%nat -> str_take n s = s.
Proof.
  revert s. induction n as [|n IH]; intros [|c s]; cbn [str_take String.length];
    intros H; try done; try lia.
  rewrite IH; [done | lia].
Qed.

(** A collected process keeps the eleventh field of its [ps] line as its
    command when that has at most fifty characters, and its first fifty
    characters followed by three dots otherwise: never more than 53
    characters. *)
Theorem collected_command_is_cut (output : string) (p : process) :
  p ∈ parse_processes output ->
  exists line command,
    line ∈ output_lines output /\
    split_ws_max 10 line !! 10%nat = Some command /\
    (String.length (proc_command p) <= 53)%nat /\
    (len command <= 50 -> proc_command p = command) /\
    (50 < len command -> proc_command p = str_take 50 command +:+ "...").
Proof.
  unfold parse_processes. intros Hp.
  apply list_elem_of_omap in Hp as (line & Hline & Hparse).
  unfold parse_process in Hparse.
  destruct (split_ws_max 10 line)
    as [|user [|pid [|pcpu [|pmem [|f4 [|f5 [|f6 [|f7 [|f8 [|f9 [|command rest]]]]]]]]]]]
    eqn:Hsplit; try discriminate.
  injection Hparse as <-. exists line, command.
  split; [exact Hline |]. split; [by rewrite Hsplit |].
  change (proc_command _)
    with (str_take 50 command +:+ (if 50 <? len command then "..." else "")).
  unfold len. destruct (Z.ltb_spec 50 (Z.of_nat (String.length command))) as [Hlong | Hshort].
  - split; [| split; [lia | done]].
    rewrite length_append. pose proof (length_str_take 50 command). change (String.length "...") with 3%nat. lia.
  - rewrite append_nil_r, str_take_all by lia.
    split; [lia | split; [done | lia]].
Qed.

Lemma collected_command_is_cut_witness :
  exists p, p ∈ parse_processes long_ps_line /\
            (String.length (proc_command p) <= 53)%nat.
Proof.
  pose (p := {| proc_user := "root"; proc_pid := "1"; proc_cpu := "0.0"; proc_mem := "0.1";
                proc_command := "/usr/bin/python3 /opt/tools/a-very-long-script-nam..." |}).
  assert (Hp : p ∈ parse_processes long_ps_line).
  { set (ps := parse_processes long_ps_line). vm_compute in ps. subst ps p.
    apply elem_of_cons. by left. }
  exists p. split; [exact Hp |].
  destruct (collected_command_is_cut long_ps_line p Hp) as (line & command & _ & _ & Hlen & _).
  exact Hlen.
Defined.

Lemma add_addresses_cons (x y : interface) (rest : list interface) (addrs : list string) :
  add_addresses (x :: y :: rest) addrs = x :: add_addresses (y :: rest) addrs.
Proof. reflexivity. Qed.

Lemma add_addresses_last (interfaces : list interface) (i : interface) (addrs : list string) :
  add_addresses (interfaces ++ [i]) addrs =
  (interfaces ++ [{| if_name := if_name i;
                     if_status := if_status i;
                     if_addresses := (if_addresses i ++ addrs)%list |}])%list.
Proof.
  induction interfaces as [|x l IH]; [done |].
  assert (H : exists y r, (l ++ [i])%list = y :: r).
  { destruct l; cbn [app]; eauto. }
  destruct H as (y & r & E).
  change ((x :: l) ++ [i])%list with (x :: (l ++ [i]))%list.
  rewrite E, add_addresses_cons, <- E, IH. reflexivity.
Qed.

(** The addresses of an [inet] line go to the interface appended last,
    after the ones it already has; the interfaces before it are left as
    they are. *)
Theorem inet_line_extends_last_interface (interfaces : list interface) (i : interface)
    (line : string) :
  negb (startswith " " line) && contains ":" line = false ->
  contains "inet " line = true ->
  interface_step (interfaces ++ [i]) line =
  (interfaces ++ [{| if_name := if_name i;
                     if_status := if_status i;
                     if_addresses :=
                       (if_addresses i ++ inet_addresses (split_ws (strip line)))%list |}])%list.
Proof.
  intros Hheader Hinet. unfold interface_step. rewrite Hheader, Hinet.
  rewrite length_app. cbn [length].
  replace (length interfaces + 1)%nat with (S (length interfaces)) by lia.
  cbn [Nat.eqb negb andb]. apply add_addresses_last.
Qed.

Lemma inet_line_extends_last_interface_witness :
  interface_step
    [{| if_name := "lo"; if_status := "UP"; if_addresses := ["127.0.0.1/8"] |};
     {| if_name := "eth0"; if_status := "UP"; if_addresses := [] |}]
    "    inet 192.0.2.10/24 brd 192.0.2.255 scope global eth0" =
  [{| if_name := "lo"; if_status := "UP"; if_addresses := ["127.0.0.1/8"] |};
   {| if_name := "eth0"; if_status := "UP"; if_addresses := ["192.0.2.10/24"] |}].
Proof.
  exact (inet_line_extends_last_interface
           [{| if_name := "lo"; if_status := "UP"; if_addresses := ["127.0.0.1/8"] |}]
           {| if_name := "eth0"; if_status := "UP"; if_addresses := [] |}
           "    inet 192.0.2.10/24 brd 192.0.2.255 scope global eth0" eq_refl eq_refl).
Defined.

Lemma sum_from (xs : list Z) (a : Z) : fold_left Z.add xs a = a + sum xs.
Proof.
  unfold sum. revert a. induction xs as [|x xs IH]; intros a; cbn [fold_left]; [lia |].
  rewrite (IH (a + x)), (IH (0 + x)). lia.
Qed.

Lemma sum_bounds (xs : list Z) (i : nat) (x : Z) :
  Forall (fun t => 0 <= t) xs -> xs !! i = Some x -> 0 <= x <= sum xs.
Proof.
  intros Hall. revert i. induction Hall as [|y ys Hy Hys IH]; intros i Hx; [done |].
  assert (Hs : 0 <= sum ys).
  { clear IH Hx. induction Hys as [|z zs Hz Hzs IH]; [done |].
    unfold sum. cbn [fold_left]. rewrite sum_from. lia. }
  unfold sum. cbn [fold_left]. rewrite sum_from.
  destruct i as [|i]; cbn in Hx.
  - injection Hx as <-. lia.
  - specialize (IH i Hx). lia.
Qed.

(** The CPU usage from the counters of the first line of [/proc/stat],
    none of them negative: with a tick counted the percent is computed,
    and is 0.0 when all of them are idle ticks; with no tick at all the
    division fails and the CPU group is the marker of that error. *)
Theorem cpu_usage_of_counters (w : World) (s : Snapshot) (text : string)
    (times : list Z) (idle : Z) :
  read_file w "/proc/stat" = ok text ->
  rmap py_int (drop 1 (split_ws (strip (readline text)))) = ok times ->
  times !! 3%nat = Some idle ->
  Forall (fun t => 0 <= t) times ->
  (0 < sum times ->
   exists p, usage_percent (sum times - idle) (sum times) = ok p /\
             (idle = sum times -> p = S754_zero false)) /\
  (sum times = 0 ->
   cpu (collect_cpu_metrics w s).1 = Some (ErrorMarker "division by zero")).
Proof.
  intros Hfile Htimes Hidle Hall.
  pose proof (sum_bounds times 3 idle Hall Hidle) as Hb. split.
  - intros Hpos.
    destruct (usage_percent_defined (sum times - idle) (sum times)) as (p & Hp & Hz);
      [lia | lia |].
    exists p. split; [exact Hp |]. intros ->. apply Hz. lia.
  - intros Hzero. unfold collect_cpu_metrics.
    rewrite guarded_outcome by apply set_cpu_assigns.
    unfold cpu_body. rewrite Hfile, rbind_ok, Htimes, rbind_ok.
    unfold index. rewrite Hidle, rbind_ok, Hzero. reflexivity.
Qed.

Lemma cpu_usage_of_counters_witness :
  cpu (collect_cpu_metrics (host_with files_zero_ticks) empty_snapshot).1 =
  Some (ErrorMarker "division by zero").
Proof.
  refine (proj2 (cpu_usage_of_counters (host_with files_zero_ticks) empty_snapshot
                   "cpu  0 0 0 0 0 0 0 0 0 0
" [0; 0; 0; 0; 0; 0; 0; 0; 0; 0] 0 eq_refl eq_refl eq_refl _) eq_refl).
  repeat constructor; lia.
Defined.

Lemma exact_ratio_positive (m : positive) (e p d : Z) :
  exact_ratio m e = (p, d) -> 0 < p /\ 0 < d.
Proof.
  unfold exact_ratio. destruct (0 <=? e) eqn:He; intros [= <- <-].
  - apply Z.leb_le in He. split; [| lia].
    apply Z.mul_pos_pos; [lia | by apply Z.pow_pos_nonneg].
  - apply Z.leb_gt in He. split; [lia |]. apply Z.pow_pos_nonneg; lia.
Qed.

Lemma uptime_parts (p d : Z) :
  0 <= p -> 0 < d ->
  p / (d * 86400) = Z.quot p d / 86400 /\
  (p mod (d * 86400)) / (d * 3600) = (Z.quot p d) mod 86400 / 3600.
Proof.
  intros Hp Hd. rewrite Z.quot_div_nonneg by lia. split.
  - by rewrite Z.div_div by lia.
  - rewrite Z.rem_mul_r by lia. rewrite <- Z.div_div by lia. f_equal.
    rewrite Z.add_comm, Z.mul_comm, Z.div_add_l by lia.
    rewrite (Z.div_small (p mod d) d) by (apply Z.mod_pos_bound; lia). lia.
Qed.

Lemma uptime_of_float (x : float) (days hours seconds : Z) :
  int_floordiv x 86400 = ok days ->
  int_mod_floordiv x 86400 3600 = ok hours ->
  int_of_float x = ok seconds ->
  0 < seconds ->
  days = seconds / 86400 /\ hours = seconds mod 86400 / 3600.
Proof.
  unfold int_floordiv, int_mod_floordiv, int_of_float.
  destruct x as [s| s| |s m e]; cbn [float_exact]; try discriminate.
  - intros _ _ [= <-] Hpos. by vm_compute in Hpos.
  - destruct (exact_ratio m e) as [p d] eqn:Hr.
    destruct (exact_ratio_positive m e p d Hr) as [Hp Hd].
    intros [= <-] [= <-] [= <-] Hpos. destruct s.
    + pose proof (Z.quot_opp_l p d ltac:(lia)) as Hq.
      pose proof (Z.quot_pos p d ltac:(lia) Hd). lia.
    + destruct (uptime_parts p d ltac:(lia) Hd) as [H1 H2]. by rewrite H1, H2.
Qed.

(** The uptime text and the uptime in seconds of the system group agree,
    for an uptime of at least one second: the text is the whole days of
    the seconds, which is the day count the overview computes again, and
    the whole hours of what is left, from 0 to 23. *)
Theorem uptime_text_matches_seconds (w : World) (info : system_info) :
  system_info_body w = ok info ->
  0 < sys_uptime_seconds info < 2 ^ 53 ->
  let seconds := sys_uptime_seconds info in
  sys_uptime info =
    str_int (seconds / 86400) +:+ "d " +:+ str_int (seconds mod 86400 / 3600) +:+ "h" /\
  0 <= seconds mod 86400 / 3600 < 24.
Proof.
  intros H [Hpos _]. cbv zeta. unfold system_info_body in H.
  repeat match type of H with
         | rbind ?r _ = _ =>
             let E := fresh "E" in
             destruct r as [?|?] eqn:E; [discriminate |]; rewrite rbind_ok in H
         end.
  injection H as <-. cbn [sys_uptime sys_uptime_seconds] in *.
  match goal with
  | Hd : int_floordiv ?x _ = inr ?days,
    Hh : int_mod_floordiv ?x _ _ = inr ?hours,
    Hs : int_of_float ?x = inr ?seconds |- _ =>
      destruct (uptime_of_float x days hours seconds Hd Hh Hs Hpos) as [-> ->]
  end.
  split; [reflexivity |]. split.
  - apply Z.div_pos; [| lia]. apply Z.mod_pos_bound. lia.
  - apply Z.div_lt_upper_bound; [lia |].
    change (3600 * 24) with 86400. apply Z.mod_pos_bound. lia.
Qed.

Lemma uptime_text_matches_seconds_witness :
  exists info, system_info_body sample_host = ok info /\ sys_uptime info = "3d 4h".
Proof.
  destruct (system_info_body sample_host) as [e|info] eqn:Hinfo;
    [vm_compute in Hinfo; discriminate |].
  exists info. split; [reflexivity |].
  assert (Hs : sys_uptime_seconds info = 273600).
  { vm_compute in Hinfo. by injection Hinfo as <-. }
  destruct (uptime_text_matches_seconds sample_host info Hinfo) as [Htext _].
  { rewrite Hs. lia. }
  rewrite Htext, Hs. reflexivity.
Defined.

(** ** The renderer on what the collector can leave *)

Lemma render_raises_with_overview (metrics : Snapshot) (e : exn) :
  system_overview metrics = inl e -> render metrics = inl e.
Proof. intros H. by rewrite render_unfold, H. Qed.

Lemma system_overview_needs_core_count (metrics : Snapshot) (sys : system_info) :
  system metrics = Some (Populated sys) ->
  (sys_cpu_cores sys = None ->
   system_overview metrics =
   raise TypeError "unsupported operand type(s) for /: 'float' and 'NoneType'") /\
  (sys_cpu_cores sys = Some 0 ->
   system_overview metrics = raise ZeroDivisionError "float division by zero").
Proof.
  intros Hsys. split; intros Hcores;
    unfold system_overview, require_fields; rewrite Hsys, rbind_ok;
    destruct (determine_overall_health metrics) as [health issues];
    rewrite Hcores; reflexivity.
Qed.

(** With the system group populated, a core count that is [None] (what
    [os.cpu_count()] returns when it cannot tell) or zero makes the load
    status raise, and with it the whole rendering: no document. *)
Theorem render_needs_core_count (metrics : Snapshot) (sys : system_info) :
  system metrics = Some (Populated sys) ->
  (sys_cpu_cores sys = None ->
   render metrics =
   raise TypeError "unsupported operand type(s) for /: 'float' and 'NoneType'") /\
  (sys_cpu_cores sys = Some 0 ->
   render metrics = raise ZeroDivisionError "float division by zero").
Proof.
  intros Hsys. destruct (system_overview_needs_core_count metrics sys Hsys) as [H1 H2].
  split; intros Hcores; apply render_raises_with_overview; auto.
Qed.

Lemma render_needs_core_count_witness :
  render coreless_snapshot =
  raise TypeError "unsupported operand type(s) for /: 'float' and 'NoneType'".
Proof.
  exact (proj1 (render_needs_core_count coreless_snapshot coreless_system eq_refl) eq_refl).
Defined.

Lemma health_fold_ok_iff (fss : list filesystem) (h : string) (issues : list string) :
  (h = "ok" <-> issues = []) ->
  (fold_left disk_health_step fss (h, issues)).1 = "ok" <->
  (fold_left disk_health_step fss (h, issues)).2 = [].
Proof.
  revert h issues. induction fss as [|fs fss IH]; intros h issues H; [exact H |].
  cbn [fold_left]. unfold disk_health_step at 2 4.
  destruct (fs_usage_percent fs >? 90); apply IH; [| exact H].
  split; [discriminate |]. intros Hnil. by apply app_eq_nil in Hnil as [_ ?].
Qed.

(** The overall health is ok exactly when no issue is listed: every rule
    that lowers the health also names its issue. *)
Theorem health_ok_iff_no_issue (metrics : Snapshot) :
  (determine_overall_health metrics).1 = "ok" <->
  (determine_overall_health metrics).2 = [].
Proof.
  unfold determine_overall_health.
  destruct (has_key (cpu metrics) && _); destruct (has_key (memory metrics) && _);
    (destruct (has_key (disk metrics)); [apply health_fold_ok_iff |]); cbn;
    split; intros H; try discriminate; try reflexivity.
Qed.

Lemma health_ok_iff_no_issue_witness :
  (determine_overall_health (synthetic_snapshot 50)).2 = [].
Proof.
  exact (proj1 (health_ok_iff_no_issue (synthetic_snapshot 50)) eq_refl).
Defined.

Lemma fold_rows_keeps {A} (row : A -> string) (l : list A) (init : string) :
  is_infix init (fold_left (fun html x => html +:+ row x) l init).
Proof.
  destruct (fold_rows_start row l init) as [rest ->].
  apply is_infix_app_r, is_infix_refl.
Qed.

Lemma disk_section_has_filesystem (metrics : Snapshot) (fs : filesystem) :
  fs ∈ get_or (fields (disk metrics)) disk_filesystems [] ->
  is_infix (filesystem_row fs) (disk_analysis metrics).
Proof.
  intros Hfs. unfold disk_analysis. cbv zeta.
  destruct (get_or (fields (disk metrics)) disk_filesystems []) as [|fs0 fss];
    [by apply elem_of_nil in Hfs |].
  apply is_infix_app_r.
  destruct (get_or (fields (disk metrics)) disk_large_files []) as [|lf lfs].
  - apply is_infix_app_r. by apply (fold_rows_infix filesystem_row).
  - apply is_infix_app_r.
    eapply is_infix_trans; [| apply (fold_rows_keeps large_file_row)].
    apply is_infix_app_r, is_infix_app_r. by apply (fold_rows_infix filesystem_row).
Qed.

Lemma disk_section_has_large_file (metrics : Snapshot) (file : large_file) :
  file ∈ get_or (fields (disk metrics)) disk_large_files [] ->
  is_infix (large_file_row file) (disk_analysis metrics).
Proof.
  intros Hfile. unfold disk_analysis. cbv zeta.
  destruct (get_or (fields (disk metrics)) disk_large_files []) as [|lf lfs];
    [by apply elem_of_nil in Hfile |].
  apply is_infix_app_r, is_infix_app_r. by apply (fold_rows_infix large_file_row).
Qed.

Lemma network_section_has_interface (metrics : Snapshot) (i : interface) :
  i ∈ get_or (fields (network metrics)) net_interfaces [] ->
  is_infix (interface_block i) (network_status metrics).
Proof.
  intros Hi. unfold network_status. cbv zeta.
  destruct (get_or (fields (network metrics)) net_interfaces []) as [|i0 rest];
    [by apply elem_of_nil in Hi |].
  apply is_infix_app_r, is_infix_app_r. by apply (fold_rows_infix interface_block).
Qed.

Lemma services_section_has_service (metrics : Snapshot) (x : service) :
  x ∈ get_or (fields (services metrics)) svc_critical_services [] ->
  is_infix (service_row x) (services_status metrics).
Proof.
  intros Hx. unfold services_status. cbv zeta.
  destruct (get_or (fields (services metrics)) svc_critical_services []) as [|x0 xs];
    [by apply elem_of_nil in Hx |].
  apply is_infix_app_r, is_infix_app_r. by apply (fold_rows_infix service_row).
Qed.

Lemma filesystem_row_names (fs : filesystem) :
  is_infix (fs_filesystem fs) (filesystem_row fs) /\
  is_infix (fs_mountpoint fs) (filesystem_row fs).
Proof.
  unfold filesystem_row. cbv zeta. destruct fs as [dev size used avail pct mnt st].
  cbn [fs_filesystem fs_mountpoint fs_size fs_used fs_available fs_usage_percent fs_status].
  split; infix_here.
Qed.

Lemma large_file_row_path (file : large_file) :
  is_infix (lf_path file) (large_file_row file).
Proof.
  unfold large_file_row. destruct file as [size date path].
  cbn [lf_size lf_date lf_path]. infix_here.
Qed.

Lemma interface_block_name (i : interface) :
  is_infix (if_name i) (interface_block i).
Proof.
  unfold interface_block. cbv zeta. destruct i as [name st addrs].
  cbn [if_name if_status if_addresses]. infix_here.
Qed.

Lemma service_row_name (x : service) : is_infix (svc_name x) (service_row x).
Proof.
  unfold service_row. cbv zeta. destruct x as [name st en h].
  cbn [svc_name svc_status svc_enabled svc_health]. infix_here.
Qed.

(** What the collector read from command output stands in the document as
    it was read, whatever characters it holds: the device and the
    mountpoint of every filesystem, the path of every large file, the name
    of every network interface and of every service. *)
Theorem collected_names_rendered_verbatim (metrics : Snapshot) (html : string) :
  render metrics = ok html ->
  (forall d fs, disk metrics = Some (Populated d) -> fs ∈ disk_filesystems d ->
     is_infix (fs_filesystem fs) html /\ is_infix (fs_mountpoint fs) html) /\
  (forall d file, disk metrics = Some (Populated d) -> file ∈ disk_large_files d ->
     is_infix (lf_path file) html) /\
  (forall n i, network metrics = Some (Populated n) -> i ∈ net_interfaces n ->
     is_infix (if_name i) html) /\
  (forall sv x, services metrics = Some (Populated sv) -> x ∈ svc_critical_services sv ->
     is_infix (svc_name x) html).
Proof.
  intros Hr. destruct (render_sections _ _ Hr) as (_ & Hdisk & Hnet & _ & Hsvc).
  repeat match goal with |- _ /\ _ => split end.
  - intros d fs Hd Hfs. destruct (filesystem_row_names fs) as [H1 H2].
    assert (Hrow : is_infix (filesystem_row fs) html).
    { eapply is_infix_trans; [| exact Hdisk].
      apply disk_section_has_filesystem. by rewrite Hd. }
    split; eapply is_infix_trans; eauto.
  - intros d file Hd Hfile.
    eapply is_infix_trans; [apply large_file_row_path |].
    eapply is_infix_trans; [| exact Hdisk].
    apply disk_section_has_large_file. by rewrite Hd.
  - intros n i Hn Hi.
    eapply is_infix_trans; [apply interface_block_name |].
    eapply is_infix_trans; [| exact Hnet].
    apply network_section_has_interface. by rewrite Hn.
  - intros sv x Hsv Hx.
    eapply is_infix_trans; [apply service_row_name |].
    eapply is_infix_trans; [| exact Hsvc].
    apply services_section_has_service. by rewrite Hsv.
Qed.

Lemma collected_names_rendered_verbatim_witness :
  exists html, render (synthetic_snapshot 50) = ok html /\ is_infix "/data" html.
Proof.
  destruct (render (synthetic_snapshot 50)) as [e|html] eqn:Hr;
    [vm_compute in Hr; discriminate |].
  exists html. split; [reflexivity |].
  destruct (collected_names_rendered_verbatim (synthetic_snapshot 50) html Hr)
    as (Hfs & _).
  refine (proj2 (Hfs _ (data_filesystem 50) eq_refl _)).
  apply elem_of_cons. by left.
Defined.

Lemma table_of_first_five (processes : list process) (metric_type : string) :
  _generate_top_processes_table (firstn 5 processes) metric_type =
  _generate_top_processes_table processes metric_type.
Proof.
  destruct processes as [|p ps]; [done |].
  unfold _generate_top_processes_table.
  change (firstn 5 (p :: ps)) with (p :: firstn 4 ps).
  change (p :: firstn 4 ps) with (firstn 5 (p :: ps)).
  by rewrite take_take.
Qed.

(** The process tables show five rows at most: a snapshot and the same
    snapshot with its CPU processes cut after the fifth give the same
    document. *)
Theorem processes_after_the_fifth_not_rendered (metrics : Snapshot) (c : cpu_metrics) :
  let cut := {| cpu_usage_percent := cpu_usage_percent c;
                cpu_model := cpu_model c;
                cpu_cores := cpu_cores c;
                cpu_load_avg := cpu_load_avg c;
                cpu_top_processes := firstn 5 (cpu_top_processes c) |} in
  render (set_cpu (Populated cut) metrics).1 = render (set_cpu (Populated c) metrics).1.
Proof.
  intros cut. rewrite !render_unfold.
  assert (Hperf : performance_metrics (set_cpu (Populated cut) metrics).1 =
                  performance_metrics (set_cpu (Populated c) metrics).1).
  { unfold performance_metrics. cbv zeta.
    cbn [set_cpu fst cpu memory fields get_or cut cpu_usage_percent cpu_top_processes].
    by rewrite table_of_first_five. }
  rewrite Hperf. reflexivity.
Qed.

(** ** A whole run *)

Lemma system_info_fields (w : World) (info : system_info) :
  system_info_body w = ok info ->
  sys_cpu_cores info = cpu_count w /\
  sys_hostname info = gethostname w /\
  sys_timestamp info = timestamp w.
Proof.
  unfold system_info_body. intros H.
  repeat match type of H with
         | rbind ?r _ = _ =>
             destruct r as [?|?]; [discriminate |]; rewrite rbind_ok in H
         end.
  by injection H as <-.
Qed.

(** [collect_all_metrics] on a host whose system group can be collected:
    one assignment after the other. *)
Ltac collect_all_steps H :=
  unfold collect_all_metrics, collect_system_info, collect_cpu_metrics,
    collect_memory_metrics, collect_disk_metrics, collect_network_metrics,
    collect_service_metrics, collect_security_metrics;
  unfold cbind, lift; rewrite H; cbn [ok set_system];
  rewrite guarded_outcome by apply set_cpu_assigns; cbn [ok set_cpu];
  rewrite guarded_outcome by apply set_memory_assigns; cbn [ok set_memory];
  rewrite guarded_outcome by apply set_disk_assigns; cbn [ok set_disk];
  rewrite guarded_outcome by apply set_network_assigns; cbn [ok set_network];
  rewrite guarded_outcome by apply set_services_assigns; cbn [ok set_services];
  rewrite guarded_outcome by apply set_security_assigns; cbn [ok set_security];
  cbn [fst system cpu memory disk network services security].

Lemma collected_system_group (w : World) (s : Snapshot) (info : system_info) :
  system_info_body w = ok info ->
  system (collect_all_metrics w s).1 = Some (Populated info).
Proof. intros H. collect_all_steps H. reflexivity. Qed.

(** When the system group can be collected, the snapshot holds all seven
    groups, whatever it held before: the system group as collected, the
    CPU, memory, disk and network groups as their fields or the marker of
    their error, and the services and security groups always as fields. *)
Theorem collected_snapshot_has_every_group (w : World) (s : Snapshot) (info : system_info) :
  system_info_body w = ok info ->
  exists (rc : Result cpu_metrics) (rm : Result memory_metrics)
         (rd : Result disk_metrics) (rn : Result network_metrics)
         (sv : services_metrics) (se : security_metrics),
    (collect_all_metrics w s).1 =
    {| system := Some (Populated info);
       cpu := Some (outcome rc);
       memory := Some (outcome rm);
       disk := Some (outcome rd);
       network := Some (outcome rn);
       services := Some (Populated sv);
       security := Some (Populated se) |} /\
    sys_cpu_cores info = cpu_count w.
Proof.
  intros H. collect_all_steps H.
  do 6 eexists. split; [reflexivity |]. by apply system_info_fields.
Qed.

Lemma collected_snapshot_has_every_group_witness :
  exists info,
    system (collect_all_metrics bare_host coreless_snapshot).1 = Some (Populated info) /\
    sys_cpu_cores info = Some 4 /\
    cpu (collect_all_metrics bare_host coreless_snapshot).1 <> None.
Proof.
  destruct (system_info_body bare_host) as [e|info] eqn:Hinfo;
    [vm_compute in Hinfo; discriminate |].
  destruct (collected_snapshot_has_every_group bare_host coreless_snapshot info Hinfo)
    as (rc & rm & rd & rn & sv & se & Hs & Hcores).
  exists info. rewrite Hs. cbn [system cpu].
  split; [reflexivity | split; [exact Hcores | discriminate]].
Defined.


(** [main], step by step: collect, render, make the directory, write. *)
Lemma main_unfold (h : Host) (args : Args) :
  main h args =
  match (collect_all_metrics (world h) empty_snapshot).2 with
  | inl _ => ([], 1)
  | inr _ =>
      match render (collect_all_metrics (world h) empty_snapshot).1 with
      | inl _ => ([], 1)
      | inr html =>
          match makedirs h (dirname (args_output args)) with
          | inl _ => ([], 1)
          | inr _ =>
              match write_text h (args_output args) html with
              | inl _ => ([MadeDirs (dirname (args_output args))], 1)
              | inr _ =>
                  ([MadeDirs (dirname (args_output args));
                    Wrote (args_output args) html], 0)
              end
          end
      end
  end.
Proof.
  unfold main, main_body, render.
  destruct (collect_all_metrics (world h) empty_snapshot) as [metrics [e|[]]];
    cbn [fst snd run_bind run_lift]; [done |].
  destruct (generate_html metrics) as [metrics' [e|html]];
    cbn [fst snd run_bind run_lift]; [done |].
  unfold perform.
  destruct (makedirs h (dirname (args_output args))) as [e|[]]; [done |].
  destruct (write_text h (args_output args) html) as [e|[]]; [done |].
  cbn [app]. change (email_enabled CONFIG) with false.
  by rewrite andb_false_r.
Qed.


Lemma dir_prefix_without_slash (p : string) :
  contains "/" p = false -> dir_prefix p = None.
Proof.
  induction p as [|c p IH]; [done |]. cbn [contains startswith dir_prefix].
  intros H. apply orb_false_elim in H as [H1 H2]. rewrite andb_true_r in H1.
  rewrite (IH H2). rewrite Ascii.eqb_sym. by rewrite H1.
Qed.

Lemma dirname_without_slash (p : string) : contains "/" p = false -> dirname p = "".
Proof. intros H. unfold dirname. by rewrite (dir_prefix_without_slash p H). Qed.

(** Runs that end with status 1 before anything is done: the system group
    cannot be collected; or the host gives no core count, or zero; or the
    output path has no directory part, whose empty name [os.makedirs]
    refuses. *)
Theorem main_fails_before_writing (h : Host) (args : Args) :
  (exists e, system_info_body (world h) = inl e) \/
  cpu_count (world h) = None \/
  cpu_count (world h) = Some 0 \/
  contains "/" (args_output args) = false ->
  main h args = ([], 1).
Proof.
  intros H. rewrite main_unfold, collect_all_metrics_result.
  destruct (system_info_body (world h)) as [e|info] eqn:Hinfo; [done |].
  pose proof (collected_system_group (world h) empty_snapshot info Hinfo) as Hsys.
  destruct (system_info_fields (world h) info Hinfo) as (Hcores & _).
  destruct (system_overview_needs_core_count _ info Hsys) as [Hnone Hzero].
  destruct H as [[e He] | [Hc | [Hc | Hout]]].
  - discriminate.
  - rewrite (render_raises_with_overview _ _ (Hnone ltac:(by rewrite Hcores))). done.
  - rewrite (render_raises_with_overview _ _ (Hzero ltac:(by rewrite Hcores))). done.
  - destruct (render _) as [e|html]; [done |].
    by rewrite (dirname_without_slash _ Hout).
Qed.

Lemma main_fails_before_writing_witness :
  main bare_run_host (args_to "dashboard.html") = ([], 1).
Proof.
  apply (main_fails_before_writing bare_run_host (args_to "dashboard.html")).
  right. right. right. reflexivity.
Defined.




(** Only a missing release file is handled when the system group is
    collected: when [/etc/redhat-release] is there and cannot be read, the
    exception leaves the collector and the run ends with status 1,
    nothing done. *)
Theorem unreadable_release_file_aborts_run (h : Host) (args : Args) (e : exn) :
  read_file (world h) "/etc/redhat-release" = inl e ->
  is_FileNotFoundError e = false ->
  system_info_body (world h) = inl e /\ main h args = ([], 1).
Proof.
  intros Hfile Hclass.
  assert (Hbody : system_info_body (world h) = inl e).
  { unfold system_info_body. by rewrite Hfile, Hclass. }
  split; [exact Hbody |].
  by rewrite main_unfold, collect_all_metrics_result, Hbody.
Qed.

Lemma unreadable_release_file_aborts_run_witness :
  main closed_release_host default_args = ([], 1).
Proof.
  exact (proj2 (unreadable_release_file_aborts_run closed_release_host default_args
                  (permission_denied "/etc/redhat-release") eq_refl eq_refl)).
Defined.
